(** * cpuinfo-app: the data-collection layer, embedded and verified

    The development follows [src/cpuinfo_app/utils.py] and
    [src/cpuinfo_app/providers.py], the cell and row builders of
    [src/cpuinfo_app/formatters.py] and the exit test of [src/main.py].
    Python values are a small tagged union, exceptions are an explicit error
    monad, the operating system is a record of probe outcomes, and Python
    floats are binary64 numbers kept as signed dyadic rationals with the
    rounding written out. *)

From stdpp Require Import base numbers option list strings gmap.
From Stdlib Require Import ZArith Lia Ascii String.

Local Open Scope Z_scope.

(* ================================================================== *)
(** * Exceptions and the error monad                                   *)
(* ================================================================== *)

(** A raised exception.  [except Exception] catches the second kind only:
    [KeyboardInterrupt], [SystemExit] and [GeneratorExit] derive from
    [BaseException] directly. *)
Inductive exn :=
| BaseExc (name : string)
| Exc (name : string).

Definition is_Exception (e : exn) : bool :=
  match e with Exc _ => true | BaseExc _ => false end.

Definition OverflowError : exn := Exc "OverflowError".
Definition ValueError : exn := Exc "ValueError".
Definition TypeError : exn := Exc "TypeError".
Definition AttributeError : exn := Exc "AttributeError".
Definition OSError : exn := Exc "OSError".
Definition KeyboardInterrupt : exn := BaseExc "KeyboardInterrupt".

(** The outcome of running a piece of Python code. *)
Inductive result (A : Type) :=
| Ok (a : A)
| Raise (e : exn).
Arguments Ok {A} & a.
Arguments Raise {A} e.

#[global] Instance result_ret : MRet result := fun A a => Ok a.
#[global] Instance result_bind : MBind result := fun A B k r =>
  match r with Ok a => k a | Raise e => Raise e end.

Definition is_ok {A} (r : result A) : bool :=
  match r with Ok _ => true | Raise _ => false end.

(** [try: body / except Exception: handler]. *)
Definition try_except {A} (body : result A) (handler : result A) : result A :=
  match body with
  | Ok a => Ok a
  | Raise e => if is_Exception e then handler else Raise e
  end.

(* ================================================================== *)
(** * Text                                                             *)
(* ================================================================== *)

(** A text is the sequence of its Unicode code points, as a Python [str]
    is.  A string literal of this development stands for the code points
    that its UTF-8 bytes encode ([txt]), and a character literal for its
    code point ([chr]); both are coercions. *)
Abbreviation char := Z (only parsing).
Abbreviation text := (list Z) (only parsing).

Definition chr (c : ascii) : Z := Z.of_N (N_of_ascii c).

Fixpoint txt (s : string) : list Z :=
  match s with
  | EmptyString => []
  | String b0 s1 =>
      let n0 := chr b0 in
      if n0 <? 128 then n0 :: txt s1
      else
        match s1 with
        | EmptyString => []
        | String b1 s2 =>
            if n0 <? 224 then ((n0 - 192) * 64 + (chr b1 - 128)) :: txt s2
            else
              match s2 with
              | EmptyString => []
              | String b2 s3 =>
                  if n0 <? 240
                  then ((n0 - 224) * 4096 + (chr b1 - 128) * 64 + (chr b2 - 128))
                       :: txt s3
                  else
                    match s3 with
                    | EmptyString => []
                    | String b3 s4 =>
                        ((n0 - 240) * 262144 + (chr b1 - 128) * 4096
                         + (chr b2 - 128) * 64 + (chr b3 - 128)) :: txt s4
                    end
              end
        end
  end.

Coercion txt : string >-> list.
Coercion chr : ascii >-> Z.

(** [c.isspace()], the test that [str.strip], [str.split] and the regular
    expression class [\s] share: the characters of bidirectional type WS, B
    or S and those of category Zs.  They are U+0009 to U+000D, U+001C to
    U+0020, U+0085, U+00A0, U+1680, U+2000 to U+200A, U+2028, U+2029,
    U+202F, U+205F and U+3000. *)
Definition is_space (c : char) : bool :=
  ((9 <=? c) && (c <=? 13)) || ((28 <=? c) && (c <=? 32))
  || (c =? 133) || (c =? 160) || (c =? 5760)
  || ((8192 <=? c) && (c <=? 8202)) || (c =? 8232) || (c =? 8233)
  || (c =? 8239) || (c =? 8287) || (c =? 12288).

(** The line feed: the one character that [.] does not take and that ends
    a line for [^] and [$] under [re.MULTILINE]. *)
Definition is_nl (c : char) : bool := c =? 10.

(** The digit zero of each script that has decimal digits, in Unicode 14.0
    (the character database of CPython 3.11); the nine code points after
    each are its digits one to nine.  These 660 characters are the category
    Nd: what the class [\d] matches and what [float] reads as digits. *)
Definition digit_zeros : list Z :=
  [48; 1632; 1776; 1984; 2406; 2534; 2662; 2790; 2918; 3046; 3174; 3302;
   3430; 3558; 3664; 3792; 3872; 4160; 4240; 6112; 6160; 6470; 6608; 6784;
   6800; 6992; 7088; 7232; 7248; 42528; 43216; 43264; 43472; 43504; 43600;
   44016; 65296; 66720; 68912; 69734; 69872; 69942; 70096; 70384; 70736;
   70864; 71248; 71360; 71472; 71904; 72016; 72784; 73040; 73120; 92768;
   92864; 93008; 120782; 120792; 120802; 120812; 120822; 123200; 123632;
   125264; 130032].

(** The zero of the script that the digit [c] belongs to. *)
Definition digit_zero (c : char) : option Z :=
  find (fun z => (z <=? c) && (c <=? z + 9)) digit_zeros.

Definition is_digit (c : char) : bool :=
  match digit_zero c with Some _ => true | None => false end.

Definition digit_val (c : char) : Z :=
  match digit_zero c with Some z => c - z | None => 0 end.

Definition digit_char (d : Z) : char := 48 + d.

(** [str.lower] and [str.upper] on the ASCII letters; every other
    character is left as it is.  The program lowers a text only to look it
    up among ASCII names without the letter k, and in lower case a
    character outside ASCII stays outside ASCII, U+212A KELVIN SIGN apart,
    which becomes k: so the lookup is decided as [str.lower] decides it.
    It raises to upper case only the one character that [[KMG]] matched,
    an ASCII letter or the Kelvin sign, which is its own upper case. *)
Definition lower_char (c : char) : char :=
  if (65 <=? c) && (c <=? 90) then c + 32 else c.

Definition upper_char (c : char) : char :=
  if (97 <=? c) && (c <=? 122) then c - 32 else c.

(* The character tests are computed on closed characters only. *)
Arguments txt : simpl never.
Arguments chr : simpl never.
Arguments is_space : simpl never.
Arguments is_nl : simpl never.
Arguments digit_zero : simpl never.
Arguments is_digit : simpl never.
Arguments digit_val : simpl never.
Arguments digit_char : simpl never.
Arguments lower_char : simpl never.
Arguments upper_char : simpl never.

Fixpoint str_map (f : char -> char) (s : text) : text :=
  match s with
  | [] => []
  | c :: s' => f c :: str_map f s'
  end.

Definition lower (s : text) : text := str_map lower_char s.

Definition str_eqb (a b : text) : bool := bool_decide (a = b).

Definition is_empty (s : text) : bool :=
  match s with [] => true | _ :: _ => false end.

(** [str.lstrip], [str.rstrip] and [str.strip] with no argument. *)
Fixpoint lstrip (s : text) : text :=
  match s with
  | [] => []
  | c :: s' => if is_space c then lstrip s' else s
  end.

Fixpoint rstrip (s : text) : text :=
  match s with
  | [] => []
  | c :: s' =>
      match rstrip s' with
      | [] => if is_space c then [] else [c]
      | r => c :: r
      end
  end.

Definition strip (s : text) : text := lstrip (rstrip s).

(** [str.split] with no argument: the maximal runs of non-whitespace. *)
Fixpoint split_ws (s : text) : list text :=
  match s with
  | [] => []
  | c :: s' =>
      let rest := split_ws s' in
      if is_space c then rest
      else
        match s' with
        | [] => [[c]]
        | c' :: _ =>
            if is_space c' then [c] :: rest
            else
              match rest with
              | t :: ts => (c :: t) :: ts
              | [] => [[c]]
              end
        end
  end.

(** [Some rest] when [s = p ++ rest]. *)
Fixpoint strip_prefix (p s : text) : option text :=
  match p with
  | [] => Some s
  | a :: p' =>
      match s with
      | [] => None
      | b :: s' => if bool_decide (a = b) then strip_prefix p' s' else None
      end
  end.

(** The characters up to the next line feed: what a greedy [.+] can take. *)
Fixpoint line_prefix (s : text) : text :=
  match s with
  | [] => []
  | c :: s' => if is_nl c then [] else c :: line_prefix s'
  end.

(** The maximal run of leading digits, and what follows it. *)
Fixpoint span_digits (s : text) : text * text :=
  match s with
  | [] => ([], [])
  | c :: s' =>
      if is_digit c then
        let '(ds, rest) := span_digits s' in (c :: ds, rest)
      else ([], s)
  end.

(** The number a digit string denotes, continuing from [acc]. *)
Fixpoint digits_value (acc : Z) (s : text) : Z :=
  match s with
  | [] => acc
  | c :: s' => digits_value (10 * acc + digit_val c) s'
  end.

(** Decimal digits of a non-negative integer; [fuel] bounds their number. *)
Fixpoint show_digits (fuel : nat) (n : Z) (acc : text) : text :=
  match fuel with
  | O => acc
  | S fuel' =>
      if n <? 10 then digit_char n :: acc
      else show_digits fuel' (n / 10) (digit_char (n mod 10) :: acc)
  end.

(** The decimal digits of an integer, with its sign. *)
Definition show_Z (n : Z) : text :=
  if n <? 0
  then chr "-" :: show_digits (S (Z.to_nat (Z.log2 (- n)))) (- n) []
  else show_digits (S (Z.to_nat (Z.log2 n))) n [].

(** The format specification [02] on a non-negative integer: at least two
    digits, padded with a zero. *)
Definition fmt_02 (n : Z) : text :=
  if n <? 10 then chr "0" :: show_Z n else show_Z n.

(** CPython prints no integer of more than 4300 decimal digits (the default
    of [sys.set_int_max_str_digits]): [int_str_limit] is the least absolute
    value it refuses. *)
Definition int_str_limit : Z := 10 ^ 4300.

(** [str(n)] for an integer, which is also what an f-text field without a
    format specification inserts: the digits, or [ValueError] beyond the
    limit. *)
Definition str_int (n : Z) : result text :=
  if int_str_limit <=? Z.abs n then Raise ValueError else Ok (show_Z n).

(* ================================================================== *)
(** * Regular expressions of the program                               *)
(* ================================================================== *)

(** [\s*(.+)$] under [re.MULTILINE], matched at the head of [t]; the result
    is group 1.  [\s*] is greedy and gives characters back one at a time;
    [.] takes anything but a line feed, and [$] holds at the end of the text
    and before a line feed, so group 1 always runs to the end of its line. *)
Fixpoint re_capture (t : text) : option text :=
  match t with
  | [] => None
  | (c :: t') =>
      if is_space c then
        match re_capture t' with
        | Some g => Some g
        | None => if is_nl c then None else Some (line_prefix t)
        end
      else Some (line_prefix t)
  end.

(** [KEY\s*:\s*(.+)$] matched at the head of [s]. *)
Definition re_match_key (key s : text) : option text :=
  match strip_prefix key s with
  | None => None
  | Some t =>
      match lstrip t with
      | (c :: u) => if bool_decide (c = chr ":") then re_capture u else None
      | [] => None
      end
  end.

(** [re.search(r"^KEY\s*:\s*(.+)$", content, re.MULTILINE)]: the leftmost
    position at the start of the text or just after a line feed where the
    pattern matches; [bol] tells whether the current position is one. *)
Fixpoint re_search_from (key : text) (bol : bool) (s : text) : option text :=
  match (if bol then re_match_key key s else None) with
  | Some g => Some g
  | None =>
      match s with
      | [] => None
      | (c :: s') => re_search_from key (is_nl c) s'
      end
  end.

Definition re_search_key (key content : text) : option text :=
  re_search_from key true content.


(* ================================================================== *)
(** * Python floats                                                    *)
(* ================================================================== *)

(** A binary64 number: not-a-number, an infinity, or the finite value
    [(-1)^neg * m * 2^e] with [0 <= m].  Zero keeps its sign.  Every
    operation below computes the exact result on these dyadic rationals and
    rounds it once to binary64 (53 significant bits, ties to even, gradual
    underflow from [2^-1074], overflow to an infinity from [2^1024]). *)
Inductive pyfloat :=
| FNaN
| FInf (neg : bool)
| FFin (neg : bool) (m : Z) (e : Z).

(** The nearest integer to [n / d], ties to the even one ([0 <= n], [0 < d]). *)
Definition round_half_even (n d : Z) : Z :=
  let q := n / d in
  let r := n mod d in
  match 2 * r ?= d with
  | Lt => q
  | Gt => q + 1
  | Eq => if Z.even q then q else q + 1
  end.

(** [n / d < 2 ^ l], for positive [n] and [d] and any integer [l]. *)
Definition rat_lt_pow2 (n d l : Z) : bool :=
  if 0 <=? l then n <? d * 2 ^ l else n * 2 ^ (- l) <? d.

(** [floor (log2 (n / d))], for positive [n] and [d]. *)
Definition floor_log2_rat (n d : Z) : Z :=
  let l := Z.log2 n - Z.log2 d in
  if rat_lt_pow2 n d l then l - 1 else l.

(** Comparison of [m1 * 2^e1] with [m2 * 2^e2] (the mantissas may be signed). *)
Definition dy_cmp (m1 e1 m2 e2 : Z) : comparison :=
  let e := Z.min e1 e2 in
  (m1 * 2 ^ (e1 - e)) ?= (m2 * 2 ^ (e2 - e)).

(** The binary64 number nearest to [(-1)^neg * n / d] ([0 <= n], [0 < d]). *)
Definition binary64_round (neg : bool) (n d : Z) : pyfloat :=
  if n =? 0 then FFin neg 0 0
  else
    let e := Z.max (floor_log2_rat n d - 52) (-1074) in
    let m := if 0 <=? e then round_half_even n (d * 2 ^ e)
             else round_half_even (n * 2 ^ (- e)) d in
    match dy_cmp m e 1 1024 with
    | Lt => FFin neg m e
    | _ => FInf neg
    end.

(** Rounding of the dyadic [(-1)^neg * m * 2^e]. *)
Definition round_dyadic (neg : bool) (m e : Z) : pyfloat :=
  if 0 <=? e then binary64_round neg (m * 2 ^ e) 1
  else binary64_round neg m (2 ^ (- e)).

Definition signed (neg : bool) (m : Z) : Z := if neg then - m else m.

(** [float(z)] for an integer: the nearest binary64 number, and
    [OverflowError] when there is none below the infinities. *)
Definition float_of_Z (z : Z) : result pyfloat :=
  match binary64_round (z <? 0) (Z.abs z) 1 with
  | FInf _ => Raise OverflowError
  | f => Ok f
  end.

(** A float literal with an integer value below [2^53]. *)
Definition float_lit (z : Z) : pyfloat := FFin (z <? 0) (Z.abs z) 0.

(** [a < b] on floats; every comparison with not-a-number is false. *)
Definition flt (a b : pyfloat) : bool :=
  match a, b with
  | FNaN, _ | _, FNaN => false
  | FInf na, FInf nb => na && negb nb
  | FInf na, FFin _ _ _ => na
  | FFin _ _ _, FInf nb => negb nb
  | FFin n1 m1 e1, FFin n2 m2 e2 =>
      match dy_cmp (signed n1 m1) e1 (signed n2 m2) e2 with
      | Lt => true
      | _ => false
      end
  end.

(** [a - b]. *)
Definition fsub (a b : pyfloat) : pyfloat :=
  match a, b with
  | FNaN, _ | _, FNaN => FNaN
  | FInf na, FInf nb => if bool_decide (na = nb) then FNaN else FInf na
  | FInf na, FFin _ _ _ => FInf na
  | FFin _ _ _, FInf nb => FInf (negb nb)
  | FFin n1 m1 e1, FFin n2 m2 e2 =>
      let e := Z.min e1 e2 in
      let s := signed n1 m1 * 2 ^ (e1 - e) - signed n2 m2 * 2 ^ (e2 - e) in
      if s =? 0 then FFin (n1 && negb n2 && (m1 =? 0)) 0 0
      else round_dyadic (s <? 0) (Z.abs s) e
  end.

(** [a * b]. *)
Definition fmul (a b : pyfloat) : pyfloat :=
  match a, b with
  | FNaN, _ | _, FNaN => FNaN
  | FInf na, FInf nb => FInf (xorb na nb)
  | FInf na, FFin nb m _ | FFin nb m _, FInf na =>
      if m =? 0 then FNaN else FInf (xorb na nb)
  | FFin n1 m1 e1, FFin n2 m2 e2 =>
      round_dyadic (xorb n1 n2) (m1 * m2) (e1 + e2)
  end.

(** [a / b] as IEEE 754 defines it.  Python raises [ZeroDivisionError] on a
    zero divisor instead; the only divisor in this program is the literal
    [1024.0]. *)
Definition fdiv (a b : pyfloat) : pyfloat :=
  match a, b with
  | FNaN, _ | _, FNaN => FNaN
  | FInf na, FInf nb => FNaN
  | FInf na, FFin nb _ _ => FInf (xorb na nb)
  | FFin na _ _, FInf nb => FFin (xorb na nb) 0 0
  | FFin n1 m1 e1, FFin n2 m2 e2 =>
      if m2 =? 0 then (if m1 =? 0 then FNaN else FInf (xorb n1 n2))
      else if 0 <=? e1 - e2
           then binary64_round (xorb n1 n2) (m1 * 2 ^ (e1 - e2)) m2
           else binary64_round (xorb n1 n2) m1 (m2 * 2 ^ (e2 - e1))
  end.

(** [int(f)]: truncation towards zero. *)
Definition int_of_float (f : pyfloat) : result Z :=
  match f with
  | FNaN => Raise ValueError
  | FInf _ => Raise OverflowError
  | FFin neg m e =>
      Ok (signed neg (if 0 <=? e then m * 2 ^ e else m / 2 ^ (- e)))
  end.

(** [n / d] rendered with two digits after the point, correctly rounded:
    the digits of the nearest multiple of [1/100], ties to even. *)
Definition fmt2_rat (neg : bool) (n d : Z) : text :=
  let r := round_half_even (100 * n) d in
  (if neg then "-" else "") ++ show_Z (r / 100) ++ "." ++ fmt_02 (r mod 100).

(** The format specification [.2f]. *)
Definition fmt_2f (f : pyfloat) : text :=
  match f with
  | FNaN => "nan"
  | FInf neg => if neg then "-inf" else "inf"
  | FFin neg m e =>
      if 0 <=? e then fmt2_rat neg (m * 2 ^ e) 1
      else fmt2_rat neg m (2 ^ (- e))
  end.

(** [round(f, k)] for a float and [0 <= k]: the binary64 number nearest to
    the decimal that [f] rounds to at [k] digits. *)
Definition round_float (f : pyfloat) (k : Z) : pyfloat :=
  match f with
  | FFin neg m e =>
      let r := if 0 <=? e then 10 ^ k * (m * 2 ^ e)
               else round_half_even (10 ^ k * m) (2 ^ (- e)) in
      binary64_round neg r (10 ^ k)
  | _ => f
  end.

(* ================================================================== *)
(** * Python values                                                    *)
(* ================================================================== *)

(** What a probe may hand back.  [VObj] is an object with named attributes
    (a psutil named tuple, say) and the truth value its class gives it. *)
#[warnings="-register-all"]
Inductive value :=
| VNone
| VBool (b : bool)
| VInt (z : Z)
| VFloat (f : pyfloat)
| VStr (s : text)
| VList (items : list value)
| VDict (items : list (string * value))
| VObj (truthy : bool) (attrs : list (string * value)).

(** [bool(v)]. *)
Definition truth (v : value) : bool :=
  match v with
  | VNone => false
  | VBool b => b
  | VInt z => negb (z =? 0)
  | VFloat (FFin _ m _) => negb (m =? 0)
  | VFloat _ => true
  | VStr s => negb (is_empty s)
  | VList l => match l with [] => false | _ => true end
  | VDict d => match d with [] => false | _ => true end
  | VObj t _ => t
  end.

(** [isinstance(v, int)]; [bool] is a subclass of [int]. *)
Definition isinstance_int (v : value) : bool :=
  match v with VInt _ | VBool _ => true | _ => false end.

(** [isinstance(v, (int, float))]. *)
Definition isinstance_int_float (v : value) : bool :=
  match v with VInt _ | VBool _ | VFloat _ => true | _ => false end.

Fixpoint assoc (k : string) (items : list (string * value)) : option value :=
  match items with
  | [] => None
  | (k', v) :: rest => if bool_decide (k = k') then Some v else assoc k rest
  end.

(** [hasattr(v, name)] and [v.name], for the attribute names this program
    reads (total, available, current, min, max), which none of the built-in
    types has. *)
Definition hasattr (v : value) (name : string) : bool :=
  match v with
  | VObj _ attrs => match assoc name attrs with Some _ => true | None => false end
  | _ => false
  end.

Definition getattr (v : value) (name : string) : result value :=
  match v with
  | VObj _ attrs =>
      match assoc name attrs with Some x => Ok x | None => Raise AttributeError end
  | _ => Raise AttributeError
  end.

(** [v < 0] for a value that passed [isinstance(v, (int, float))]. *)
Definition lt_zero (v : value) : bool :=
  match v with
  | VInt z => z <? 0
  | VFloat f => flt f (float_lit 0)
  | _ => false
  end.

(** [float(v)] on such a value. *)
Definition to_float (v : value) : result pyfloat :=
  match v with
  | VInt z => float_of_Z z
  | VBool b => Ok (float_lit (if b then 1 else 0))
  | VFloat f => Ok f
  | _ => Raise TypeError
  end.

(** [int(v)] on such a value. *)
Definition to_int (v : value) : result Z :=
  match v with
  | VInt z => Ok z
  | VBool b => Ok (if b then 1 else 0)
  | VFloat f => int_of_float f
  | _ => Raise TypeError
  end.

(** [round(v, k)] with [0 <= k]: an integer stays an integer, a float is
    rounded to [k] decimals, anything else has no [__round__]. *)
Definition py_round (v : value) (k : Z) : result value :=
  match v with
  | VInt z => Ok (VInt z)
  | VBool b => Ok (VInt (if b then 1 else 0))
  | VFloat f => Ok (VFloat (round_float f k))
  | _ => Raise TypeError
  end.

(* ================================================================== *)
(** * utils.py                                                         *)
(* ================================================================== *)

Definition UNKNOWN : text := "N/A".

(** [safe_call(func, default)]: a zero-argument callable is a thunk. *)
Definition safe_call {A} (func : unit -> result A) (default : A) : result A :=
  try_except (func ()) (Ok default).

Definition byte_units : list text := [txt "B"; txt "KB"; txt "MB"; txt "GB"; txt "TB"].

(** The [for unit in ...] loop of [format_bytes], with its fall-through. *)
Fixpoint format_bytes_loop (units : list text) (size : pyfloat) : text :=
  match units with
  | [] => fmt_2f size ++ " PB"
  | unit :: rest =>
      if flt size (float_lit 1024) then fmt_2f size ++ " " ++ unit
      else format_bytes_loop rest (fdiv size (float_lit 1024))
  end.

Definition format_bytes (num_bytes : value) : result value :=
  if negb (isinstance_int_float num_bytes) || lt_zero num_bytes
  then Ok (VStr UNKNOWN)
  else
    size ← to_float num_bytes;
    Ok (VStr (format_bytes_loop byte_units size)).

(** The day suffix of [format_duration]: U+0434 CYRILLIC SMALL LETTER DE. *)
Definition day_suffix : text := [1076].

Definition format_duration (seconds : value) : result value :=
  if negb (isinstance_int_float seconds) || lt_zero seconds
  then Ok (VStr UNKNOWN)
  else
    total ← to_int seconds;
    let days := total / 86400 in
    let remainder := total mod 86400 in
    let hours := remainder / 3600 in
    let remainder := remainder mod 3600 in
    let minutes := remainder / 60 in
    let secs := remainder mod 60 in
    let clock := fmt_02 hours ++ ":" ++ fmt_02 minutes ++ ":" ++ fmt_02 secs in
    if 0 <? days
    then d ← str_int days; Ok (VStr (d ++ day_suffix ++ " " ++ clock))
    else Ok (VStr clock).

(* ================================================================== *)
(** * The probed system                                                *)
(* ================================================================== *)

(** What [platform.uname()] returns, as far as the program reads it. *)
Record uname_result := {
  u_system : text;
  u_release : text;
  u_version : text;
  u_machine : text;
  u_processor : text;
}.

(** One [index*] entry under the cache directory: [idx / "level"] and
    [idx / "size"], each with its [exists()] and [read_text()]. *)
Record cache_index := {
  level_exists : result bool;
  size_exists : result bool;
  level_read_text : result text;
  size_read_text : result text;
}.

(** The outcome of every external call the collectors make.  A probe either
    returns or raises; those whose result the program inspects dynamically
    return an arbitrary [value]. *)
Record env := {
  platform_uname : result uname_result;
  platform_system : result text;
  platform_release : result text;
  platform_version : result text;
  platform_machine : result text;
  platform_processor : result text;
  socket_gethostname : result value;
  time_time : result pyfloat;
  psutil_boot_time : result value;
  psutil_virtual_memory : result value;
  psutil_cpu_count : bool -> result value;
  psutil_cpu_freq : result value;
  psutil_cpu_percent : result value;
  (* CPUINFO_PATH = /proc/cpuinfo *)
  cpuinfo_exists : result bool;
  cpuinfo_read_text : result text;
  (* CACHE_DIR = /sys/devices/system/cpu/cpu0/cache *)
  cache_dir_exists : result bool;
  cache_dir_glob : result (list cache_index);
}.

(* ================================================================== *)
(** * providers.py                                                     *)
(* ================================================================== *)

Definition GENERIC_CPU_NAMES : list text :=
  [txt "x86_64"; txt "amd64"; txt "arm64"; txt "aarch64"; txt "i386"; txt "i686"].

(** [a or b] on strings, [b] being evaluated only when [a] is empty. *)
Definition str_or (a : text) (b : result text) : result text :=
  if is_empty a then b else Ok a.

(** [platform.processor() or platform.uname().processor]. *)
Definition processor_name (os : env) : result text :=
  p ← platform_processor os;
  str_or p (u ← platform_uname os; Ok (u_processor u)).

Definition _cpu_brand (os : env) : result text :=
  name ← try_except (processor_name os) (Ok "");
  if negb (is_empty name)
     && negb (bool_decide (lower (strip name) ∈ GENERIC_CPU_NAMES))
  then Ok name
  else
    ex ← cpuinfo_exists os;
    if ex : bool then
      try_except
        (content ← cpuinfo_read_text os;
         match re_search_key "model name" content with
         | Some g => Ok (strip g)
         | None => Ok UNKNOWN
         end)
        (Ok UNKNOWN)
    else Ok UNKNOWN.

Definition _cpu_architecture (os : env) : result text :=
  safe_call (fun _ => m ← platform_machine os; str_or m (Ok UNKNOWN)) UNKNOWN.

Definition _cpu_count (os : env) (logical : bool) : result value :=
  value ← safe_call (fun _ => psutil_cpu_count os logical) VNone;
  if isinstance_int value then Ok value else Ok (VStr UNKNOWN).

(** [round(freq.name, 2) if freq.name is not None else UNKNOWN]. *)
Definition freq_field (freq : value) (name : string) : result value :=
  x ← getattr freq name;
  match x with
  | VNone => Ok (VStr UNKNOWN)
  | _ => x ← getattr freq name; py_round x 2
  end.

Definition _cpu_frequency (os : env) : result value :=
  freq ← safe_call (fun _ => psutil_cpu_freq os) VNone;
  if negb (truth freq)
  then Ok (VDict [("current", VStr UNKNOWN); ("min", VStr UNKNOWN);
                  ("max", VStr UNKNOWN)])
  else
    current ← freq_field freq "current";
    min ← freq_field freq "min";
    max ← freq_field freq "max";
    Ok (VDict [("current", current); ("min", min); ("max", max)]).

Definition _cpu_usage (os : env) : result value :=
  value ← safe_call (fun _ => psutil_cpu_percent os) VNone;
  if isinstance_int_float value then py_round value 1 else Ok (VStr UNKNOWN).

(** The two searches of [_cpu_features]: group 1 of the [flags] match, and
    of the [Features] match when there is no [flags] match. *)
Definition features_match (content : text) : option text :=
  match re_search_key "flags" content with
  | Some g => Some g
  | None => re_search_key "Features" content
  end.

Definition _cpu_features (os : env) : result value :=
  ex ← cpuinfo_exists os;
  if negb ex then Ok (VStr UNKNOWN)
  else
    match cpuinfo_read_text os with
    | Raise e => if is_Exception e then Ok (VStr UNKNOWN) else Raise e
    | Ok content =>
        match features_match content with
        | None => Ok (VStr UNKNOWN)
        | Some g =>
            let features :=
              strip <$> filter (fun item => negb (is_empty (strip item))) (split_ws g) in
            match features with
            | [] => Ok (VStr UNKNOWN)
            | _ => Ok (VList (VStr <$> features))
            end
        end
    end.

(** [[KMG]] under [re.IGNORECASE]: the three letters in either case, and
    U+212A KELVIN SIGN, whose lower case is k. *)
Definition is_unit (c : char) : bool :=
  bool_decide (c ∈ [chr "K"; chr "M"; chr "G"; chr "k"; chr "m"; chr "g"; 8490]).

(** [re.match(r"^(\d+(?:\.\d+)?)([KMG])$", t, re.IGNORECASE)] on a stripped
    text [t] (so [$] can only hold at its end): the integer digits, the
    fraction digits when there is a point, and the unit character. *)
Definition re_match_size (t : text) : option (text * option text * char) :=
  let '(ds, r1) := span_digits t in
  if is_empty ds then None
  else
    match r1 with
    | [] => None
    | (c :: r2) =>
        if bool_decide (c = chr ".") then
          let '(fs, r3) := span_digits r2 in
          if is_empty fs then None
          else
            match r3 with
            | [u] => if is_unit u then Some (ds, Some fs, u) else None
            | _ => None
            end
        else if is_unit c && is_empty r2 then Some (ds, None, c)
        else None
    end.

(** [float(text)] for [digits] or [digits.digits]. *)
Definition float_of_decimal (ds : text) (fs : option text) : pyfloat :=
  match fs with
  | None => binary64_round false (digits_value 0 ds) 1
  | Some fs =>
      binary64_round false (digits_value (digits_value 0 ds) fs)
                     (10 ^ Z.of_nat (List.length fs))
  end.

(** [{"K": 1024, "M": 1024**2, "G": 1024**3}.get(unit, 1)]. *)
Definition unit_multiplier (unit : char) : Z :=
  if bool_decide (unit = chr "K") then 1024
  else if bool_decide (unit = chr "M") then 1024 ^ 2
  else if bool_decide (unit = chr "G") then 1024 ^ 3
  else 1.

Definition _parse_cache_size (text : text) : result (option Z) :=
  match re_match_size (strip text) with
  | None => Ok None
  | Some (ds, fs, u) =>
      let value := float_of_decimal ds fs in
      let unit := upper_char u in
      let multiplier := unit_multiplier unit in
      m ← float_of_Z multiplier;
      bytes ← int_of_float (fmul value m);
      Ok (Some bytes)
  end.

(** One turn of the loop of [_cpu_cache_sizes] up to the comparison:
    [Ok None] is a [continue], [Ok (Some (level_key, size_bytes, size_text))]
    reaches the comparison. *)
Definition scan_index (idx : cache_index) : result (option (text * Z * text)) :=
  le ← level_exists idx;
  if negb le then Ok None
  else
    se ← size_exists idx;
    if negb se then Ok None
    else
      match (level ← level_read_text idx;
             size_text ← size_read_text idx;
             Ok (strip level, strip size_text)) with
      | Raise e => if is_Exception e then Ok None else Raise e
      | Ok (level, size_text) =>
          let level_key := "L" ++ level in
          size_bytes ← _parse_cache_size size_text;
          match size_bytes with
          | None => Ok None
          | Some size_bytes => Ok (Some (level_key, size_bytes, size_text))
          end
      end.

(** [best_sizes] and [best_labels]. *)
Definition cache_state : Type := gmap text Z * gmap text text.

(** The comparison at the end of the loop body, and its two assignments. *)
Definition cache_update (st : cache_state) (c : text * Z * text) : cache_state :=
  let '(level_key, size_bytes, size_text) := c in
  let better :=
    match st.1 !! level_key with
    | None => true
    | Some b => b <? size_bytes
    end in
  if better
  then (<[level_key := size_bytes]> st.1, <[level_key := size_text]> st.2)
  else st.

Definition cache_step (st : cache_state) (idx : cache_index) : result cache_state :=
  c ← scan_index idx;
  match c with
  | None => Ok st
  | Some c => Ok (cache_update st c)
  end.

Fixpoint cache_loop (entries : list cache_index) (st : cache_state) : result cache_state :=
  match entries with
  | [] => Ok st
  | idx :: rest => st' ← cache_step st idx; cache_loop rest st'
  end.

(** [best_labels.get(key, UNKNOWN)]. *)
Definition label_or_unknown (best_labels : gmap text text) (key : text) : value :=
  VStr (default UNKNOWN (best_labels !! key)).

Definition _cpu_cache_sizes (os : env) : result value :=
  ex ← cache_dir_exists os;
  if negb ex
  then Ok (VDict [("L1", VStr UNKNOWN); ("L2", VStr UNKNOWN); ("L3", VStr UNKNOWN)])
  else
    entries ← cache_dir_glob os;
    st ← cache_loop entries (∅, ∅);
    Ok (VDict [("L1", label_or_unknown st.2 "L1");
               ("L2", label_or_unknown st.2 "L2");
               ("L3", label_or_unknown st.2 "L3")]).

Definition get_cpu_info (os : env) : result value :=
  brand ← _cpu_brand os;
  architecture ← _cpu_architecture os;
  physical_cores ← _cpu_count os false;
  logical_processors ← _cpu_count os true;
  frequency_mhz ← _cpu_frequency os;
  usage_percent ← _cpu_usage os;
  features ← _cpu_features os;
  cache ← _cpu_cache_sizes os;
  Ok (VDict [("brand", VStr brand);
             ("architecture", VStr architecture);
             ("physical_cores", physical_cores);
             ("logical_processors", logical_processors);
             ("frequency_mhz", frequency_mhz);
             ("usage_percent", usage_percent);
             ("features", features);
             ("cache", cache)]).

(** Lines 45-53 of [get_system_info]: [(uptime_seconds, uptime_human)]. *)
Definition uptime_pair (os : env) (boot_time : value) : result (value * value) :=
  if isinstance_int_float boot_time then
    now ← time_time os;
    boot ← to_float boot_time;
    elapsed ← int_of_float (fsub now boot);
    let uptime_seconds := VInt (Z.max 0 elapsed) in
    uptime_human ← format_duration uptime_seconds;
    Ok (uptime_seconds, uptime_human)
  else Ok (VStr UNKNOWN, VStr UNKNOWN).

(** Lines 55-65 of [get_system_info]:
    [(total_bytes, available_bytes, total_human, available_human)]. *)
Definition memory_group (mem_info : value) : result (value * value * value * value) :=
  if truth mem_info && hasattr mem_info "total" then
    total_bytes ← getattr mem_info "total";
    available_bytes ← getattr mem_info "available";
    total_human ← format_bytes total_bytes;
    available_human ← format_bytes available_bytes;
    Ok (total_bytes, available_bytes, total_human, available_human)
  else Ok (VStr UNKNOWN, VStr UNKNOWN, VStr UNKNOWN, VStr UNKNOWN).

Definition get_system_info (os : env) : result value :=
  uname ← platform_uname os;
  os_name ← str_or (u_system uname) (s ← platform_system os; str_or s (Ok UNKNOWN));
  os_release ← str_or (u_release uname) (s ← platform_release os; str_or s (Ok UNKNOWN));
  os_version ← str_or (u_version uname) (s ← platform_version os; str_or s (Ok UNKNOWN));
  hostname ← safe_call (fun _ => socket_gethostname os) (VStr UNKNOWN);
  boot_time ← safe_call (fun _ => psutil_boot_time os) VNone;
  '(uptime_seconds, uptime_human) ← uptime_pair os boot_time;
  mem_info ← safe_call (fun _ => psutil_virtual_memory os) VNone;
  '(total_bytes, available_bytes, total_human, available_human) ← memory_group mem_info;
  Ok (VDict [("os", VDict [("name", VStr os_name);
                           ("release", VStr os_release);
                           ("version", VStr os_version)]);
             ("hostname", hostname);
             ("uptime_seconds", uptime_seconds);
             ("uptime_human", uptime_human);
             ("memory", VDict [("total_bytes", total_bytes);
                               ("available_bytes", available_bytes);
                               ("total_human", total_human);
                               ("available_human", available_human)])]).

(** [main.py], lines 54-57: the snapshot handed to the formatters. *)
Definition snapshot (os : env) : result value :=
  cpu ← get_cpu_info os;
  system ← get_system_info os;
  Ok (VDict [("cpu", cpu); ("system", system)]).

(* ================================================================== *)
(** * formatters.py                                                    *)
(* ================================================================== *)

(** [n / d] rendered with one digit after the point, correctly rounded. *)
Definition fmt1_rat (neg : bool) (n d : Z) : text :=
  let r := round_half_even (10 * n) d in
  (if neg then "-" else "") ++ show_Z (r / 10) ++ "." ++ show_Z (r mod 10).

(** The format specification [.1f]. *)
Definition fmt_1f (f : pyfloat) : text :=
  match f with
  | FNaN => "nan"
  | FInf neg => if neg then "-inf" else "inf"
  | FFin neg m e =>
      if 0 <=? e then fmt1_rat neg (m * 2 ^ e) 1
      else fmt1_rat neg m (2 ^ (- e))
  end.

(** [sep.join(items)] on strings. *)
Fixpoint join (sep : text) (items : list text) : text :=
  match items with
  | [] => ""
  | [x] => x
  | x :: rest => x ++ sep ++ join sep rest
  end.

(** The items of a sequence handed to [str.join]: anything but a text
    makes it raise [TypeError]. *)
Fixpoint str_items (items : list value) : result (list text) :=
  match items with
  | [] => Ok []
  | VStr s :: rest => ss ← str_items rest; Ok (s :: ss)
  | _ :: _ => Raise TypeError
  end.

(** [d.get(key, default)].  Only a dictionary has the method; an object
    that happens to carry an attribute of that name holds data, which
    cannot be called. *)
Definition dict_get (d : value) (key : string) (default : value) : result value :=
  match d with
  | VDict items => Ok (from_option id default (assoc key items))
  | VObj _ attrs =>
      match assoc "get" attrs with
      | None => Raise AttributeError
      | Some _ => Raise TypeError
      end
  | _ => Raise AttributeError
  end.

Definition isinstance_dict (v : value) : bool :=
  match v with VDict _ => true | _ => false end.

Section Formatters.

(** [str(f)] of a float, the shortest digits that read back as [f], and
    [str(v)] of a list, a dictionary or an object, which prints their items
    and may raise as that does.  The formatters only pass these texts on, so
    they are left open here. *)
Variable repr_float : pyfloat -> text.
Variable repr_other : value -> result text.

(** [str(v)], which is also what an f-text field without a format
    specification inserts. *)
Definition py_str (v : value) : result text :=
  match v with
  | VNone => Ok "None"
  | VBool b => Ok (if b then "True" else "False")
  | VInt z => str_int z
  | VStr s => Ok s
  | VFloat f => Ok (repr_float f)
  | VList _ | VDict _ | VObj _ _ => repr_other v
  end.

Definition _value (v : value) : result text :=
  match v with
  | VNone => Ok UNKNOWN
  | VBool b => Ok (if b then "Да" else "Не")
  | _ => py_str v
  end.

Definition _format_freq_summary (freq : value) : result text :=
  if negb (isinstance_dict freq) then _value freq
  else
    current ← dict_get freq "current" VNone;
    current ← _value current;
    min_value ← dict_get freq "min" VNone;
    min_value ← _value min_value;
    max_value ← dict_get freq "max" VNone;
    max_value ← _value max_value;
    if str_eqb min_value UNKNOWN && str_eqb max_value UNKNOWN
    then Ok current
    else Ok (current ++ " (мин: " ++ min_value ++ ", макс: " ++ max_value ++ ")").

Definition _format_percent (v : value) : result text :=
  if isinstance_int_float v
  then f ← to_float v; Ok (fmt_1f f ++ "%")
  else _value v.

Definition _format_list (v : value) (verbose : bool) : result text :=
  match v with
  | VList items =>
      if verbose then
        if truth v then items ← str_items items; Ok (join ", " items)
        else Ok UNKNOWN
      else
        (* [remaining] counts items of a list in memory, far below the
           limit of [str_int] *)
        let limit := 10%nat in
        if (List.length items <=? limit)%nat
        then items ← str_items items; Ok (join ", " items)
        else
          let remaining := Z.of_nat (List.length items) - Z.of_nat limit in
          shown ← str_items (take limit items);
          Ok (join ", " shown ++ " ... (+" ++ show_Z remaining ++ ")")
  | _ => _value v
  end.

Definition _format_cache (cache : value) : result text :=
  if negb (isinstance_dict cache) then _value cache
  else
    parts ← mapM (fun level : string =>
                    x ← dict_get cache level (VStr UNKNOWN);
                    x ← py_str x;
                    Ok (level ++ ": " ++ x))
                 ["L1"; "L2"; "L3"];
    Ok (join ", " parts).

(** [_value(d.get(key))]. *)
Definition cell (d : value) (key : string) : result text :=
  x ← dict_get d key VNone; _value x.

Definition _build_cpu_rows (cpu : value) (verbose : bool)
    : result (list (text * text)) :=
  freq ← dict_get cpu "frequency_mhz" (VDict []);
  brand ← cell cpu "brand";
  architecture ← cell cpu "architecture";
  physical_cores ← cell cpu "physical_cores";
  logical_processors ← cell cpu "logical_processors";
  freq_summary ← _format_freq_summary freq;
  usage_percent ← dict_get cpu "usage_percent" VNone;
  usage ← _format_percent usage_percent;
  let rows :=
    [(txt "Модел/Бранд", brand);
     (txt "Архитектура", architecture);
     (txt "Физически ядра", physical_cores);
     (txt "Логически нишки", logical_processors);
     (txt "Честота (MHz)", freq_summary);
     (txt "Натоварване", usage)] in
  if verbose then
    freq_min ← cell freq "min";
    freq_max ← cell freq "max";
    features ← dict_get cpu "features" VNone;
    feature_list ← _format_list features true;
    cache ← dict_get cpu "cache" VNone;
    cache_summary ← _format_cache cache;
    Ok (rows ++
        [(txt "Честота мин (MHz)", freq_min);
         (txt "Честота макс (MHz)", freq_max);
         (txt "Функции/Флагове", feature_list);
         (txt "CPU Cache", cache_summary)])
  else Ok rows.

Definition _build_system_rows (system : value) (verbose : bool)
    : result (list (text * text)) :=
  os_info ← dict_get system "os" (VDict []);
  memory ← dict_get system "memory" (VDict []);
  os_name ← dict_get os_info "name" (VStr UNKNOWN);
  os_name ← py_str os_name;
  os_release ← dict_get os_info "release" (VStr UNKNOWN);
  os_release ← py_str os_release;
  let os_label := os_name ++ " " ++ os_release in
  os_version ← dict_get os_info "version" (VStr UNKNOWN);
  os_label ← _value (VStr os_label);
  os_version ← _value os_version;
  hostname ← cell system "hostname";
  uptime_human ← cell system "uptime_human";
  total_human ← cell memory "total_human";
  available_human ← cell memory "available_human";
  let rows :=
    [(txt "ОС", os_label);
     (txt "OS версия", os_version);
     (txt "Hostname", hostname);
     (txt "Uptime", uptime_human);
     (txt "RAM общо", total_human);
     (txt "RAM свободно", available_human)] in
  if verbose then
    uptime_seconds ← cell system "uptime_seconds";
    total_bytes ← cell memory "total_bytes";
    available_bytes ← cell memory "available_bytes";
    Ok (rows ++
        [(txt "Uptime (сек)", uptime_seconds);
         (txt "RAM общо (байтове)", total_bytes);
         (txt "RAM свободно (байтове)", available_bytes)])
  else Ok rows.

End Formatters.

(* ================================================================== *)
(** * main.py                                                          *)
(* ================================================================== *)

(** The parsed command line, as far as the program reads it. *)
Record args := {
  json : bool;
  full : bool;
  no_color : bool;
  wait_exit : bool;
  no_wait_exit : bool;
}.

(** What [main.py] reads of the interpreter: [sys.platform],
    [getattr(sys, "frozen", False)], [sys.argv] and the outcome of
    [sys.stdout.isatty()]. *)
Record sys_state := {
  sys_platform : text;
  sys_frozen : value;
  sys_argv : list text;
  stdout_isatty : result value;
}.

(** [a and b]: [b] is evaluated only when [a] is true, and the result is
    the operand that decided. *)
Definition py_and (a : value) (b : result value) : result value :=
  if truth a then b else Ok a.

Definition _should_wait_before_exit (a : args) (sys : sys_state) : result value :=
  if no_wait_exit a then Ok (VBool false)
  else if wait_exit a then Ok (VBool true)
  else
    py_and (VBool (str_eqb (sys_platform sys) "win32"))
      (py_and (sys_frozen sys)
         (py_and (VBool (List.length (sys_argv sys) =? 1)%nat)
            (stdout_isatty sys))).

(* ================================================================== *)
(** * Sample systems                                                   *)
(* ================================================================== *)

(** Every platform call raises, and neither the info pseudo-file nor the
    cache directory exists. *)
Definition env_all_failing : env := {|
  platform_uname := Raise OSError;
  platform_system := Raise OSError;
  platform_release := Raise OSError;
  platform_version := Raise OSError;
  platform_machine := Raise OSError;
  platform_processor := Raise OSError;
  socket_gethostname := Raise OSError;
  time_time := Raise OSError;
  psutil_boot_time := Raise OSError;
  psutil_virtual_memory := Raise OSError;
  psutil_cpu_count := fun _ => Raise OSError;
  psutil_cpu_freq := Raise OSError;
  psutil_cpu_percent := Raise OSError;
  cpuinfo_exists := Ok false;
  cpuinfo_read_text := Raise OSError;
  cache_dir_exists := Ok false;
  cache_dir_glob := Raise OSError;
|}.

(** As [env_all_failing], except that [platform.uname()] returns a record
    of empty fields and [platform.system()], [release()] and [version()]
    return the empty text. *)
Definition env_all_empty : env := {|
  platform_uname := Ok {| u_system := ""; u_release := ""; u_version := "";
                          u_machine := ""; u_processor := "" |};
  platform_system := Ok "";
  platform_release := Ok "";
  platform_version := Ok "";
  platform_machine := Raise OSError;
  platform_processor := Raise OSError;
  socket_gethostname := Raise OSError;
  time_time := Raise OSError;
  psutil_boot_time := Raise OSError;
  psutil_virtual_memory := Raise OSError;
  psutil_cpu_count := fun _ => Raise OSError;
  psutil_cpu_freq := Raise OSError;
  psutil_cpu_percent := Raise OSError;
  cpuinfo_exists := Ok false;
  cpuinfo_read_text := Raise OSError;
  cache_dir_exists := Ok false;
  cache_dir_glob := Raise OSError;
|}.

Definition sample_cpuinfo : text :=
  "processor : 0
model name : Example CPU X9
flags : fpu vme sse2
".

Definition sample_index (level size : text) : cache_index := {|
  level_exists := Ok true;
  size_exists := Ok true;
  level_read_text := Ok level;
  size_read_text := Ok size;
|}.

(** A Linux machine whose probes all answer; the boot time, the clock and
    the memory probe are left open. *)
Definition env_linux (now : result pyfloat) (boot mem : result value) : env := {|
  platform_uname := Ok {| u_system := "Linux"; u_release := "6.1.0";
                          u_version := "#1 SMP"; u_machine := "x86_64";
                          u_processor := "x86_64" |};
  platform_system := Ok "Linux";
  platform_release := Ok "6.1.0";
  platform_version := Ok "#1 SMP";
  platform_machine := Ok "x86_64";
  platform_processor := Ok "x86_64";
  socket_gethostname := Ok (VStr "box");
  time_time := now;
  psutil_boot_time := boot;
  psutil_virtual_memory := mem;
  psutil_cpu_count := fun logical => Ok (VInt (if logical then 8 else 4));
  psutil_cpu_freq := Ok (VObj true [("current", VFloat (float_lit 2400));
                                    ("min", VFloat (float_lit 800));
                                    ("max", VNone)]);
  psutil_cpu_percent := Ok (VFloat (float_lit 3));
  cpuinfo_exists := Ok true;
  cpuinfo_read_text := Ok sample_cpuinfo;
  cache_dir_exists := Ok true;
  cache_dir_glob := Ok [sample_index "2" "256K"; sample_index "2" "1M";
                        sample_index "1" "32K"; sample_index "3" "8M"];
|}.

(** A machine of which only the cache directory answers. *)
Definition env_cache (entries : list cache_index) : env := {|
  platform_uname := Raise OSError;
  platform_system := Raise OSError;
  platform_release := Raise OSError;
  platform_version := Raise OSError;
  platform_machine := Raise OSError;
  platform_processor := Raise OSError;
  socket_gethostname := Raise OSError;
  time_time := Raise OSError;
  psutil_boot_time := Raise OSError;
  psutil_virtual_memory := Raise OSError;
  psutil_cpu_count := fun _ => Raise OSError;
  psutil_cpu_freq := Raise OSError;
  psutil_cpu_percent := Raise OSError;
  cpuinfo_exists := Ok false;
  cpuinfo_read_text := Raise OSError;
  cache_dir_exists := Ok true;
  cache_dir_glob := Ok entries;
|}.

(** A memory probe result that exposes [total] but not [available]. *)
Definition mem_total_only : value := VObj true [("total", VInt 8589934592)].

(** A well-formed memory probe result. *)
Definition mem_both : value :=
  VObj true [("total", VInt 8589934592); ("available", VInt 1536)].

(** A machine of which only [psutil.cpu_freq] answers, and with a bare
    number rather than a record of three readings. *)
Definition env_odd_frequency : env := {|
  platform_uname := Raise OSError;
  platform_system := Raise OSError;
  platform_release := Raise OSError;
  platform_version := Raise OSError;
  platform_machine := Raise OSError;
  platform_processor := Raise OSError;
  socket_gethostname := Raise OSError;
  time_time := Raise OSError;
  psutil_boot_time := Raise OSError;
  psutil_virtual_memory := Raise OSError;
  psutil_cpu_count := fun _ => Raise OSError;
  psutil_cpu_freq := Ok (VInt 2400);
  psutil_cpu_percent := Raise OSError;
  cpuinfo_exists := Ok false;
  cpuinfo_read_text := Raise OSError;
  cache_dir_exists := Ok false;
  cache_dir_glob := Raise OSError;
|}.

(** A machine of which only [platform.processor()] is reachable: every
    other call raises, the [exists()] of the info pseudo-file included. *)
Definition env_processor (p : result text) : env := {|
  platform_uname := Raise OSError;
  platform_system := Raise OSError;
  platform_release := Raise OSError;
  platform_version := Raise OSError;
  platform_machine := Raise OSError;
  platform_processor := p;
  socket_gethostname := Raise OSError;
  time_time := Raise OSError;
  psutil_boot_time := Raise OSError;
  psutil_virtual_memory := Raise OSError;
  psutil_cpu_count := fun _ => Raise OSError;
  psutil_cpu_freq := Raise OSError;
  psutil_cpu_percent := Raise OSError;
  cpuinfo_exists := Raise OSError;
  cpuinfo_read_text := Raise OSError;
  cache_dir_exists := Raise OSError;
  cache_dir_glob := Raise OSError;
|}.

(** A machine of which only [platform.processor()] and the info
    pseudo-file answer. *)
Definition env_cpuinfo (processor content : text) : env := {|
  platform_uname := Raise OSError;
  platform_system := Raise OSError;
  platform_release := Raise OSError;
  platform_version := Raise OSError;
  platform_machine := Raise OSError;
  platform_processor := Ok processor;
  socket_gethostname := Raise OSError;
  time_time := Raise OSError;
  psutil_boot_time := Raise OSError;
  psutil_virtual_memory := Raise OSError;
  psutil_cpu_count := fun _ => Raise OSError;
  psutil_cpu_freq := Raise OSError;
  psutil_cpu_percent := Raise OSError;
  cpuinfo_exists := Ok true;
  cpuinfo_read_text := Ok content;
  cache_dir_exists := Ok false;
  cache_dir_glob := Raise OSError;
|}.

(** The line feed, and an info pseudo-file whose [model name] line has a
    blank value: as the last line, and with a [flags] line after it. *)
Definition LF : text := [10].

Definition cpuinfo_blank_last : text :=
  "processor : 0" ++ LF ++ "model name : " ++ LF.

Definition cpuinfo_blank_then_flags : text :=
  "model name :" ++ LF ++ "flags : fpu vme sse2" ++ LF.

(* ================================================================== *)
(** * Vocabulary of the statements                                     *)
(* ================================================================== *)

(** ** The value of a float *)

(** [m * 2^e = n / d], written without division. *)
Definition dy_is (m e n d : Z) : Prop :=
  m * 2 ^ Z.max e 0 * d = n * 2 ^ Z.max (- e) 0.

(** [f] is finite, has the sign [neg] and the magnitude [n / d]. *)
Definition fval (f : pyfloat) (neg : bool) (n d : Z) : Prop :=
  ∃ m e, f = FFin neg m e ∧ 0 <= m ∧ dy_is m e n d.

(** [n / d] is a positive binary64 number: [M * 2^E] with a mantissa of at
    most 53 bits and an exponent in range. *)
Definition representable (n d : Z) : Prop :=
  ∃ M E, 0 < M < 2 ^ 53 ∧ -1074 <= E <= 970 ∧ dy_is M E n d.

(** ** Digit strings *)

(** Every character of [s] is a decimal digit. *)
Fixpoint all_digits (s : text) : bool :=
  match s with
  | [] => true
  | (c :: s') => is_digit c && all_digits s'
  end.

(** ** Reading a rendered duration back *)

(** A run of digits at the head of [s], as a number, and what follows. *)
Definition read_field (s : text) : option (Z * text) :=
  let '(ds, rest) := span_digits s in
  if is_empty ds then None else Some (digits_value 0 ds, rest).

(** [HH:MM:SS], to the end of the text. *)
Definition read_clock (s : text) : option (Z * Z * Z) :=
  '(h, r) ← read_field s;
  r ← strip_prefix ":" r;
  '(m, r) ← read_field r;
  r ← strip_prefix ":" r;
  '(sec, r) ← read_field r;
  if is_empty r then Some (h, m, sec) else None.

(** Days, hours, minutes and seconds of a rendered duration: the days are
    the number in front of the day suffix, and zero when there is none. *)
Definition duration_components (s : text) : option (Z * Z * Z * Z) :=
  '(d, r) ← read_field s;
  match strip_prefix (day_suffix ++ " ") r with
  | Some clock => '(h, m, sec) ← read_clock clock; Some (d, h, m, sec)
  | None => '(h, m, sec) ← read_clock s; Some (0, h, m, sec)
  end.

Definition recombine (c : Z * Z * Z * Z) : Z :=
  let '(d, h, m, sec) := c in d * 86400 + h * 3600 + m * 60 + sec.

(** ** The unit of a byte count *)

(** [(n / d) / 1024^k < 1024]: the value [n / d] scaled by unit number [k]
    is below 1024. *)
Definition scaled_below_1024 (n d : Z) (k : nat) : bool :=
  n <? 1024 * (d * 1024 ^ Z.of_nat k).

(** The name of unit number [k]; past the list it is the fall-through label. *)
Definition unit_name (k : nat) : text := nth k byte_units "PB".

(** The rendering of [n / d] in unit number [k]. *)
Definition render_bytes (n d : Z) (k : nat) : text :=
  fmt2_rat false n (d * 1024 ^ Z.of_nat k) ++ " " ++ unit_name k.

(** The unit as the specification words it: the largest unit among B, KB,
    MB, GB, TB for which the scaled value is below 1024. *)
Definition spec_unit (n d : Z) : option nat :=
  find (scaled_below_1024 n d) [4; 3; 2; 1; 0]%nat.

Definition format_bytes_spec (b : Z) : text :=
  render_bytes b 1 (default 5%nat (spec_unit b 1)).

(** The smallest such unit, which is the one the loop stops at. *)
Definition first_unit (n d : Z) : option nat :=
  find (scaled_below_1024 n d) [0; 1; 2; 3; 4]%nat.

(** The loop of [format_bytes] on exact values. *)
Fixpoint loop_exact (units : list text) (n d : Z) : text :=
  match units with
  | [] => fmt2_rat false n d ++ " PB"
  | unit :: rest =>
      if n <? 1024 * d then fmt2_rat false n d ++ " " ++ unit
      else loop_exact rest n (1024 * d)
  end.

(** The exact value of a finite float as a fraction. *)
Definition dyadic_num (m e : Z) : Z := if 0 <=? e then m * 2 ^ e else m.
Definition dyadic_den (e : Z) : Z := if 0 <=? e then 1 else 2 ^ (- e).

(** ** Lines of the info pseudo-file *)

(** [p] and [s] differ at a position both of them have. *)
Fixpoint definite_mismatch (p s : text) : bool :=
  match p, s with
  | (a :: p'), (b :: s') =>
      if bool_decide (a = b) then definite_mismatch p' s' else true
  | _, _ => false
  end.

(** [s] consists of whole lines, each ended by a line feed, and none of
    them begins with [key]; [bol] tells whether [s] starts a line. *)
Fixpoint lines_avoid (key : text) (bol : bool) (s : text) : bool :=
  match s with
  | [] => bol
  | (c :: s') =>
      (if bol then definite_mismatch key s else true)
      && lines_avoid key (is_nl c) s'
  end.

(** No line of [s] begins with [key]. *)
Fixpoint key_absent (key : text) (bol : bool) (s : text) : bool :=
  (if bol then negb (bool_decide (is_Some (strip_prefix key s))) else true)
  && match s with
     | [] => true
     | (c :: s') => key_absent key (is_nl c) s'
     end.

(** Every character of [s] is whitespace. *)
Fixpoint all_space (s : text) : bool :=
  match s with
  | [] => true
  | (c :: s') => is_space c && all_space s'
  end.

(** No character of [s] is whitespace. *)
Fixpoint no_space (s : text) : bool :=
  match s with
  | [] => true
  | (c :: s') => negb (is_space c) && no_space s'
  end.

(** [s] has no line feed. *)
Fixpoint one_line (s : text) : bool :=
  match s with
  | [] => true
  | (c :: s') => negb (is_nl c) && one_line s'
  end.

(** [s] starts with a character satisfying [p]. *)
Definition head_is (p : char -> bool) (s : text) : bool :=
  match s with [] => false | (c :: _) => p c end.

(** [s] is empty or starts with a line feed. *)
Definition ends_here (s : text) : bool :=
  match s with [] => true | (c :: _) => is_nl c end.

(** [content] is [pre], whole lines not beginning with [key], followed by a
    line [key ws1 : ws2 v]: [v] is one line, starts with a character that is
    not whitespace and runs to the end of its line. *)
Definition has_key_line (key content v : text) : Prop :=
  ∃ pre ws1 ws2 tail,
    content = pre ++ key ++ ws1 ++ ":" ++ ws2 ++ v ++ tail
    ∧ lines_avoid key true pre = true
    ∧ all_space ws1 = true ∧ all_space ws2 = true
    ∧ head_is (fun c => negb (is_space c)) v = true
    ∧ one_line v = true
    ∧ ends_here tail = true.

(** ** Size texts *)

(** A unit character, as the pattern and the multiplier table see it. *)
Definition unit_char (u : char) (k : Z) : Prop :=
  is_unit u = true ∧ is_space u = false ∧ is_digit u = false
  ∧ u ≠ chr "." ∧ unit_multiplier (upper_char u) = 2 ^ k ∧ 0 <= k <= 30.

(** ** Candidates of the cache scan *)

(** [(b, t)] is the first entry of [cands] at level [key] with the largest
    byte count at that level. *)
Definition first_largest (key : text) (cands : list (text * Z * text))
    (b : Z) (t : text) : Prop :=
  ∃ pre post,
    cands = pre ++ (key, b, t) :: post
    ∧ (∀ b' t', (key, b', t') ∈ pre → b' < b)
    ∧ (∀ b' t', (key, b', t') ∈ post → b' <= b).

(** No entry of [cands] is at level [key]. *)
Definition no_entry (key : text) (cands : list (text * Z * text)) : Prop :=
  ∀ b t, (key, b, t) ∉ cands.

(** What the returned record may hold at [key]: the sentinel when no entry
    is at that level, and otherwise the size text of the first entry with
    the largest byte count there. *)
Definition level_label (key : text) (cands : list (text * Z * text))
    (l : value) : Prop :=
  (no_entry key cands ∧ l = VStr UNKNOWN)
  ∨ (∃ b t, first_largest key cands b t ∧ l = VStr t).

(** The loop invariant of [_cpu_cache_sizes]: after the entries [cands],
    both dictionaries have [key] or neither has, and what they hold is the
    first largest entry at [key]. *)
Definition cache_inv (cands : list (text * Z * text)) (st : cache_state) : Prop :=
  ∀ key,
    (st.1 !! key = None ∧ st.2 !! key = None ∧ no_entry key cands)
    ∨ (∃ b t, st.1 !! key = Some b ∧ st.2 !! key = Some t
              ∧ first_largest key cands b t).

(** Two states hold the same at every key but [k]. *)
Definition agree_off (k : text) (st st' : cache_state) : Prop :=
  ∀ key, key ≠ k -> st.1 !! key = st'.1 !! key ∧ st.2 !! key = st'.2 !! key.

(** [l] is the sentinel, or the size text of an enumerated entry whose
    level file names the level of [key]. *)
Definition observed_label (os : env) (key : text) (l : value) : Prop :=
  l = VStr UNKNOWN
  ∨ ∃ entries idx level size,
      cache_dir_glob os = Ok entries ∧ idx ∈ entries
      ∧ level_read_text idx = Ok level ∧ size_read_text idx = Ok size
      ∧ key = "L" ++ strip level ∧ l = VStr (strip size).

(** The scans of all entries, in enumeration order, when none raises. *)
Fixpoint scan_all (entries : list cache_index)
    : result (list (option (text * Z * text))) :=
  match entries with
  | [] => Ok []
  | idx :: rest =>
      c ← scan_index idx;
      cs ← scan_all rest;
      Ok (c :: cs)
  end.

(** The entries that reach the comparison. *)
Definition candidates (cs : list (option (text * Z * text)))
    : list (text * Z * text) :=
  omap id cs.

(** ** Outcomes of a probe *)

(** The call returns, or raises an exception that [except Exception]
    catches. *)
Definition ordinary {A} (r : result A) : bool :=
  match r with Ok _ => true | Raise e => is_Exception e end.

(** The call raises such an exception. *)
Definition fails {A} (r : result A) : bool :=
  match r with Ok _ => false | Raise e => is_Exception e end.

(** ** Leaves of the collected record *)

(** An integer, a float, or the sentinel. *)
Definition number_or_unknown (v : value) : bool :=
  match v with
  | VInt _ | VFloat _ => true
  | VStr s => str_eqb s UNKNOWN
  | _ => false
  end.

(** An integer (or boolean), or the sentinel. *)
Definition int_or_unknown (v : value) : bool :=
  match v with
  | VInt _ | VBool _ => true
  | VStr s => str_eqb s UNKNOWN
  | _ => false
  end.

(** [a or b or UNKNOWN] on strings. *)
Definition or_unknown (a b : text) : text :=
  if is_empty a then (if is_empty b then UNKNOWN else b) else a.

(** The name [get_system_info] settles on for one field of the operating
    system: the field of [platform.uname()] when it is not empty, and
    otherwise what the fallback call returns, the sentinel standing in for
    an empty answer. *)
Definition resolved (field : text) (fallback : result text) (name : text) : Prop :=
  (field ≠ "" ∧ name = field)
  ∨ (field = "" ∧ ∃ s, fallback = Ok s ∧ name = or_unknown s "").

(** What [_cpu_frequency] makes of one attribute of the probe's answer:
    [None] becomes the sentinel, an integer stays, a float is rounded to
    two decimals. *)
Definition freq_reading (attr : result value) (field : value) : Prop :=
  match attr with
  | Ok VNone => field = VStr UNKNOWN
  | Ok (VInt z) => field = VInt z
  | Ok (VBool b) => field = VInt (if b then 1 else 0)
  | Ok (VFloat f) => field = VFloat (round_float f 2)
  | _ => False
  end.

(** What [_cpu_features] may return: the sentinel, or a non-empty list of
    tokens, each non-empty and free of whitespace. *)
Definition feature_list (v : value) : Prop :=
  v = VStr UNKNOWN
  ∨ ∃ ts, ts ≠ [] ∧ v = VList (VStr <$> ts)
          ∧ Forall (fun t => is_empty t = false ∧ no_space t = true) ts.

(** ** Well-formed size texts *)

(** The text of a size: digits, optionally a point and more digits, and one
    unit character. *)
Definition size_text (ds : text) (fs : option text) (u : char) : text :=
  ds ++ match fs with Some f => "." ++ f | None => "" end ++ [u].

(** ** Reading a rendered list back *)

(** [s.split(", ")]: the pieces of [s] between the occurrences of a comma
    followed by a blank. *)
Fixpoint split_comma (s : text) : list text :=
  match s with
  | [] => [[]]
  | (c :: s') =>
      match s' with
      | [] => [[c]]
      | (c' :: s'') =>
          if bool_decide (c = chr ",") && bool_decide (c' = chr " ")
          then [] :: split_comma s''
          else
            match split_comma s' with
            | t :: ts => (c :: t) :: ts
            | [] => [[c]]
            end
      end
  end.

(** ** Keys of the collected records *)

Definition cpu_keys : list string :=
  ["brand"; "architecture"; "physical_cores"; "logical_processors";
   "frequency_mhz"; "usage_percent"; "features"; "cache"].

Definition system_keys : list string :=
  ["os"; "hostname"; "uptime_seconds"; "uptime_human"; "memory"].

(* ================================================================== *)
(** * The error monad                                                  *)
(* ================================================================== *)

Lemma bind_Ok {A B} (r : result A) (k : A -> result B) (a : A) :
  r = Ok a -> (r ≫= k) = k a.
Proof. intros ->. reflexivity. Qed.

Lemma bind_Raise {A B} (r : result A) (k : A -> result B) (e : exn) :
  r = Raise e -> (r ≫= k) = Raise e.
Proof. intros ->. reflexivity. Qed.

Lemma bind_inv_Ok {A B} (r : result A) (k : A -> result B) (b : B) :
  (r ≫= k) = Ok b -> ∃ a, r = Ok a ∧ k a = Ok b.
Proof. destruct r as [a|e]; [eauto | discriminate]. Qed.

Lemma try_except_Ok {A} (body handler : result A) (a : A) :
  body = Ok a -> try_except body handler = Ok a.
Proof. intros ->. reflexivity. Qed.

Lemma try_except_caught {A} (body handler : result A) (e : exn) :
  body = Raise e -> is_Exception e = true -> try_except body handler = handler.
Proof. intros -> He. simpl. now rewrite He. Qed.

(** Splitting a successful sequence into its steps. *)
Ltac inv_bind H :=
  let a := fresh "a" in
  let Ha := fresh "Ha" in
  apply bind_inv_Ok in H; destruct H as (a & Ha & H).

Tactic Notation "split_bind" hyp(H) "as" ident(x) ident(Hx) :=
  apply bind_inv_Ok in H; destruct H as (x & Hx & H).

(* ================================================================== *)
(** * utils.py: safe_call                                              *)
(* ================================================================== *)

(** C9.  For every zero-argument operation [func] and fallback [default]:
    when [func()] returns [v], [safe_call] returns [v]; when [func()] raises
    any error (an exception derived from [Exception]), [safe_call] returns
    [default]; and no such error ever leaves [safe_call]. *)
Theorem safe_call_contract {A} (func : unit -> result A) (default : A) :
  (∀ v, func () = Ok v -> safe_call func default = Ok v)
  ∧ (∀ e, func () = Raise e -> is_Exception e = true ->
       safe_call func default = Ok default)
  ∧ (∀ e, safe_call func default = Raise e -> is_Exception e = false).
Proof.
  unfold safe_call. repeat split.
  - intros v Hv. now apply try_except_Ok.
  - intros e He Hexc. now rewrite (try_except_caught _ _ e).
  - intros e. destruct (func ()) as [v|e']; simpl; [discriminate|].
    destruct (is_Exception e') eqn:He'; [discriminate|].
    intros [= <-]. exact He'.
Qed.

Lemma safe_call_contract_witness :
  safe_call (fun _ => Ok (VInt 4)) (VStr UNKNOWN) = Ok (VInt 4)
  ∧ safe_call (fun _ => Raise OSError) (VStr UNKNOWN) = Ok (VStr UNKNOWN).
Proof.
  split.
  - exact (proj1 (safe_call_contract (fun _ => Ok (VInt 4)) (VStr UNKNOWN))
             (VInt 4) eq_refl).
  - exact (proj1 (proj2 (safe_call_contract (fun _ => Raise OSError) (VStr UNKNOWN)))
             OSError eq_refl eq_refl).
Defined.

(** What [except Exception] lets through: an exception that derives from
    [BaseException] only leaves [safe_call] as it came. *)
Lemma safe_call_base_exception {A} (func : unit -> result A) (default : A) e :
  func () = Raise e -> is_Exception e = false -> safe_call func default = Raise e.
Proof. unfold safe_call. intros -> He. simpl. now rewrite He. Qed.

(* ================================================================== *)
(** * providers.py: the collectors as a whole                          *)
(* ================================================================== *)

(** [get_system_info] calls [platform.uname()] outside any handler. *)
Lemma get_system_info_uname_unguarded (os : env) (e : exn) :
  platform_uname os = Raise e -> get_system_info os = Raise e.
Proof. intros H. unfold get_system_info. now rewrite H. Qed.

(** [_cpu_brand] makes the same call inside [try ... except Exception]. *)
Lemma cpu_brand_uname_guarded (os : env) (e : exn) :
  platform_processor os = Ok "" -> platform_uname os = Raise e ->
  is_Exception e = true -> cpuinfo_exists os = Ok false ->
  _cpu_brand os = Ok UNKNOWN.
Proof.
  intros Hp Hu He Hx. unfold _cpu_brand, processor_name. rewrite Hp, Hu. simpl.
  rewrite He. simpl. now rewrite Hx.
Qed.

(** C1, at the failing input.  With every platform call raising,
    [get_cpu_info] still returns its record with every leaf the sentinel,
    but [get_system_info] raises the error of [platform.uname()], and so
    does the snapshot. *)
Theorem collectors_when_every_probe_raises :
  get_cpu_info env_all_failing
  = Ok (VDict [("brand", VStr "N/A"); ("architecture", VStr "N/A");
               ("physical_cores", VStr "N/A"); ("logical_processors", VStr "N/A");
               ("frequency_mhz", VDict [("current", VStr "N/A"); ("min", VStr "N/A");
                                        ("max", VStr "N/A")]);
               ("usage_percent", VStr "N/A"); ("features", VStr "N/A");
               ("cache", VDict [("L1", VStr "N/A"); ("L2", VStr "N/A");
                                ("L3", VStr "N/A")])])
  ∧ get_system_info env_all_failing = Raise OSError
  ∧ snapshot env_all_failing = Raise OSError.
Proof. repeat split; vm_compute; reflexivity. Qed.

(** When the platform calls that stand outside a handler return empty text
    instead of raising, the snapshot is the all-sentinel record, every
    structural key in place. *)
Lemma snapshot_all_sentinel :
  snapshot env_all_empty
  = Ok (VDict
      [("cpu", VDict
         [("brand", VStr "N/A"); ("architecture", VStr "N/A");
          ("physical_cores", VStr "N/A"); ("logical_processors", VStr "N/A");
          ("frequency_mhz", VDict [("current", VStr "N/A"); ("min", VStr "N/A");
                                   ("max", VStr "N/A")]);
          ("usage_percent", VStr "N/A"); ("features", VStr "N/A");
          ("cache", VDict [("L1", VStr "N/A"); ("L2", VStr "N/A");
                           ("L3", VStr "N/A")])]);
       ("system", VDict
         [("os", VDict [("name", VStr "N/A"); ("release", VStr "N/A");
                        ("version", VStr "N/A")]);
          ("hostname", VStr "N/A");
          ("uptime_seconds", VStr "N/A"); ("uptime_human", VStr "N/A");
          ("memory", VDict [("total_bytes", VStr "N/A");
                            ("available_bytes", VStr "N/A");
                            ("total_human", VStr "N/A");
                            ("available_human", VStr "N/A")])])]).
Proof. vm_compute. reflexivity. Qed.

(* ================================================================== *)
(** * providers.py: the memory group                                   *)
(* ================================================================== *)

(** C2, at the failing input.  A truthy probe result that exposes [total]
    but not [available] passes the [hasattr] test, and reading [available]
    raises [AttributeError] out of [get_system_info]. *)
Theorem memory_group_total_without_available :
  truth mem_total_only = true
  ∧ hasattr mem_total_only "total" = true
  ∧ hasattr mem_total_only "available" = false
  ∧ memory_group mem_total_only = Raise AttributeError
  ∧ get_system_info
      (env_linux (Ok (float_lit 1700000000)) (Ok (VFloat (float_lit 1699900000)))
                 (Ok mem_total_only))
    = Raise AttributeError.
Proof. repeat split; vm_compute; reflexivity. Qed.

(** Whenever the memory block does return, the four fields are set
    together: all four are the sentinel, or the two byte fields are the
    probe's figures and the two human fields are [format_bytes] of them. *)
Lemma memory_group_atomic (mem_info tb ab th ah : value) :
  memory_group mem_info = Ok (tb, ab, th, ah) ->
  (tb = VStr UNKNOWN ∧ ab = VStr UNKNOWN ∧ th = VStr UNKNOWN ∧ ah = VStr UNKNOWN)
  ∨ (getattr mem_info "total" = Ok tb ∧ getattr mem_info "available" = Ok ab
     ∧ format_bytes tb = Ok th ∧ format_bytes ab = Ok ah).
Proof.
  unfold memory_group.
  destruct (truth mem_info && hasattr mem_info "total").
  - intros H. right. inv_bind H. inv_bind H. inv_bind H. inv_bind H.
    injection H as <- <- <- <-. auto.
  - intros [= <- <- <- <-]. left. auto.
Qed.

(** A failed probe, [None], or a result without [total] gives four
    sentinels. *)
Lemma memory_group_unavailable (mem_info : value) :
  truth mem_info = false ∨ hasattr mem_info "total" = false ->
  memory_group mem_info
  = Ok (VStr UNKNOWN, VStr UNKNOWN, VStr UNKNOWN, VStr UNKNOWN).
Proof.
  unfold memory_group. intros [-> | ->]; [reflexivity|].
  now rewrite andb_false_r.
Qed.

(* ================================================================== *)
(** * Text: digits and decimal numerals                                *)
(* ================================================================== *)

Lemma str_app_cons (c : char) (s t : text) :
  (c :: s) ++ t = (c :: (s ++ t)).
Proof. reflexivity. Qed.

Lemma str_app_nil_l (t : text) : "" ++ t = t.
Proof. reflexivity. Qed.

Lemma str_app_assoc (s t u : text) : (s ++ t) ++ u = s ++ (t ++ u).
Proof.
  induction s as [|c s IH]; [reflexivity|].
  rewrite !str_app_cons. f_equal. exact IH.
Qed.

Lemma str_app_nil_r (s : text) : s ++ "" = s.
Proof.
  induction s as [|c s IH]; [reflexivity|].
  rewrite str_app_cons. f_equal. exact IH.
Qed.

Lemma strip_prefix_app (p r : text) : strip_prefix p (p ++ r) = Some r.
Proof.
  induction p as [|c p IH]; [reflexivity|].
  rewrite str_app_cons. simpl. now rewrite bool_decide_true.
Qed.

(** Linear arithmetic with division and remainder by constants. *)
Ltac div_lia := Z.to_euclidean_division_equations; lia.

Lemma digit_cases (d : Z) :
  0 <= d <= 9 ->
  d = 0 ∨ d = 1 ∨ d = 2 ∨ d = 3 ∨ d = 4 ∨ d = 5 ∨ d = 6 ∨ d = 7 ∨ d = 8 ∨ d = 9.
Proof. lia. Qed.

Lemma digit_char_is_digit (d : Z) : 0 <= d <= 9 -> is_digit (digit_char d) = true.
Proof. intros H. destruct (digit_cases d H) as [->|[->|[->|[->|[->|[->|[->|[->|[->| ->]]]]]]]]]; reflexivity. Qed.

Lemma digit_val_char (d : Z) : 0 <= d <= 9 -> digit_val (digit_char d) = d.
Proof. intros H. destruct (digit_cases d H) as [->|[->|[->|[->|[->|[->|[->|[->|[->| ->]]]]]]]]]; reflexivity. Qed.

Lemma digits_value_snoc (s : text) (c : char) (a : Z) :
  digits_value a (s ++ [c]) = 10 * digits_value a s + digit_val c.
Proof.
  revert a. induction s as [|x s IH]; intros a; [reflexivity|].
  rewrite str_app_cons. simpl. apply IH.
Qed.

Lemma show_digits_app (fuel : nat) (n : Z) (acc : text) :
  show_digits fuel n acc = show_digits fuel n "" ++ acc.
Proof.
  revert n acc. induction fuel as [|fuel IH]; intros n acc; simpl; [reflexivity|].
  destruct (n <? 10); [reflexivity|].
  rewrite (IH _ ((_ :: acc))), (IH _ ([_])).
  now rewrite str_app_assoc.
Qed.

Lemma show_digits_value (fuel : nat) (n : Z) :
  0 <= n < 2 ^ Z.of_nat fuel -> digits_value 0 (show_digits fuel n "") = n.
Proof.
  revert n. induction fuel as [|fuel IH]; intros n Hn.
  - simpl in *. lia.
  - simpl show_digits. destruct (Z.ltb_spec n 10) as [Hlt|Hge].
    + simpl. apply digit_val_char. lia.
    + rewrite show_digits_app, digits_value_snoc, IH.
      * rewrite digit_val_char by (pose proof (Z.mod_pos_bound n 10); lia).
        pose proof (Z.div_mod n 10). lia.
      * rewrite Nat2Z.inj_succ, Z.pow_succ_r in Hn by lia.
        split; [apply Z.div_pos; lia|].
        apply Z.div_lt_upper_bound; lia.
Qed.

Lemma show_digits_all_digits (fuel : nat) (n : Z) (acc : text) :
  0 <= n -> all_digits acc = true -> all_digits (show_digits fuel n acc) = true.
Proof.
  revert n acc. induction fuel as [|fuel IH]; intros n acc Hn Hacc; simpl; [exact Hacc|].
  destruct (Z.ltb_spec n 10) as [Hlt|Hge].
  - cbn [all_digits]. rewrite digit_char_is_digit by lia. exact Hacc.
  - apply IH; [apply Z.div_pos; lia|].
    cbn [all_digits]. rewrite digit_char_is_digit; [exact Hacc|].
    pose proof (Z.mod_pos_bound n 10). lia.
Qed.

Lemma show_digits_nonempty (fuel : nat) (n : Z) (acc : text) :
  is_empty (show_digits (S fuel) n acc) = false.
Proof.
  simpl. destruct (n <? 10); [reflexivity|].
  rewrite show_digits_app. generalize (show_digits fuel (n / 10) "").
  intros [|c s]; reflexivity.
Qed.

Lemma show_Z_nonneg (n : Z) :
  0 <= n -> show_Z n = show_digits (S (Z.to_nat (Z.log2 n))) n "".
Proof. intros Hn. unfold show_Z. destruct (Z.ltb_spec n 0); [lia | reflexivity]. Qed.

Lemma show_Z_value (n : Z) : 0 <= n -> digits_value 0 (show_Z n) = n.
Proof.
  intros Hn. rewrite show_Z_nonneg by exact Hn. apply show_digits_value.
  split; [exact Hn|].
  rewrite Nat2Z.inj_succ, Z2Nat.id by apply Z.log2_nonneg.
  destruct (Z.eq_dec n 0) as [->|Hz]; [reflexivity|].
  apply Z.log2_spec. lia.
Qed.

Lemma show_Z_all_digits (n : Z) : 0 <= n -> all_digits (show_Z n) = true.
Proof.
  intros Hn. rewrite show_Z_nonneg by exact Hn.
  now apply show_digits_all_digits.
Qed.

Lemma show_Z_nonempty (n : Z) : 0 <= n -> is_empty (show_Z n) = false.
Proof. intros Hn. rewrite show_Z_nonneg by exact Hn. apply show_digits_nonempty. Qed.

Lemma show_Z_digit (n : Z) : 0 <= n < 10 -> show_Z n = [digit_char n].
Proof.
  intros Hn. rewrite show_Z_nonneg by lia. simpl.
  destruct (Z.ltb_spec n 10); [reflexivity | lia].
Qed.

Lemma show_Z_two_digits (n : Z) :
  10 <= n < 100 ->
  show_Z n = ((digit_char (n / 10)) :: ([digit_char (n mod 10)])).
Proof.
  intros Hn. rewrite show_Z_nonneg by lia.
  assert (Hl : 3 <= Z.log2 n) by (apply Z.log2_le_pow2; simpl; lia).
  destruct (Z.to_nat (Z.log2 n)) as [|fuel] eqn:Hf; [lia|].
  simpl. destruct (Z.ltb_spec n 10); [lia|].
  destruct (Z.ltb_spec (n / 10) 10) as [|Hbig]; [reflexivity|].
  assert (n / 10 < 10) by (apply Z.div_lt_upper_bound; lia). lia.
Qed.

(** Below 100, the format [02] gives exactly the tens and the units digit. *)
Lemma fmt_02_two_digits (n : Z) :
  0 <= n < 100 ->
  fmt_02 n = ((digit_char (n / 10)) :: ([digit_char (n mod 10)])).
Proof.
  intros Hn. unfold fmt_02. destruct (Z.ltb_spec n 10) as [Hlt|Hge].
  - rewrite show_Z_digit by lia.
    rewrite Z.div_small, Z.mod_small by lia. reflexivity.
  - apply show_Z_two_digits. lia.
Qed.

Lemma fmt_02_length (n : Z) : 0 <= n < 100 -> List.length (fmt_02 n) = 2%nat.
Proof. intros Hn. now rewrite fmt_02_two_digits. Qed.

Lemma fmt_02_all_digits (n : Z) : 0 <= n < 100 -> all_digits (fmt_02 n) = true.
Proof.
  intros Hn. rewrite fmt_02_two_digits by exact Hn. cbn [all_digits].
  rewrite !digit_char_is_digit; [reflexivity| |]; div_lia.
Qed.

Lemma fmt_02_value (n : Z) : 0 <= n < 100 -> digits_value 0 (fmt_02 n) = n.
Proof.
  intros Hn. rewrite fmt_02_two_digits by exact Hn. cbn [digits_value].
  rewrite !digit_val_char; div_lia.
Qed.

Lemma span_digits_app (s r : text) :
  all_digits s = true -> head_is is_digit r = false ->
  span_digits (s ++ r) = (s, r).
Proof.
  intros Hs Hr. induction s as [|c s IH].
  - rewrite str_app_nil_l. destruct r as [|c r]; [reflexivity|].
    simpl in *. now rewrite Hr.
  - simpl in Hs. apply andb_prop in Hs as [Hc Hs].
    rewrite str_app_cons. simpl. rewrite Hc, (IH Hs). reflexivity.
Qed.

Lemma read_field_numeral (s r : text) :
  all_digits s = true -> is_empty s = false -> head_is is_digit r = false ->
  read_field (s ++ r) = Some (digits_value 0 s, r).
Proof.
  intros Hs Hne Hr. unfold read_field. rewrite span_digits_app by assumption.
  now rewrite Hne.
Qed.

Lemma read_field_fmt_02 (n : Z) (r : text) :
  0 <= n < 100 -> head_is is_digit r = false ->
  read_field (fmt_02 n ++ r) = Some (n, r).
Proof.
  intros Hn Hr. rewrite read_field_numeral; [|now apply fmt_02_all_digits| |exact Hr].
  - now rewrite fmt_02_value.
  - now rewrite fmt_02_two_digits.
Qed.

Lemma read_field_show_Z (n : Z) (r : text) :
  0 <= n -> head_is is_digit r = false ->
  read_field (show_Z n ++ r) = Some (n, r).
Proof.
  intros Hn Hr. rewrite read_field_numeral; [|now apply show_Z_all_digits| |exact Hr].
  - now rewrite show_Z_value.
  - now apply show_Z_nonempty.
Qed.

Lemma read_clock_fmt (h m sec : Z) :
  0 <= h < 100 -> 0 <= m < 100 -> 0 <= sec < 100 ->
  read_clock (fmt_02 h ++ ":" ++ fmt_02 m ++ ":" ++ fmt_02 sec) = Some (h, m, sec).
Proof.
  intros Hh Hm Hs. unfold read_clock.
  rewrite read_field_fmt_02 by (assumption || reflexivity). cbn [mbind option_bind].
  rewrite strip_prefix_app. cbn [mbind option_bind].
  rewrite read_field_fmt_02 by (assumption || reflexivity). cbn [mbind option_bind].
  rewrite strip_prefix_app. cbn [mbind option_bind].
  rewrite <- (str_app_nil_r (fmt_02 sec)).
  rewrite read_field_fmt_02 by (assumption || reflexivity). reflexivity.
Qed.

(* ================================================================== *)
(** * utils.py: format_duration                                        *)
(* ================================================================== *)

Lemma duration_fields (s : Z) :
  0 <= s ->
  0 <= s / 86400
  ∧ 0 <= (s mod 86400) / 3600 < 24
  ∧ 0 <= (s mod 3600) / 60 < 60
  ∧ 0 <= s mod 60 < 60
  ∧ (s mod 86400) mod 3600 = s mod 3600
  ∧ ((s mod 86400) mod 3600) mod 60 = s mod 60
  ∧ s / 86400 * 86400 + (s mod 86400) / 3600 * 3600 + (s mod 3600) / 60 * 60
    + s mod 60 = s.
Proof. intros Hs. Z.to_euclidean_division_equations. lia. Qed.

Lemma int_str_limit_pos : 2 ^ 1024 < int_str_limit.
Proof. vm_compute. reflexivity. Qed.

Lemma str_int_small (n : Z) :
  Z.abs n < int_str_limit -> str_int n = Ok (show_Z n).
Proof.
  intros Hn. unfold str_int.
  destruct (Z.leb_spec int_str_limit (Z.abs n)); [lia | reflexivity].
Qed.

Lemma str_int_large (n : Z) :
  int_str_limit <= Z.abs n -> str_int n = Raise ValueError.
Proof.
  intros Hn. unfold str_int.
  destruct (Z.leb_spec int_str_limit (Z.abs n)); [reflexivity | lia].
Qed.

Lemma format_duration_int_gen (s : Z) :
  0 <= s ->
  format_duration (VInt s)
  = (let clock := fmt_02 ((s mod 86400) / 3600) ++ ":" ++
                  fmt_02 ((s mod 3600) / 60) ++ ":" ++ fmt_02 (s mod 60) in
     if 0 <? s / 86400
     then d ← str_int (s / 86400); Ok (VStr (d ++ day_suffix ++ " " ++ clock))
     else Ok (VStr clock)).
Proof.
  intros Hs. destruct (duration_fields s Hs) as (_ & _ & _ & _ & H1 & H2 & _).
  unfold format_duration. cbn [isinstance_int_float lt_zero negb orb].
  destruct (Z.ltb_spec s 0) as [|_]; [lia|].
  cbn [to_int mbind result_bind]. rewrite H2, H1.
  destruct (0 <? s / 86400); reflexivity.
Qed.

Lemma format_duration_int (s : Z) :
  0 <= s < 86400 * int_str_limit ->
  format_duration (VInt s)
  = Ok (VStr (let clock := fmt_02 ((s mod 86400) / 3600) ++ ":" ++
                           fmt_02 ((s mod 3600) / 60) ++ ":" ++ fmt_02 (s mod 60) in
              if 0 <? s / 86400
              then show_Z (s / 86400) ++ day_suffix ++ " " ++ clock
              else clock)).
Proof.
  intros [Hs Hlim]. rewrite format_duration_int_gen by assumption. cbv zeta.
  destruct (0 <? s / 86400); [|reflexivity].
  rewrite str_int_small; [reflexivity|].
  assert (0 <= s / 86400 < int_str_limit)
    by (split; [apply Z.div_pos; lia | apply Z.div_lt_upper_bound; lia]).
  lia.
Qed.

Lemma format_duration_int_limit (s : Z) :
  86400 * int_str_limit <= s -> format_duration (VInt s) = Raise ValueError.
Proof.
  intros Hlim. pose proof int_str_limit_pos as Hpos.
  assert (0 < 2 ^ 1024) by (apply Z.pow_pos_nonneg; lia).
  assert (int_str_limit <= s / 86400) by (apply Z.div_le_lower_bound; lia).
  rewrite format_duration_int_gen by lia. cbv zeta.
  destruct (Z.ltb_spec 0 (s / 86400)); [|lia].
  rewrite str_int_large by lia. reflexivity.
Qed.

Lemma duration_components_clock (h m sec : Z) :
  0 <= h < 100 -> 0 <= m < 100 -> 0 <= sec < 100 ->
  duration_components (fmt_02 h ++ ":" ++ fmt_02 m ++ ":" ++ fmt_02 sec)
  = Some (0, h, m, sec).
Proof.
  intros Hh Hm Hs. unfold duration_components.
  rewrite read_field_fmt_02 by (assumption || reflexivity).
  cbn [mbind option_bind].
  replace (strip_prefix (day_suffix ++ " ") (":" ++ fmt_02 m ++ ":" ++ fmt_02 sec))
    with (@None text) by reflexivity.
  now rewrite read_clock_fmt.
Qed.

Lemma duration_components_days (d h m sec : Z) :
  0 <= d -> 0 <= h < 100 -> 0 <= m < 100 -> 0 <= sec < 100 ->
  duration_components
    (show_Z d ++ day_suffix ++ " " ++
     fmt_02 h ++ ":" ++ fmt_02 m ++ ":" ++ fmt_02 sec)
  = Some (d, h, m, sec).
Proof.
  intros Hd Hh Hm Hs. unfold duration_components.
  rewrite read_field_show_Z by (assumption || reflexivity).
  cbn [mbind option_bind].
  rewrite <- (str_app_assoc day_suffix " "), strip_prefix_app.
  now rewrite read_clock_fmt.
Qed.

(** C6.  For every integer [s] with [0 <= s < 86400 * 10^4300],
    [format_duration(s)] is days = s div 86400, hours = (s mod 86400) div
    3600, minutes = (s mod 3600) div 60 and seconds = s mod 60, written as
    the days, the day suffix and a blank in front of HH:MM:SS when days > 0
    and as HH:MM:SS alone otherwise, each of HH, MM, SS two digits long;
    reading the four components back out of that text and recombining them
    (days*86400 + hours*3600 + minutes*60 + seconds) gives [s] again.  From
    [86400 * 10^4300] on, the day count has more than 4300 digits and
    [format_duration] raises [ValueError].  Every value that is not a
    number, every negative integer and every float below zero yields the
    sentinel. *)
Theorem format_duration_roundtrip :
  (∀ s : Z, 0 <= s < 86400 * int_str_limit ->
     let d := s / 86400 in
     let h := (s mod 86400) / 3600 in
     let m := (s mod 3600) / 60 in
     let sec := s mod 60 in
     let clock := fmt_02 h ++ ":" ++ fmt_02 m ++ ":" ++ fmt_02 sec in
     let text := if 0 <? d then show_Z d ++ day_suffix ++ " " ++ clock else clock in
     format_duration (VInt s) = Ok (VStr text)
     ∧ List.length (fmt_02 h) = 2%nat
     ∧ List.length (fmt_02 m) = 2%nat
     ∧ List.length (fmt_02 sec) = 2%nat
     ∧ duration_components text = Some (d, h, m, sec)
     ∧ recombine (d, h, m, sec) = s)
  ∧ (∀ s : Z, 86400 * int_str_limit <= s ->
       format_duration (VInt s) = Raise ValueError)
  ∧ (∀ v, isinstance_int_float v = false -> format_duration v = Ok (VStr UNKNOWN))
  ∧ (∀ s : Z, s < 0 -> format_duration (VInt s) = Ok (VStr UNKNOWN))
  ∧ (∀ f, flt f (float_lit 0) = true -> format_duration (VFloat f) = Ok (VStr UNKNOWN)).
Proof.
  split; [|split; [|split; [|split]]].
  - intros s Hs d h m sec clock text.
    destruct (duration_fields s (proj1 Hs)) as (Hd & Hh & Hm & Hsec & _ & _ & Hsum).
    fold d h m sec in Hd, Hh, Hm, Hsec, Hsum.
    split; [exact (format_duration_int s Hs)|].
    split; [apply fmt_02_length; lia|].
    split; [apply fmt_02_length; lia|].
    split; [apply fmt_02_length; lia|].
    split; [|exact Hsum].
    subst text clock. destruct (Z.ltb_spec 0 d).
    + apply duration_components_days; lia.
    + replace d with 0 by lia. apply duration_components_clock; lia.
  - exact format_duration_int_limit.
  - intros v Hv. unfold format_duration. now rewrite Hv.
  - intros s Hs. unfold format_duration. cbn [isinstance_int_float lt_zero negb orb].
    destruct (Z.ltb_spec s 0); [reflexivity | lia].
  - intros f Hf. unfold format_duration. cbn [isinstance_int_float lt_zero negb orb].
    now rewrite Hf.
Qed.

Lemma format_duration_roundtrip_witness :
  format_duration (VInt 1234567) = Ok (VStr ("14" ++ day_suffix ++ " 06:56:07"))
  ∧ duration_components ("14" ++ day_suffix ++ " 06:56:07") = Some (14, 6, 56, 7)
  ∧ recombine (14, 6, 56, 7) = 1234567
  ∧ format_duration (VInt (86400 * int_str_limit + 5)) = Raise ValueError
  ∧ format_duration (VInt (-3)) = Ok (VStr UNKNOWN).
Proof.
  pose proof (proj1 format_duration_roundtrip 1234567
                ltac:(split; vm_compute; [discriminate | reflexivity])) as H.
  cbv zeta in H. destruct H as (H1 & _ & _ & _ & H2 & H3).
  split; [exact H1|]. split; [exact H2|]. split; [exact H3|].
  split.
  - apply (proj1 (proj2 format_duration_roundtrip)). lia.
  - exact (proj1 (proj2 (proj2 (proj2 format_duration_roundtrip))) (-3) ltac:(lia)).
Defined.

(** C6, the claim as it was written.  The claim speaks of every
    non-negative integer; at [s = 86400 * 10^4300] the day count is
    [10^4300], which has 4301 digits, and the call raises instead of
    rendering. *)
Lemma format_duration_digit_limit_counterexample :
  0 <= 86400 * 10 ^ 4300
  ∧ format_duration (VInt (86400 * 10 ^ 4300)) = Raise ValueError.
Proof. split; [vm_compute; discriminate | vm_compute; reflexivity]. Qed.

(* ================================================================== *)
(** * Text: whitespace, tokens and the line patterns                   *)
(* ================================================================== *)

Lemma lstrip_all_space (ws r : text) :
  all_space ws = true -> lstrip (ws ++ r) = lstrip r.
Proof.
  induction ws as [|c ws IH]; [reflexivity|].
  cbn [all_space]. intros [Hc Hws]%andb_prop.
  rewrite str_app_cons. cbn [lstrip]. rewrite Hc. now apply IH.
Qed.

Lemma lstrip_head (s : text) :
  head_is (fun c => negb (is_space c)) s = true -> lstrip s = s.
Proof.
  destruct s as [|c s]; [discriminate|]. cbn [head_is lstrip].
  intros H. now apply negb_true_iff in H as ->.
Qed.

Lemma rstrip_no_space (s : text) : no_space s = true -> rstrip s = s.
Proof.
  induction s as [|c s IH]; [reflexivity|].
  cbn [no_space rstrip]. intros [Hc Hs]%andb_prop. rewrite (IH Hs).
  apply negb_true_iff in Hc. rewrite Hc. now destruct s.
Qed.

(** A token without whitespace is its own [strip()]. *)
Lemma strip_token (t : text) :
  is_empty t = false -> no_space t = true -> strip t = t.
Proof.
  intros Hne Hns. unfold strip. rewrite rstrip_no_space by exact Hns.
  apply lstrip_head. destruct t as [|c t]; [discriminate|].
  cbn [no_space head_is] in *. now apply andb_prop in Hns as [-> _].
Qed.

Lemma split_ws_cons (c : char) (s' : text) :
  split_ws ((c :: s'))
  = if is_space c then split_ws s'
    else match s' with
         | [] => [[c]]
         | (c' :: _) =>
             if is_space c' then [c] :: split_ws s'
             else match split_ws s' with
                  | t :: ts => (c :: t) :: ts
                  | [] => [[c]]
                  end
         end.
Proof. reflexivity. Qed.

(** Every token of [split()] is non-empty and free of whitespace. *)
Lemma split_ws_tokens (s : text) :
  Forall (fun t => is_empty t = false ∧ no_space t = true) (split_ws s).
Proof.
  induction s as [|c s IH]; [constructor|].
  rewrite split_ws_cons. destruct (is_space c) eqn:Hc; [exact IH|].
  assert (Hone : is_empty ([c]) = false ∧ no_space ([c]) = true).
  { cbn [is_empty no_space]. now rewrite Hc. }
  destruct s as [|c' s']; [now constructor|].
  destruct (is_space c'); [now constructor|].
  destruct (split_ws ((c' :: s'))) as [|t ts]; [now constructor|].
  inversion IH as [|? ? [Ht1 Ht2] Hts]; subst.
  constructor; [|exact Hts]. cbn [is_empty no_space]. now rewrite Hc, Ht2.
Qed.


(** The list comprehension of [_cpu_features] keeps [split()] as it is. *)
Lemma features_comprehension (g : text) :
  strip <$> filter (fun item => negb (is_empty (strip item))) (split_ws g)
  = split_ws g.
Proof.
  pose proof (split_ws_tokens g) as H.
  induction H as [|t ts [Ht1 Ht2] Hts IH]; [reflexivity|].
  rewrite filter_cons, (strip_token t Ht1 Ht2), Ht1. cbn [negb].
  rewrite decide_True by exact I.
  rewrite fmap_cons, IH, (strip_token t Ht1 Ht2). reflexivity.
Qed.

Lemma line_prefix_app (v tail : text) :
  one_line v = true -> ends_here tail = true -> line_prefix (v ++ tail) = v.
Proof.
  intros Hv Ht. induction v as [|c v IH].
  - rewrite str_app_nil_l. destruct tail as [|c t]; [reflexivity|].
    cbn [ends_here line_prefix] in *. now rewrite Ht.
  - cbn [one_line] in Hv. apply andb_prop in Hv as [Hc Hv].
    rewrite str_app_cons. cbn [line_prefix]. apply negb_true_iff in Hc. rewrite Hc.
    f_equal. now apply IH.
Qed.

Lemma re_capture_head (r : text) :
  head_is (fun c => negb (is_space c)) r = true ->
  re_capture r = Some (line_prefix r).
Proof.
  destruct r as [|c r]; [discriminate|]. cbn [head_is]. intros Hc.
  apply negb_true_iff in Hc. cbn [re_capture]. now rewrite Hc.
Qed.

Lemma re_capture_all_space (ws r g : text) :
  all_space ws = true -> re_capture r = Some g -> re_capture (ws ++ r) = Some g.
Proof.
  intros Hws Hr. induction ws as [|c ws IH]; [exact Hr|].
  cbn [all_space] in Hws. apply andb_prop in Hws as [Hc Hws].
  rewrite str_app_cons. cbn [re_capture]. rewrite Hc, (IH Hws). reflexivity.
Qed.

Lemma definite_mismatch_app (p s r : text) :
  definite_mismatch p s = true -> strip_prefix p (s ++ r) = None.
Proof.
  revert s. induction p as [|a p IH]; intros s; [discriminate|].
  destruct s as [|b s]; [discriminate|].
  rewrite str_app_cons. cbn [definite_mismatch strip_prefix].
  destruct (bool_decide (a = b)); [apply IH | reflexivity].
Qed.

Lemma re_match_key_no_prefix (key s : text) :
  strip_prefix key s = None -> re_match_key key s = None.
Proof. unfold re_match_key. now intros ->. Qed.

Lemma re_search_from_cons (key : text) (bol : bool) (c : char) (s' : text) :
  re_search_from key bol ((c :: s'))
  = match (if bol then re_match_key key ((c :: s')) else None) with
    | Some g => Some g
    | None => re_search_from key (is_nl c) s'
    end.
Proof. reflexivity. Qed.

(** Whole lines that do not begin with the key are passed over. *)
Lemma re_search_skip_lines (key pre rest : text) (bol : bool) :
  lines_avoid key bol pre = true ->
  re_search_from key bol (pre ++ rest) = re_search_from key true rest.
Proof.
  revert bol. induction pre as [|c pre IH]; intros bol.
  - cbn [lines_avoid]. intros ->. now rewrite str_app_nil_l.
  - cbn [lines_avoid]. intros [Hm Hrest]%andb_prop.
    rewrite str_app_cons, re_search_from_cons, (IH _ Hrest).
    destruct bol; [|reflexivity].
    rewrite <- str_app_cons, re_match_key_no_prefix; [reflexivity|].
    now apply definite_mismatch_app.
Qed.

Lemma re_match_key_line (key ws1 ws2 v tail : text) :
  all_space ws1 = true -> all_space ws2 = true ->
  head_is (fun c => negb (is_space c)) v = true ->
  one_line v = true -> ends_here tail = true ->
  re_match_key key (key ++ ws1 ++ ":" ++ ws2 ++ v ++ tail) = Some v.
Proof.
  intros H1 H2 Hh Hv Ht. unfold re_match_key.
  rewrite strip_prefix_app, (lstrip_all_space _ _ H1).
  change (":" ++ ws2 ++ v ++ tail) with ((chr ":" :: (ws2 ++ v ++ tail))).
  cbn [lstrip].
  replace (is_space (chr ":")) with false by reflexivity.
  rewrite bool_decide_true by reflexivity.
  apply re_capture_all_space; [exact H2|].
  rewrite re_capture_head.
  - now rewrite line_prefix_app.
  - destruct v as [|c v]; [discriminate|]. rewrite str_app_cons. exact Hh.
Qed.

Lemma re_search_from_found (key s g : text) :
  re_match_key key s = Some g -> re_search_from key true s = Some g.
Proof.
  intros H. destruct s as [|c s].
  - cbn [re_search_from]. now rewrite H.
  - now rewrite re_search_from_cons, H.
Qed.

(** The search finds the first line that begins with the key. *)
Lemma re_search_key_line (key content v : text) :
  has_key_line key content v -> re_search_key key content = Some v.
Proof.
  intros (pre & ws1 & ws2 & tail & -> & Hpre & H1 & H2 & Hh & Hv & Ht).
  unfold re_search_key. rewrite (re_search_skip_lines _ _ _ _ Hpre).
  apply re_search_from_found. now apply re_match_key_line.
Qed.

Lemma not_is_Some_None {A} (o : option A) : ¬ is_Some o -> o = None.
Proof. destruct o; [intros H; exfalso; eauto | reflexivity]. Qed.

(** The search fails when no line begins with the key. *)
Lemma re_search_from_absent (key s : text) (bol : bool) :
  key_absent key bol s = true -> re_search_from key bol s = None.
Proof.
  revert bol. induction s as [|c s IH]; intros bol.
  - cbn [key_absent re_search_from]. intros [H _]%andb_prop.
    destruct bol; [|reflexivity].
    rewrite re_match_key_no_prefix; [reflexivity|].
    apply negb_true_iff, bool_decide_eq_false in H. now apply not_is_Some_None.
  - cbn [key_absent]. intros [H Hrest]%andb_prop.
    rewrite re_search_from_cons, (IH _ Hrest).
    destruct bol; [|reflexivity].
    rewrite re_match_key_no_prefix; [reflexivity|].
    apply negb_true_iff, bool_decide_eq_false in H. now apply not_is_Some_None.
Qed.

Lemma re_search_key_absent (key content : text) :
  key_absent key true content = true -> re_search_key key content = None.
Proof. apply re_search_from_absent. Qed.

(* ================================================================== *)
(** * providers.py: feature flags                                      *)
(* ================================================================== *)

Lemma cpu_features_missing (os : env) :
  cpuinfo_exists os = Ok false -> _cpu_features os = Ok (VStr UNKNOWN).
Proof. intros H. unfold _cpu_features. now rewrite H. Qed.

Lemma cpu_features_unreadable (os : env) (e : exn) :
  cpuinfo_exists os = Ok true -> cpuinfo_read_text os = Raise e ->
  is_Exception e = true -> _cpu_features os = Ok (VStr UNKNOWN).
Proof. intros H1 H2 H3. unfold _cpu_features. rewrite H1. simpl. now rewrite H2, H3. Qed.







(* ================================================================== *)
(** * providers.py: brand resolution                                   *)
(* ================================================================== *)

(** With an empty or generic processor name, the brand is decided by the
    info pseudo-file alone. *)
Lemma cpu_brand_falls_back (os : env) (name : text) :
  processor_name os = Ok name ->
  name = "" ∨ lower (strip name) ∈ GENERIC_CPU_NAMES ->
  _cpu_brand os
  = (ex ← cpuinfo_exists os;
     if ex : bool then
       try_except
         (content ← cpuinfo_read_text os;
          match re_search_key "model name" content with
          | Some g => Ok (strip g)
          | None => Ok UNKNOWN
          end)
         (Ok UNKNOWN)
     else Ok UNKNOWN).
Proof.
  intros Hname Hgen. unfold _cpu_brand. rewrite Hname. simpl.
  destruct Hgen as [-> | Hgen]; [reflexivity|].
  rewrite (bool_decide_true _ Hgen). now rewrite andb_false_r.
Qed.

(** A name that is neither empty nor generic is the brand, as it came. *)
Lemma cpu_brand_platform_name (os : env) (name : text) :
  processor_name os = Ok name -> name ≠ "" ->
  lower (strip name) ∉ GENERIC_CPU_NAMES ->
  _cpu_brand os = Ok name.
Proof.
  intros Hname Hne Hgen. unfold _cpu_brand. rewrite Hname. simpl.
  rewrite (bool_decide_false _ Hgen). now destruct name.
Qed.

(** C3.  With the processor name x86_64, which is generic, the brand
    comes from the info pseudo-file, and a file with the line
    [model name : Example CPU X9] gives the brand [Example CPU X9], as the
    specification has it.  A [model name] line with a blank value yields no
    value, yet the brand is not the sentinel then: it is the empty text
    when that line ends the file, and the whole next line otherwise, the
    blank before the value being allowed to run across the line end.
    [_cpu_features], which reads its line by the same pattern, does answer
    a blank value with the sentinel. *)
Theorem cpu_brand_blank_model_name :
  _cpu_brand (env_cpuinfo "x86_64" sample_cpuinfo) = Ok "Example CPU X9"
  ∧ _cpu_brand (env_cpuinfo "x86_64" cpuinfo_blank_last) = Ok ""
  ∧ _cpu_brand (env_cpuinfo "x86_64" cpuinfo_blank_then_flags)
    = Ok "flags : fpu vme sse2"
  ∧ _cpu_features (env_cpuinfo "x86_64" ("flags : " ++ LF)) = Ok (VStr UNKNOWN).
Proof. repeat split; vm_compute; reflexivity. Qed.

(** X29.  When the platform's processor name is empty, or its trimmed,
    lower-cased form is one of x86_64, amd64, arm64, aarch64, i386, i686,
    the brand is read from the info pseudo-file: it is the trimmed group of
    the first match of the [model name] pattern, and the sentinel when
    nothing matches, when the file does not exist and when reading it
    fails.  The first line that begins with [model name], a colon and a
    value starting with a non-blank character matches with that value, and
    when no line begins with [model name] nothing matches.  The generic
    name may be in upper case and have whitespace around it, a no-break
    space included. *)
Theorem cpu_brand_resolution :
  (∀ os name,
     processor_name os = Ok name ->
     name = "" ∨ lower (strip name) ∈ GENERIC_CPU_NAMES ->
     (∀ content v,
        cpuinfo_exists os = Ok true -> cpuinfo_read_text os = Ok content ->
        has_key_line "model name" content v -> _cpu_brand os = Ok (strip v))
     ∧ (∀ content,
          cpuinfo_exists os = Ok true -> cpuinfo_read_text os = Ok content ->
          key_absent "model name" true content = true ->
          _cpu_brand os = Ok UNKNOWN)
     ∧ (∀ content,
          cpuinfo_exists os = Ok true -> cpuinfo_read_text os = Ok content ->
          _cpu_brand os
          = Ok (match re_search_key "model name" content with
                | Some g => strip g
                | None => UNKNOWN
                end))
     ∧ (cpuinfo_exists os = Ok false -> _cpu_brand os = Ok UNKNOWN)
     ∧ (∀ e, cpuinfo_exists os = Ok true -> cpuinfo_read_text os = Raise e ->
          is_Exception e = true -> _cpu_brand os = Ok UNKNOWN))
  ∧ _cpu_brand (env_cpuinfo (" X86_64" ++ [160]) sample_cpuinfo) = Ok "Example CPU X9"
  ∧ (∀ os pre tail,
       processor_name os = Ok "x86_64" ->
       cpuinfo_exists os = Ok true ->
       cpuinfo_read_text os = Ok (pre ++ "model name : Example CPU X9" ++ tail) ->
       lines_avoid "model name" true pre = true -> ends_here tail = true ->
       _cpu_brand os = Ok "Example CPU X9").
Proof.
  assert (Hmain : ∀ os name content v,
    processor_name os = Ok name ->
    name = "" ∨ lower (strip name) ∈ GENERIC_CPU_NAMES ->
    cpuinfo_exists os = Ok true -> cpuinfo_read_text os = Ok content ->
    has_key_line "model name" content v -> _cpu_brand os = Ok (strip v)).
  { intros os name content v Hname Hgen Hex Hread Hline.
    rewrite (cpu_brand_falls_back os name Hname Hgen), Hex. simpl.
    rewrite Hread. simpl. now rewrite (re_search_key_line _ _ _ Hline). }
  split.
  - intros os name Hname Hgen. repeat split.
    + intros content v. now apply (Hmain os name).
    + intros content Hex Hread Habs.
      rewrite (cpu_brand_falls_back os name Hname Hgen), Hex. simpl.
      rewrite Hread. simpl. now rewrite (re_search_key_absent _ _ Habs).
    + intros content Hex Hread.
      rewrite (cpu_brand_falls_back os name Hname Hgen), Hex. simpl.
      rewrite Hread. simpl. now destruct (re_search_key "model name" content).
    + intros Hex. now rewrite (cpu_brand_falls_back os name Hname Hgen), Hex.
    + intros e Hex Hread He.
      rewrite (cpu_brand_falls_back os name Hname Hgen), Hex. simpl.
      rewrite Hread. simpl. now rewrite He.
  - split; [vm_compute; reflexivity|].
    intros os pre tail Hname Hex Hread Hpre Htail.
    assert (Hline : has_key_line "model name"
                      (pre ++ "model name : Example CPU X9" ++ tail)
                      "Example CPU X9").
    { exists pre, " ", " ", tail. repeat split; try assumption; reflexivity. }
    assert (Hgen : lower (strip "x86_64") ∈ GENERIC_CPU_NAMES).
    { change (lower (strip "x86_64")) with (txt "x86_64"). apply list_elem_of_here. }
    rewrite (Hmain os "x86_64" _ _ Hname (or_intror Hgen) Hex Hread Hline).
    reflexivity.
Qed.

Lemma cpu_brand_resolution_witness :
  _cpu_brand (env_linux (Raise OSError) (Raise OSError) (Raise OSError))
  = Ok "Example CPU X9".
Proof.
  exact (proj2 (proj2 cpu_brand_resolution)
           (env_linux (Raise OSError) (Raise OSError) (Raise OSError))
           "processor : 0
" "
flags : fpu vme sse2
" eq_refl eq_refl eq_refl eq_refl eq_refl).
Defined.

(* ================================================================== *)
(** * providers.py: the cache scan                                     *)
(* ================================================================== *)

Lemma cache_loop_scan_all (entries : list cache_index) (st : cache_state) :
  cache_loop entries st
  = (cs ← scan_all entries; Ok (foldl cache_update st (candidates cs))).
Proof.
  revert st. induction entries as [|idx rest IH]; intros st; [reflexivity|].
  simpl. unfold cache_step. destruct (scan_index idx) as [[c|]|e]; simpl.
  - rewrite IH. now destruct (scan_all rest).
  - rewrite IH. now destruct (scan_all rest).
  - reflexivity.
Qed.

Lemma cache_inv_empty : cache_inv [] (∅, ∅).
Proof.
  intros key. left. simpl. rewrite !lookup_empty.
  repeat split. intros b t H. now apply elem_of_nil in H.
Qed.

Lemma first_largest_fresh (key : text) (cands : list (text * Z * text))
    (b : Z) (t : text) :
  (∀ b' t', (key, b', t') ∈ cands -> b' < b) ->
  first_largest key (cands ++ [(key, b, t)]) b t.
Proof.
  intros H. exists cands, []. repeat split; [exact H|].
  intros b' t' Hin. now apply elem_of_nil in Hin.
Qed.

Lemma first_largest_bound (key : text) (cands : list (text * Z * text))
    (b : Z) (t : text) (b' : Z) (t' : text) :
  first_largest key cands b t -> (key, b', t') ∈ cands -> b' <= b.
Proof.
  intros (pre & post & -> & Hpre & Hpost) Hin.
  apply elem_of_app in Hin as [Hin|Hin].
  - specialize (Hpre _ _ Hin). lia.
  - apply elem_of_cons in Hin as [Heq|Hin].
    + injection Heq as -> _. lia.
    + exact (Hpost _ _ Hin).
Qed.

Lemma first_largest_snoc_le (key : text) (cands : list (text * Z * text))
    (b : Z) (t : text) (c : text * Z * text) :
  first_largest key cands b t ->
  (c.1.1 = key -> c.1.2 <= b) ->
  first_largest key (cands ++ [c]) b t.
Proof.
  intros (pre & post & -> & Hpre & Hpost) Hc.
  exists pre, (post ++ [c]). repeat split.
  - now rewrite <- app_assoc.
  - exact Hpre.
  - intros b' t' Hin. apply elem_of_app in Hin as [Hin|Hin].
    + exact (Hpost _ _ Hin).
    + apply list_elem_of_singleton in Hin. subst c. now apply Hc.
Qed.

Lemma no_entry_snoc (key : text) (cands : list (text * Z * text))
    (c : text * Z * text) :
  no_entry key cands -> c.1.1 ≠ key -> no_entry key (cands ++ [c]).
Proof.
  intros Hno Hc b t Hin. apply elem_of_app in Hin as [Hin|Hin].
  - exact (Hno _ _ Hin).
  - apply list_elem_of_singleton in Hin. subst c. now apply Hc.
Qed.

(** One turn of the loop keeps the invariant. *)
Lemma cache_inv_step (cands : list (text * Z * text)) (st : cache_state)
    (c : text * Z * text) :
  cache_inv cands st -> cache_inv (cands ++ [c]) (cache_update st c).
Proof.
  intros Hinv key. destruct c as [[k b] t]. destruct st as [bs bl].
  unfold cache_update. cbn [fst snd].
  destruct (decide (key = k)) as [->|Hne].
  - destruct (Hinv k) as [(Hs & Hl & Hno) | (b0 & t0 & Hs & Hl & Hfl)];
      cbn [fst snd] in Hs, Hl; rewrite Hs.
    + right. exists b, t. cbn [fst snd]. rewrite !lookup_insert_eq.
      repeat split. apply first_largest_fresh.
      intros b' t' Hin. now destruct (Hno _ _ Hin).
    + destruct (Z.ltb_spec b0 b) as [Hlt|Hge].
      * right. exists b, t. cbn [fst snd]. rewrite !lookup_insert_eq.
        repeat split. apply first_largest_fresh.
        intros b' t' Hin.
        pose proof (first_largest_bound _ _ _ _ _ _ Hfl Hin). lia.
      * right. exists b0, t0. cbn [fst snd]. repeat split; try assumption.
        apply first_largest_snoc_le; [exact Hfl|]. intros _. exact Hge.
  - assert (Hkeep : (cache_update (bs, bl) (k, b, t)).1 !! key = bs !! key
                    ∧ (cache_update (bs, bl) (k, b, t)).2 !! key = bl !! key).
    { unfold cache_update. cbn [fst snd].
      destruct (match bs !! k with Some b0 => b0 <? b | None => true end);
        cbn [fst snd]; [|done].
      now rewrite !lookup_insert_ne by congruence. }
    unfold cache_update in Hkeep. cbn [fst snd] in Hkeep.
    destruct Hkeep as [Hk1 Hk2]. rewrite Hk1, Hk2.
    destruct (Hinv key) as [(Hs & Hl & Hno) | (b0 & t0 & Hs & Hl & Hfl)];
      cbn [fst snd] in Hs, Hl.
    + left. repeat split; try assumption.
      apply no_entry_snoc; [exact Hno | cbn; congruence].
    + right. exists b0, t0. repeat split; try assumption.
      apply first_largest_snoc_le; [exact Hfl|]. cbn. congruence.
Qed.

Lemma cache_inv_foldl (done cands : list (text * Z * text)) (st : cache_state) :
  cache_inv done st -> cache_inv (done ++ cands) (foldl cache_update st cands).
Proof.
  revert done st. induction cands as [|c cands IH]; intros done st Hinv.
  - now rewrite app_nil_r.
  - simpl. replace (done ++ c :: cands) with ((done ++ [c]) ++ cands)
      by now rewrite <- app_assoc.
    apply IH. now apply cache_inv_step.
Qed.

Lemma cache_inv_label (cands : list (text * Z * text)) (st : cache_state)
    (key : text) :
  cache_inv cands st -> level_label key cands (label_or_unknown st.2 key).
Proof.
  intros Hinv. unfold label_or_unknown.
  destruct (Hinv key) as [(_ & Hl & Hno) | (b & t & _ & Hl & Hfl)]; rewrite Hl.
  - now left.
  - right. now exists b, t.
Qed.

(** The record returned when the directory exists and no scan raises. *)
Lemma cpu_cache_sizes_scanned (os : env) (entries : list cache_index)
    (cs : list (option (text * Z * text))) :
  cache_dir_exists os = Ok true -> cache_dir_glob os = Ok entries ->
  scan_all entries = Ok cs ->
  ∃ l1 l2 l3,
    _cpu_cache_sizes os = Ok (VDict [("L1", l1); ("L2", l2); ("L3", l3)])
    ∧ level_label "L1" (candidates cs) l1
    ∧ level_label "L2" (candidates cs) l2
    ∧ level_label "L3" (candidates cs) l3.
Proof.
  intros Hex Hglob Hscan. unfold _cpu_cache_sizes.
  rewrite Hex. simpl. rewrite Hglob. simpl.
  rewrite cache_loop_scan_all, Hscan. simpl.
  pose proof (cache_inv_foldl [] (candidates cs) _ cache_inv_empty) as Hinv.
  rewrite app_nil_l in Hinv.
  eexists _, _, _. split; [reflexivity|].
  repeat split; now apply cache_inv_label.
Qed.

Lemma cpu_cache_sizes_no_directory (os : env) :
  cache_dir_exists os = Ok false ->
  _cpu_cache_sizes os
  = Ok (VDict [("L1", VStr UNKNOWN); ("L2", VStr UNKNOWN); ("L3", VStr UNKNOWN)]).
Proof. intros H. unfold _cpu_cache_sizes. now rewrite H. Qed.

(** The turns that end in [continue]. *)
Lemma scan_index_skips (idx : cache_index) :
  (level_exists idx = Ok false -> scan_index idx = Ok None)
  ∧ (level_exists idx = Ok true -> size_exists idx = Ok false ->
     scan_index idx = Ok None)
  ∧ (∀ e, level_exists idx = Ok true -> size_exists idx = Ok true ->
       level_read_text idx = Raise e -> is_Exception e = true ->
       scan_index idx = Ok None)
  ∧ (∀ level e, level_exists idx = Ok true -> size_exists idx = Ok true ->
       level_read_text idx = Ok level -> size_read_text idx = Raise e ->
       is_Exception e = true -> scan_index idx = Ok None)
  ∧ (∀ level size, level_exists idx = Ok true -> size_exists idx = Ok true ->
       level_read_text idx = Ok level -> size_read_text idx = Ok size ->
       _parse_cache_size (strip size) = Ok None -> scan_index idx = Ok None).
Proof.
  unfold scan_index. repeat split.
  - now intros ->.
  - now intros -> ->.
  - intros e -> -> -> He. simpl. now rewrite He.
  - intros level e -> -> -> -> He. simpl. now rewrite He.
  - intros level size -> -> -> -> Hp. simpl. now rewrite Hp.
Qed.

(** The turns that reach the comparison. *)
Lemma scan_index_candidate (idx : cache_index) (key : text) (b : Z) (t : text) :
  scan_index idx = Ok (Some (key, b, t)) ->
  ∃ level size,
    level_read_text idx = Ok level ∧ size_read_text idx = Ok size
    ∧ key = "L" ++ strip level ∧ t = strip size
    ∧ _parse_cache_size (strip size) = Ok (Some b)
    ∧ level_exists idx = Ok true ∧ size_exists idx = Ok true.
Proof.
  unfold scan_index.
  destruct (level_exists idx) as [[|]|]; simpl; try discriminate.
  destruct (size_exists idx) as [[|]|]; simpl; try discriminate.
  destruct (level_read_text idx) as [level|e]; simpl.
  - destruct (size_read_text idx) as [size|e]; simpl.
    + destruct (_parse_cache_size (strip size)) as [[b'|]|e] eqn:Hp; simpl;
        try discriminate.
      intros [= <- <- <-]. now exists level, size.
    + destruct (is_Exception e); discriminate.
  - destruct (is_Exception e); discriminate.
Qed.

Lemma scan_index_readable (idx : cache_index) (level size : text) (b : Z) :
  level_exists idx = Ok true -> size_exists idx = Ok true ->
  level_read_text idx = Ok level -> size_read_text idx = Ok size ->
  _parse_cache_size (strip size) = Ok (Some b) ->
  scan_index idx = Ok (Some ("L" ++ strip level, b, strip size)).
Proof. unfold scan_index. intros -> -> -> -> Hp. simpl. now rewrite Hp. Qed.

(* ================================================================== *)
(** * Floats: rounding is exact on representable numbers               *)
(* ================================================================== *)

Lemma pow2_pos (k : Z) : 0 <= k -> 0 < 2 ^ k.
Proof. intros H. apply Z.pow_pos_nonneg; lia. Qed.

Lemma dy_is_scaled (m e n d a b : Z) :
  0 <= a -> 0 <= b -> a - b = e ->
  dy_is m e n d <-> m * 2 ^ a * d = n * 2 ^ b.
Proof.
  intros Ha Hb He. unfold dy_is.
  pose (k := Z.min a b).
  assert (Ea : 2 ^ a = 2 ^ Z.max e 0 * 2 ^ k)
    by (rewrite <- Z.pow_add_r by lia; f_equal; lia).
  assert (Eb : 2 ^ b = 2 ^ Z.max (- e) 0 * 2 ^ k)
    by (rewrite <- Z.pow_add_r by lia; f_equal; lia).
  rewrite Ea, Eb. clear Ea Eb.
  pose proof (pow2_pos k ltac:(lia)) as HP.
  generalize dependent (2 ^ k). intros P HP.
  generalize (2 ^ Z.max e 0) (2 ^ Z.max (- e) 0). intros A B.
  split; intros H.
  - replace (m * (A * P) * d) with (m * A * d * P) by ring. rewrite H. ring.
  - apply (Z.mul_reg_r _ _ P); [lia|].
    replace (m * A * d * P) with (m * (A * P) * d) by ring. rewrite H. ring.
Qed.

Lemma dy_is_nonneg_exp (m e n d : Z) :
  0 <= e -> dy_is m e n d <-> m * 2 ^ e * d = n.
Proof.
  intros He. rewrite (dy_is_scaled m e n d e 0) by lia.
  now rewrite Z.pow_0_r, Z.mul_1_r.
Qed.

Lemma dy_is_neg_exp (m e n d : Z) :
  e <= 0 -> dy_is m e n d <-> m * d = n * 2 ^ (- e).
Proof.
  intros He. rewrite (dy_is_scaled m e n d 0 (- e)) by lia.
  now rewrite Z.pow_0_r, Z.mul_1_r.
Qed.

(** The same rational in another fraction. *)
Lemma dy_is_transfer (m e n1 d1 n2 d2 : Z) :
  0 < d1 -> dy_is m e n1 d1 -> n1 * d2 = n2 * d1 -> dy_is m e n2 d2.
Proof.
  unfold dy_is. generalize (2 ^ Z.max e 0) (2 ^ Z.max (- e) 0). intros A B.
  intros Hd H Heq. apply (Z.mul_reg_r _ _ d1); [lia|].
  replace (m * A * d2 * d1) with (m * A * d1 * d2) by ring. rewrite H.
  replace (n2 * B * d1) with (n2 * d1 * B) by ring. rewrite <- Heq. ring.
Qed.

Lemma fval_transfer (f : pyfloat) (neg : bool) (n1 d1 n2 d2 : Z) :
  0 < d1 -> fval f neg n1 d1 -> n1 * d2 = n2 * d1 -> fval f neg n2 d2.
Proof.
  intros Hd (m & e & -> & Hm & H) Heq. exists m, e.
  repeat split; [exact Hm|]. now apply (dy_is_transfer m e n1 d1).
Qed.

Lemma representable_transfer (n1 d1 n2 d2 : Z) :
  0 < d1 -> representable n1 d1 -> n1 * d2 = n2 * d1 -> representable n2 d2.
Proof.
  intros Hd (M & E & HM & HE & H) Heq. exists M, E.
  repeat split; try lia. now apply (dy_is_transfer M E n1 d1).
Qed.

Lemma round_half_even_exact (q d : Z) : 0 < d -> round_half_even (q * d) d = q.
Proof.
  intros Hd. unfold round_half_even.
  rewrite Z.div_mul, Z.mod_mul by lia.
  destruct (Z.compare_spec (2 * 0) d); [lia | reflexivity | lia].
Qed.

Lemma round_half_even_scale (n d c : Z) :
  0 < d -> 0 < c -> round_half_even (n * c) (d * c) = round_half_even n d.
Proof.
  intros Hd Hc. unfold round_half_even.
  rewrite Z.div_mul_cancel_r, Z.mul_mod_distr_r by lia.
  replace (2 * (n mod d * c)) with (2 * (n mod d) * c) by ring.
  generalize (2 * (n mod d)). intros r.
  destruct (Z.compare_spec r d), (Z.compare_spec (r * c) (d * c));
    try reflexivity; nia.
Qed.

(** Rounding depends on the rational only. *)
Lemma round_half_even_rat (n1 d1 n2 d2 : Z) :
  0 < d1 -> 0 < d2 -> n1 * d2 = n2 * d1 ->
  round_half_even n1 d1 = round_half_even n2 d2.
Proof.
  intros H1 H2 Heq.
  rewrite <- (round_half_even_scale n1 d1 d2), <- (round_half_even_scale n2 d2 d1) by lia.
  rewrite Heq. f_equal. ring.
Qed.

Lemma floor_log2_rat_lower (n d : Z) :
  0 < n -> 0 < d ->
  d * 2 ^ Z.max (floor_log2_rat n d) 0 <= n * 2 ^ Z.max (- floor_log2_rat n d) 0.
Proof.
  intros Hn Hd. unfold floor_log2_rat, rat_lt_pow2.
  pose proof (Z.log2_spec n Hn) as [Ha _].
  pose proof (Z.log2_spec d Hd) as [_ Hb].
  pose proof (Z.log2_nonneg n) as Ha0. pose proof (Z.log2_nonneg d) as Hb0.
  set (a := Z.log2 n) in *. set (b := Z.log2 d) in *.
  assert (Hlow : ∀ F, F = a - b - 1 ->
            d * 2 ^ Z.max F 0 <= n * 2 ^ Z.max (- F) 0).
  { intros F HF.
    pose proof (pow2_pos (Z.max F 0) ltac:(lia)) as HX.
    pose proof (pow2_pos (Z.max (- F) 0) ltac:(lia)) as HY.
    assert (Hpow : 2 ^ Z.succ b * 2 ^ Z.max F 0 = 2 ^ a * 2 ^ Z.max (- F) 0).
    { rewrite <- !Z.pow_add_r by lia. f_equal. lia. }
    nia. }
  destruct (Z.leb_spec 0 (a - b)) as [Hl|Hl].
  - destruct (Z.ltb_spec n (d * 2 ^ (a - b))) as [Ht|Ht].
    + now apply Hlow.
    + rewrite Z.max_l, Z.max_r by lia. now rewrite Z.pow_0_r, Z.mul_1_r.
  - destruct (Z.ltb_spec (n * 2 ^ (- (a - b))) d) as [Ht|Ht].
    + now apply Hlow.
    + rewrite Z.max_r, Z.max_l by lia. now rewrite Z.pow_0_r, Z.mul_1_r.
Qed.

(** The rounded exponent never exceeds the exponent of an exact form. *)
Lemma round_exponent_le (n d M E : Z) :
  0 < n -> 0 < d -> 0 < M < 2 ^ 53 -> dy_is M E n d ->
  floor_log2_rat n d - 52 <= E.
Proof.
  intros Hn Hd HM His.
  pose proof (floor_log2_rat_lower n d Hn Hd) as Hlow.
  set (F := floor_log2_rat n d) in *.
  unfold dy_is in His.
  destruct (Z_lt_le_dec (E + 52) F) as [Hbig|]; [exfalso | lia].
  pose proof (pow2_pos (Z.max F 0) ltac:(lia)) as HX.
  pose proof (pow2_pos (Z.max (- F) 0) ltac:(lia)) as HY.
  pose proof (pow2_pos (Z.max E 0) ltac:(lia)) as HQ.
  pose proof (pow2_pos (Z.max (- E) 0) ltac:(lia)) as HP.
  assert (H1 : 2 ^ (Z.max F 0 + Z.max (- E) 0) <= M * 2 ^ (Z.max E 0 + Z.max (- F) 0)).
  { rewrite !Z.pow_add_r by lia.
    apply (Z.mul_le_mono_pos_r _ _ d); [lia|].
    replace (2 ^ Z.max F 0 * 2 ^ Z.max (- E) 0 * d)
      with (d * 2 ^ Z.max F 0 * 2 ^ Z.max (- E) 0) by ring.
    replace (M * (2 ^ Z.max E 0 * 2 ^ Z.max (- F) 0) * d)
      with (M * 2 ^ Z.max E 0 * d * 2 ^ Z.max (- F) 0) by ring.
    rewrite His. nia. }
  assert (H2 : M * 2 ^ (Z.max E 0 + Z.max (- F) 0)
               < 2 ^ (53 + (Z.max E 0 + Z.max (- F) 0))).
  { rewrite (Z.pow_add_r 2 53) by lia.
    pose proof (pow2_pos (Z.max E 0 + Z.max (- F) 0) ltac:(lia)). nia. }
  assert (H3 : 2 ^ (Z.max F 0 + Z.max (- E) 0)
               < 2 ^ (53 + (Z.max E 0 + Z.max (- F) 0))) by lia.
  apply Z.pow_lt_mono_r_iff in H3; lia.
Qed.

(** Rounding a representable number changes nothing. *)
Lemma binary64_round_exact (neg : bool) (n d : Z) :
  0 < n -> 0 < d -> representable n d ->
  fval (binary64_round neg n d) neg n d.
Proof.
  intros Hn Hd (M & E & HM & HE & His).
  pose proof (round_exponent_le n d M E Hn Hd HM His) as Hexp.
  unfold binary64_round. destruct (Z.eqb_spec n 0) as [|_]; [lia|].
  set (e := Z.max (floor_log2_rat n d - 52) (-1074)).
  assert (He : e <= E) by lia.
  assert (HeL : -1074 <= e) by lia.
  clearbody e. clear Hexp.
  pose proof (pow2_pos (E - e) ltac:(lia)) as Hj.
  set (m := if 0 <=? e then round_half_even n (d * 2 ^ e)
            else round_half_even (n * 2 ^ (- e)) d).
  assert (Hm : m = M * 2 ^ (E - e) ∧ dy_is m e n d).
  { subst m. destruct (Z.leb_spec 0 e) as [Hpos|Hneg].
    - pose proof (proj1 (dy_is_nonneg_exp M E n d ltac:(lia)) His) as His'.
      pose proof (pow2_pos e Hpos).
      assert (HE2 : 2 ^ E = 2 ^ (E - e) * 2 ^ e).
      { rewrite <- Z.pow_add_r by lia. f_equal. lia. }
      assert (Hn' : n = M * 2 ^ (E - e) * (d * 2 ^ e)).
      { rewrite <- His', HE2. ring. }
      assert (Hr : round_half_even n (d * 2 ^ e) = M * 2 ^ (E - e)).
      { rewrite Hn' at 1. apply round_half_even_exact. nia. }
      rewrite Hr. split; [reflexivity|].
      apply dy_is_nonneg_exp; [exact Hpos|]. rewrite <- His', HE2. ring.
    - pose proof (proj1 (dy_is_scaled M E n d (E - e) (- e)
                           ltac:(lia) ltac:(lia) ltac:(lia)) His) as His'.
      assert (Hr : round_half_even (n * 2 ^ (- e)) d = M * 2 ^ (E - e)).
      { rewrite <- His'. apply round_half_even_exact. lia. }
      rewrite Hr. split; [reflexivity|].
      apply dy_is_neg_exp; [lia|]. exact His'. }
  destruct Hm as [Hmeq Hmis]. clearbody m.
  assert (Hcmp : dy_cmp m e 1 1024 = Lt).
  { unfold dy_cmp. rewrite Z.min_l by lia. rewrite Z.sub_diag, Z.pow_0_r, Z.mul_1_r, Z.mul_1_l.
    apply Z.compare_lt_iff.
    assert (2 ^ 53 * 2 ^ (E - e) <= 2 ^ (1024 - e)).
    { rewrite <- Z.pow_add_r by lia. apply Z.pow_le_mono_r; lia. }
    nia. }
  rewrite Hcmp. exists m, e. repeat split; [nia | exact Hmis].
Qed.

Lemma binary64_round_zero (neg : bool) (d : Z) :
  fval (binary64_round neg 0 d) neg 0 d.
Proof.
  exists 0, 0. split; [reflexivity|]. split; [lia|]. unfold dy_is. lia.
Qed.

(** [float(z)] is exact below [2^53]. *)
Lemma float_of_Z_exact (z : Z) :
  0 <= z < 2 ^ 53 -> ∃ f, float_of_Z z = Ok f ∧ fval f false z 1.
Proof.
  intros Hz. unfold float_of_Z.
  destruct (Z.ltb_spec z 0) as [|_]; [lia|]. rewrite Z.abs_eq by lia.
  assert (Hv : fval (binary64_round false z 1) false z 1).
  { destruct (Z.eq_dec z 0) as [->|Hnz]; [apply binary64_round_zero|].
    apply binary64_round_exact; [lia | lia|].
    exists z, 0. split; [lia|]. split; [lia|].
    apply dy_is_nonneg_exp; lia. }
  destruct Hv as (m & e & Heq & Hm & His). rewrite Heq.
  eexists. split; [reflexivity|]. now exists m, e.
Qed.

(* ================================================================== *)
(** * Floats: the operations on values                                 *)
(* ================================================================== *)

Lemma compare_scaled (X Y A B D C : Z) :
  0 < D -> 0 < C -> X * D = A * C -> Y * D = B * C -> (X ?= Y) = (A ?= B).
Proof.
  intros HD HC HX HY.
  destruct (Z.compare_spec X Y), (Z.compare_spec A B); try reflexivity; nia.
Qed.

Lemma dy_cmp_spec (m1 e1 n1 d1 m2 e2 n2 d2 : Z) :
  0 < d1 -> 0 < d2 -> dy_is m1 e1 n1 d1 -> dy_is m2 e2 n2 d2 ->
  dy_cmp m1 e1 m2 e2 = (n1 * d2 ?= n2 * d1).
Proof.
  intros Hd1 Hd2 H1 H2. unfold dy_cmp.
  set (k := Z.min e1 e2).
  pose proof (proj1 (dy_is_scaled m1 e1 n1 d1 (e1 - k + Z.max k 0) (Z.max (- k) 0)
                       ltac:(lia) ltac:(lia) ltac:(lia)) H1) as H1'.
  pose proof (proj1 (dy_is_scaled m2 e2 n2 d2 (e2 - k + Z.max k 0) (Z.max (- k) 0)
                       ltac:(lia) ltac:(lia) ltac:(lia)) H2) as H2'.
  rewrite Z.pow_add_r in H1', H2' by lia.
  pose proof (pow2_pos (Z.max k 0) ltac:(lia)) as HC.
  pose proof (pow2_pos (Z.max (- k) 0) ltac:(lia)) as HC'.
  apply (compare_scaled _ _ _ _ (2 ^ Z.max k 0 * d1 * d2) (2 ^ Z.max (- k) 0)).
  - nia.
  - exact HC'.
  - replace (m1 * 2 ^ (e1 - k) * (2 ^ Z.max k 0 * d1 * d2))
      with (m1 * (2 ^ (e1 - k) * 2 ^ Z.max k 0) * d1 * d2) by ring.
    rewrite H1'. ring.
  - replace (m2 * 2 ^ (e2 - k) * (2 ^ Z.max k 0 * d1 * d2))
      with (m2 * (2 ^ (e2 - k) * 2 ^ Z.max k 0) * d2 * d1) by ring.
    rewrite H2'. ring.
Qed.

Lemma float_lit_val (z : Z) : 0 <= z -> fval (float_lit z) false z 1.
Proof.
  intros Hz. unfold float_lit. destruct (Z.ltb_spec z 0) as [|_]; [lia|].
  rewrite Z.abs_eq by lia. exists z, 0. split; [reflexivity|]. split; [lia|].
  apply dy_is_nonneg_exp; lia.
Qed.

(** [f < c] for a non-negative value [n / d] and an integer literal [c]. *)
Lemma flt_lit_val (f : pyfloat) (n d c : Z) :
  0 < d -> 0 <= c -> fval f false n d -> flt f (float_lit c) = (n <? c * d).
Proof.
  intros Hd Hc (m & e & -> & Hm & His).
  destruct (float_lit_val c Hc) as (m2 & e2 & -> & Hm2 & His2).
  cbn [flt signed].
  rewrite (dy_cmp_spec m e n d m2 e2 c 1 Hd ltac:(lia) His His2).
  unfold Z.ltb. now rewrite Z.mul_1_r.
Qed.

Lemma dy_is_zero (m e n d : Z) : 0 < d -> dy_is m e n d -> (m = 0 <-> n = 0).
Proof.
  unfold dy_is. intros Hd H.
  pose proof (pow2_pos (Z.max e 0) ltac:(lia)).
  pose proof (pow2_pos (Z.max (- e) 0) ltac:(lia)). nia.
Qed.

Lemma dy_is_nonneg (m e n d : Z) : 0 < d -> 0 <= m -> dy_is m e n d -> 0 <= n.
Proof.
  unfold dy_is. intros Hd Hm H.
  pose proof (pow2_pos (Z.max e 0) ltac:(lia)).
  pose proof (pow2_pos (Z.max (- e) 0) ltac:(lia)). nia.
Qed.

(** Rounding a rational that is zero or representable keeps its value. *)
Lemma binary64_round_val (neg : bool) (n d n' d' : Z) :
  0 <= n' -> 0 < d' -> 0 < d -> n' * d = n * d' ->
  n = 0 ∨ representable n d ->
  fval (binary64_round neg n' d') neg n d.
Proof.
  intros Hn' Hd' Hd Heq Hrep.
  destruct (Z.eq_dec n' 0) as [->|Hnz].
  - apply (fval_transfer _ _ 0 d'); [lia | apply binary64_round_zero | lia].
  - assert (Hn : n ≠ 0) by nia.
    destruct Hrep as [|Hrep]; [contradiction|].
    apply (fval_transfer _ _ n' d'); [lia | | exact Heq].
    apply binary64_round_exact; [lia | lia |].
    apply (representable_transfer n d); [lia | exact Hrep | lia].
Qed.

(** [f / 1024.0]. *)
Lemma fdiv_1024_val (f : pyfloat) (neg : bool) (n d : Z) :
  0 < d -> fval f neg n d -> n = 0 ∨ representable n (1024 * d) ->
  fval (fdiv f (float_lit 1024)) neg n (1024 * d).
Proof.
  intros Hd (m & e & -> & Hm & His) Hrep.
  change (float_lit 1024) with (FFin false 1024 0). cbn [fdiv].
  replace (1024 =? 0) with false by reflexivity.
  rewrite xorb_false_r, !Z.sub_0_r, Z.sub_0_l.
  destruct (Z.leb_spec 0 e) as [Hpos|Hneg].
  - pose proof (proj1 (dy_is_nonneg_exp m e n d Hpos) His) as His'.
    pose proof (pow2_pos e Hpos).
    apply binary64_round_val; [nia | lia | lia | | exact Hrep].
    rewrite <- His'. ring.
  - pose proof (proj1 (dy_is_neg_exp m e n d ltac:(lia)) His) as His'.
    pose proof (pow2_pos (- e) ltac:(lia)).
    apply binary64_round_val; [lia | nia | lia | | exact Hrep].
    replace (m * (1024 * d)) with (1024 * (m * d)) by ring. rewrite His'. ring.
Qed.

Lemma round_dyadic_val (neg : bool) (m e n d : Z) :
  0 < d -> 0 <= m -> dy_is m e n d -> n = 0 ∨ representable n d ->
  fval (round_dyadic neg m e) neg n d.
Proof.
  intros Hd Hm His Hrep. unfold round_dyadic.
  destruct (Z.leb_spec 0 e) as [Hpos|Hneg].
  - pose proof (proj1 (dy_is_nonneg_exp m e n d Hpos) His) as His'.
    pose proof (pow2_pos e Hpos).
    apply binary64_round_val; [nia | lia | lia | | exact Hrep].
    rewrite <- His'. ring.
  - pose proof (proj1 (dy_is_neg_exp m e n d ltac:(lia)) His) as His'.
    pose proof (pow2_pos (- e) ltac:(lia)).
    apply binary64_round_val; [lia | lia | lia | | exact Hrep].
    rewrite His'. ring.
Qed.

(** [f * g] for non-negative values. *)
Lemma fmul_val (f g : pyfloat) (n1 d1 n2 d2 : Z) :
  0 < d1 -> 0 < d2 -> fval f false n1 d1 -> fval g false n2 d2 ->
  n1 * n2 = 0 ∨ representable (n1 * n2) (d1 * d2) ->
  fval (fmul f g) false (n1 * n2) (d1 * d2).
Proof.
  intros Hd1 Hd2 (m1 & e1 & -> & Hm1 & H1) (m2 & e2 & -> & Hm2 & H2) Hrep.
  cbn [fmul xorb]. apply round_dyadic_val; [nia | nia | | exact Hrep].
  apply (dy_is_scaled _ _ _ _ (Z.max e1 0 + Z.max e2 0)
           (Z.max (- e1) 0 + Z.max (- e2) 0)); [lia | lia | lia |].
  unfold dy_is in H1, H2. rewrite !Z.pow_add_r by lia.
  replace (m1 * m2 * (2 ^ Z.max e1 0 * 2 ^ Z.max e2 0) * (d1 * d2))
    with ((m1 * 2 ^ Z.max e1 0 * d1) * (m2 * 2 ^ Z.max e2 0 * d2)) by ring.
  rewrite H1, H2. ring.
Qed.

(** The format [.2f] prints the value. *)
Lemma fmt_2f_val (f : pyfloat) (neg : bool) (n d : Z) :
  0 < d -> fval f neg n d -> fmt_2f f = fmt2_rat neg n d.
Proof.
  intros Hd (m & e & -> & Hm & His). cbn [fmt_2f]. unfold fmt2_rat.
  destruct (Z.leb_spec 0 e) as [Hpos|Hneg].
  - pose proof (proj1 (dy_is_nonneg_exp m e n d Hpos) His) as His'.
    rewrite (round_half_even_rat (100 * (m * 2 ^ e)) 1 (100 * n) d); [reflexivity|lia|lia|].
    rewrite <- His'. ring.
  - pose proof (proj1 (dy_is_neg_exp m e n d ltac:(lia)) His) as His'.
    pose proof (pow2_pos (- e) ltac:(lia)).
    rewrite (round_half_even_rat (100 * m) (2 ^ (- e)) (100 * n) d); [reflexivity|lia|lia|].
    replace (100 * m * d) with (100 * (m * d)) by ring. rewrite His'. ring.
Qed.

(** [int(f)] is the integer part of a non-negative value. *)
Lemma int_of_float_val (f : pyfloat) (n d : Z) :
  0 < d -> fval f false n d -> int_of_float f = Ok (n / d).
Proof.
  intros Hd (m & e & -> & Hm & His). cbn [int_of_float signed]. f_equal.
  destruct (Z.leb_spec 0 e) as [Hpos|Hneg].
  - pose proof (proj1 (dy_is_nonneg_exp m e n d Hpos) His) as His'.
    rewrite <- His'. now rewrite Z.div_mul by lia.
  - pose proof (proj1 (dy_is_neg_exp m e n d ltac:(lia)) His) as His'.
    pose proof (pow2_pos (- e) ltac:(lia)) as HP.
    rewrite <- (Z.div_mul_cancel_r m (2 ^ (- e)) d) by lia.
    rewrite <- (Z.div_mul_cancel_r n d (2 ^ (- e))) by lia.
    rewrite His'. f_equal. ring.
Qed.

(* ================================================================== *)
(** * providers.py: _parse_cache_size                                  *)
(* ================================================================== *)

Lemma digit_zero_spec (c z : Z) :
  digit_zero c = Some z -> In z digit_zeros ∧ z <= c <= z + 9.
Proof.
  unfold digit_zero. intros [Hin H]%find_some. split; [exact Hin|].
  apply andb_prop in H as [H1%Z.leb_le H2%Z.leb_le]. lia.
Qed.

(** A test that fails on the ten digits of every script fails on every
    digit. *)
Lemma digit_none (p : char -> bool) (c : char) :
  forallb (fun z => forallb (fun i => negb (p (z + Z.of_nat i))) (seq 0 10))
          digit_zeros = true ->
  is_digit c = true -> p c = false.
Proof.
  intros Hall Hc. unfold is_digit in Hc.
  destruct (digit_zero c) as [z|] eqn:Hz; [|discriminate].
  apply digit_zero_spec in Hz as [Hin Hr].
  rewrite forallb_forall in Hall. specialize (Hall z Hin).
  rewrite forallb_forall in Hall. specialize (Hall (Z.to_nat (c - z))).
  assert (Hi : In (Z.to_nat (c - z)) (seq 0 10)) by (apply in_seq; lia).
  apply Hall in Hi. replace (z + Z.of_nat (Z.to_nat (c - z))) with c in Hi by lia.
  now apply negb_true_iff in Hi.
Qed.

Lemma digit_not_space (c : char) : is_digit c = true -> is_space c = false.
Proof. apply digit_none. vm_compute. reflexivity. Qed.

Lemma all_digits_no_space (s : text) : all_digits s = true -> no_space s = true.
Proof.
  induction s as [|c s IH]; [reflexivity|].
  cbn [all_digits no_space]. intros [Hc Hs]%andb_prop.
  now rewrite (digit_not_space c Hc), (IH Hs).
Qed.

Lemma no_space_app (s t : text) :
  no_space s = true -> no_space t = true -> no_space (s ++ t) = true.
Proof.
  intros Hs Ht. induction s as [|c s IH]; [exact Ht|].
  cbn [no_space] in Hs. apply andb_prop in Hs as [Hc Hs].
  rewrite str_app_cons. cbn [no_space]. now rewrite Hc, (IH Hs).
Qed.

Lemma is_empty_app (s t : text) : is_empty s = false -> is_empty (s ++ t) = false.
Proof. destruct s; [discriminate | reflexivity]. Qed.

Lemma digit_val_range (c : char) : 0 <= digit_val c <= 9.
Proof.
  unfold digit_val. destruct (digit_zero c) as [z|] eqn:Hz; [|lia].
  apply digit_zero_spec in Hz as [_ Hr]. lia.
Qed.

Lemma digits_value_nonneg (s : text) (acc : Z) :
  0 <= acc -> 0 <= digits_value acc s.
Proof.
  revert acc. induction s as [|c s IH]; intros acc Hacc; [exact Hacc|].
  cbn [digits_value]. apply IH. pose proof (digit_val_range c). lia.
Qed.

Lemma unit_char_K (u : char) : u = chr "K" ∨ u = chr "k" -> unit_char u 10.
Proof. intros [-> | ->]; repeat split; (reflexivity || discriminate || lia). Qed.

Lemma unit_char_M (u : char) : u = chr "M" ∨ u = chr "m" -> unit_char u 20.
Proof. intros [-> | ->]; repeat split; (reflexivity || discriminate || lia). Qed.

Lemma unit_char_G (u : char) : u = chr "G" ∨ u = chr "g" -> unit_char u 30.
Proof. intros [-> | ->]; repeat split; (reflexivity || discriminate || lia). Qed.

Lemma re_match_size_whole (ds : text) (u : char) (k : Z) :
  all_digits ds = true -> is_empty ds = false -> unit_char u k ->
  re_match_size (ds ++ [u]) = Some (ds, None, u).
Proof.
  intros Hds Hne (Hu & _ & Hud & Hdot & _). unfold re_match_size.
  rewrite span_digits_app; [|exact Hds|exact Hud].
  rewrite Hne, (bool_decide_false _ Hdot), Hu. reflexivity.
Qed.

Lemma re_match_size_decimal (ds fs : text) (u : char) (k : Z) :
  all_digits ds = true -> is_empty ds = false ->
  all_digits fs = true -> is_empty fs = false -> unit_char u k ->
  re_match_size (ds ++ "." ++ fs ++ [u]) = Some (ds, Some fs, u).
Proof.
  intros Hds Hne Hfs Hnf (Hu & _ & Hud & Hdot & _). unfold re_match_size.
  rewrite span_digits_app; [|exact Hds|reflexivity].
  rewrite Hne. change ("." ++ fs ++ [u]) with ((chr "." :: (fs ++ [u]))).
  cbv beta iota. rewrite bool_decide_true by reflexivity.
  rewrite span_digits_app; [|exact Hfs|exact Hud].
  rewrite Hnf, Hu. reflexivity.
Qed.

(** The arithmetic of [_parse_cache_size] once the pattern has matched: for
    a number [n / d] that binary64 holds exactly, and whose product with the
    multiplier it holds exactly too, the result is the integer part of the
    product. *)
Lemma parse_arith (n d k : Z) :
  0 <= n -> 0 < d -> 0 <= k <= 30 ->
  n = 0 ∨ representable n d ->
  n = 0 ∨ representable (n * 2 ^ k) d ->
  (m ← float_of_Z (2 ^ k);
   bytes ← int_of_float (fmul (binary64_round false n d) m);
   Ok (Some bytes))
  = Ok (Some (n * 2 ^ k / d)).
Proof.
  intros Hn Hd Hk Hrep Hrep2.
  assert (Hpow : 0 < 2 ^ k < 2 ^ 53).
  { split; [apply pow2_pos; lia | apply Z.pow_lt_mono_r; lia]. }
  destruct (float_of_Z_exact (2 ^ k) ltac:(lia)) as (m & Hm & Hmv).
  rewrite Hm. cbn [mbind result_bind].
  assert (Hv : fval (binary64_round false n d) false n d).
  { apply binary64_round_val; try lia. exact Hrep. }
  assert (Hprod : fval (fmul (binary64_round false n d) m) false (n * 2 ^ k) (d * 1)).
  { apply fmul_val; try lia; try assumption.
    destruct Hrep2 as [-> | Hrep2]; [left; lia | right].
    now rewrite Z.mul_1_r. }
  rewrite (int_of_float_val _ (n * 2 ^ k) (d * 1) ltac:(lia) Hprod).
  cbn [mbind result_bind].
  now rewrite Z.mul_1_r.
Qed.

Lemma representable_whole (n k : Z) :
  0 < n < 2 ^ 53 -> 0 <= k <= 30 -> representable (n * 2 ^ k) 1.
Proof.
  intros Hn Hk. exists n, k. split; [exact Hn|]. split; [lia|].
  apply dy_is_nonneg_exp; lia.
Qed.

(** What [_parse_cache_size] computes on a well-formed size text:
    [int(float(number) * multiplier)]. *)
Lemma parse_cache_size_formula (ds : text) (fs : option text) (u : char) (k : Z) :
  all_digits ds = true -> is_empty ds = false ->
  (∀ f, fs = Some f -> all_digits f = true ∧ is_empty f = false) ->
  unit_char u k ->
  _parse_cache_size (size_text ds fs u)
  = (m ← float_of_Z (2 ^ k);
     bytes ← int_of_float (fmul (float_of_decimal ds fs) m);
     Ok (Some bytes)).
Proof.
  intros Hds Hne Hfs Hu.
  pose proof Hu as (Hu1 & Hus & Hu2 & Hu3 & Hmul & Hk).
  unfold _parse_cache_size, size_text. destruct fs as [f|].
  - destruct (Hfs f eq_refl) as [Hf Hnf].
    change (ds ++ ("." ++ f) ++ [u]) with (ds ++ "." ++ f ++ [u]).
    rewrite strip_token.
    + rewrite (re_match_size_decimal ds f u k Hds Hne Hf Hnf Hu).
      cbv zeta. now rewrite Hmul.
    + now apply is_empty_app.
    + apply no_space_app; [now apply all_digits_no_space|].
      change ("." ++ f ++ [u]) with ((chr "." :: (f ++ [u]))).
      cbn [no_space]. replace (is_space (chr ".")) with false by reflexivity.
      apply no_space_app; [now apply all_digits_no_space|].
      cbn [no_space]. now rewrite Hus.
  - change ("" ++ [u]) with [u].
    rewrite strip_token.
    + rewrite (re_match_size_whole ds u k Hds Hne Hu).
      cbv zeta. now rewrite Hmul.
    + now apply is_empty_app.
    + apply no_space_app; [now apply all_digits_no_space|].
      cbn [no_space]. now rewrite Hus.
Qed.

(** Whole numbers below [2^53]. *)
Lemma parse_cache_size_whole (ds : text) (u : char) (k : Z) :
  all_digits ds = true -> is_empty ds = false -> digits_value 0 ds < 2 ^ 53 ->
  unit_char u k ->
  _parse_cache_size (ds ++ [u]) = Ok (Some (digits_value 0 ds * 2 ^ k)).
Proof.
  intros Hds Hne Hlt Hu.
  pose proof (digits_value_nonneg ds 0 ltac:(lia)) as Hn.
  pose proof Hu as (Hu1 & Hus & Hu2 & Hu3 & Hmul & Hk).
  unfold _parse_cache_size.
  rewrite strip_token.
  - rewrite (re_match_size_whole ds u k Hds Hne Hu).
    cbn [float_of_decimal]. rewrite Hmul.
    rewrite parse_arith; try lia.
    + now rewrite Z.div_1_r.
    + destruct (Z.eq_dec (digits_value 0 ds) 0) as [->|]; [now left | right].
      replace (digits_value 0 ds) with (digits_value 0 ds * 2 ^ 0) by (rewrite Z.pow_0_r; lia).
      apply representable_whole; lia.
    + destruct (Z.eq_dec (digits_value 0 ds) 0) as [->|]; [now left | right].
      apply representable_whole; lia.
  - now apply is_empty_app.
  - apply no_space_app; [now apply all_digits_no_space|].
    cbn [no_space]. now rewrite Hus.
Qed.

(** Decimals that binary64 holds exactly, such as 1.5. *)
Lemma parse_cache_size_decimal (ds fs : text) (u : char) (k : Z) :
  all_digits ds = true -> is_empty ds = false ->
  all_digits fs = true -> is_empty fs = false -> unit_char u k ->
  let n := digits_value (digits_value 0 ds) fs in
  let d := 10 ^ Z.of_nat (List.length fs) in
  representable n d -> representable (n * 2 ^ k) d ->
  _parse_cache_size (ds ++ "." ++ fs ++ [u]) = Ok (Some (n * 2 ^ k / d)).
Proof.
  intros Hds Hne Hfs Hnf Hu n d Hrep Hrep2.
  assert (Hn : 0 <= n).
  { apply digits_value_nonneg. apply digits_value_nonneg. lia. }
  assert (Hd : 0 < d) by (apply Z.pow_pos_nonneg; lia).
  pose proof Hu as (Hu1 & Hus & Hu2 & Hu3 & Hmul & Hk).
  unfold _parse_cache_size.
  rewrite strip_token.
  - rewrite (re_match_size_decimal ds fs u k Hds Hne Hfs Hnf Hu).
    cbn [float_of_decimal]. rewrite Hmul. fold n d.
    apply parse_arith; try lia; now right.
  - now apply is_empty_app.
  - apply no_space_app; [now apply all_digits_no_space|].
    change ("." ++ fs ++ [u]) with ((chr "." :: (fs ++ [u]))).
    cbn [no_space]. replace (is_space (chr ".")) with false by reflexivity.
    apply no_space_app; [now apply all_digits_no_space|].
    cbn [no_space]. now rewrite Hus.
Qed.

(* ================================================================== *)
(** * providers.py: what the cache record holds                        *)
(* ================================================================== *)

Lemma scan_all_app (l1 l2 : list cache_index) :
  scan_all (l1 ++ l2)
  = (c1 ← scan_all l1; c2 ← scan_all l2; Ok (c1 ++ c2)).
Proof.
  induction l1 as [|idx l1 IH]; simpl.
  - now destruct (scan_all l2).
  - destruct (scan_index idx) as [c|e]; [|reflexivity]. simpl.
    rewrite IH. destruct (scan_all l1) as [c1|e]; [|reflexivity]. simpl.
    now destruct (scan_all l2).
Qed.

(** The candidates are the entries whose scan reaches the comparison. *)
Lemma candidates_from_entries (entries : list cache_index)
    (cs : list (option (text * Z * text))) (c : text * Z * text) :
  scan_all entries = Ok cs ->
  c ∈ candidates cs <-> ∃ idx, idx ∈ entries ∧ scan_index idx = Ok (Some c).
Proof.
  revert cs. induction entries as [|idx rest IH]; intros cs.
  - intros [= <-]. split.
    + intros H. now apply elem_of_nil in H.
    + intros (idx & H & _). now apply elem_of_nil in H.
  - simpl. destruct (scan_index idx) as [o|e] eqn:Hs; [|discriminate]. simpl.
    destruct (scan_all rest) as [cs'|e]; [|discriminate]. simpl.
    intros [= <-]. specialize (IH cs' eq_refl). unfold candidates in *.
    destruct o as [c'|]; simpl.
    + rewrite elem_of_cons, IH. split.
      * intros [-> | (i & Hi & Hc)].
        -- exists idx. split; [apply list_elem_of_here | exact Hs].
        -- exists i. split; [now apply list_elem_of_further | exact Hc].
      * intros (i & Hi & Hc). apply elem_of_cons in Hi as [-> | Hi].
        -- left. congruence.
        -- right. now exists i.
    + rewrite IH. split.
      * intros (i & Hi & Hc). exists i. split; [now apply list_elem_of_further | exact Hc].
      * intros (i & Hi & Hc). apply elem_of_cons in Hi as [-> | Hi].
        -- congruence.
        -- now exists i.
Qed.

(** Scanning is total when no single scan raises. *)
Lemma scan_all_total (entries : list cache_index) :
  (∀ idx, idx ∈ entries -> is_ok (scan_index idx) = true) ->
  ∃ cs, scan_all entries = Ok cs.
Proof.
  induction entries as [|idx rest IH]; intros H.
  - now exists [].
  - simpl. pose proof (H idx (list_elem_of_here _ _)) as Hi.
    destruct (scan_index idx) as [c|e]; [|discriminate]. simpl.
    destruct IH as [cs Hcs].
    + intros i Hin. apply H. now apply list_elem_of_further.
    + rewrite Hcs. simpl. now eexists.
Qed.

(** An update touches no key but its own. *)
Lemma cache_update_off (st : cache_state) (c : text * Z * text) :
  agree_off c.1.1 (cache_update st c) st.
Proof.
  destruct c as [[k b] t]. destruct st as [bs bl]. intros key Hne.
  cbn [fst snd] in Hne. unfold cache_update. cbn [fst snd].
  destruct (match bs !! k with Some b0 => b0 <? b | None => true end);
    cbn [fst snd]; [|done].
  now rewrite !lookup_insert_ne by congruence.
Qed.

(** States that agree off [k] still do after the same update. *)
Lemma cache_update_agree (k : text) (st st' : cache_state) (c : text * Z * text) :
  agree_off k st st' -> agree_off k (cache_update st c) (cache_update st' c).
Proof.
  intros Hag key Hne. destruct (decide (c.1.1 = key)) as [Heq|Hck].
  - destruct c as [[kc b] t]. cbn [fst snd] in Heq. subst kc.
    destruct st as [bs bl], st' as [bs' bl'].
    destruct (Hag key Hne) as [H1 H2]. cbn [fst snd] in H1, H2.
    unfold cache_update. cbn [fst snd]. rewrite H1.
    destruct (match bs' !! key with Some b0 => b0 <? b | None => true end);
      cbn [fst snd]; [|done].
    now rewrite !lookup_insert_eq.
  - destruct (cache_update_off st c key ltac:(congruence)) as [H1 H2].
    destruct (cache_update_off st' c key ltac:(congruence)) as [H1' H2'].
    destruct (Hag key Hne) as [H3 H4].
    rewrite H1, H2, H1', H2'. done.
Qed.

Lemma foldl_cache_update_agree (k : text) (cands : list (text * Z * text))
    (st st' : cache_state) :
  agree_off k st st' ->
  agree_off k (foldl cache_update st cands) (foldl cache_update st' cands).
Proof.
  revert st st'. induction cands as [|c cands IH]; intros st st' H; [exact H|].
  simpl. apply IH. now apply cache_update_agree.
Qed.

(** An entry scanned at level [k] changes nothing at any other level. *)
Lemma foldl_cache_update_insert (c : text * Z * text)
    (pre post : list (text * Z * text)) (st : cache_state) :
  agree_off c.1.1 (foldl cache_update st (pre ++ c :: post))
                  (foldl cache_update st (pre ++ post)).
Proof.
  rewrite !foldl_app. simpl. apply foldl_cache_update_agree.
  apply cache_update_off.
Qed.

Lemma candidates_app (c1 c2 : list (option (text * Z * text))) :
  candidates (c1 ++ c2) = candidates c1 ++ candidates c2.
Proof. unfold candidates. apply omap_app. Qed.

Lemma candidates_cons (c : text * Z * text)
    (cs : list (option (text * Z * text))) :
  candidates (Some c :: cs) = c :: candidates cs.
Proof. reflexivity. Qed.

Lemma cpu_cache_sizes_other_level (os os' : env) (pre post : list cache_index)
    (idx : cache_index) (c : text * Z * text) :
  cache_dir_exists os = Ok true -> cache_dir_exists os' = Ok true ->
  cache_dir_glob os = Ok (pre ++ idx :: post) ->
  cache_dir_glob os' = Ok (pre ++ post) ->
  scan_index idx = Ok (Some c) ->
  c.1.1 ∉ [txt "L1"; txt "L2"; txt "L3"] ->
  _cpu_cache_sizes os = _cpu_cache_sizes os'.
Proof.
  intros Hex Hex' Hg Hg' Hs Hc. unfold _cpu_cache_sizes.
  rewrite Hex, Hex', Hg, Hg'. simpl.
  rewrite !cache_loop_scan_all, !scan_all_app. simpl. rewrite Hs. simpl.
  destruct (scan_all pre) as [c1|e]; [|reflexivity]. simpl.
  destruct (scan_all post) as [c2|e]; [|reflexivity]. simpl.
  rewrite !candidates_app, candidates_cons.
  pose proof (foldl_cache_update_insert c (candidates c1) (candidates c2) (∅, ∅)) as Hag.
  assert (Hkey : ∀ key, key ∈ [txt "L1"; txt "L2"; txt "L3"] -> key ≠ c.1.1).
  { intros key Hin ->. contradiction. }
  assert (H1 : txt "L1" ∈ [txt "L1"; txt "L2"; txt "L3"]) by repeat constructor.
  assert (H2 : txt "L2" ∈ [txt "L1"; txt "L2"; txt "L3"]) by repeat constructor.
  assert (H3 : txt "L3" ∈ [txt "L1"; txt "L2"; txt "L3"]) by repeat constructor.
  unfold label_or_unknown.
  rewrite (proj2 (Hag "L1" (Hkey _ H1))), (proj2 (Hag "L2" (Hkey _ H2))),
    (proj2 (Hag "L3" (Hkey _ H3))).
  reflexivity.
Qed.

(** A label is the sentinel or the size text of an enumerated entry whose
    level file names that level. *)
Lemma level_label_observed (entries : list cache_index)
    (cs : list (option (text * Z * text))) (key : text) (l : value) :
  scan_all entries = Ok cs -> level_label key (candidates cs) l ->
  l = VStr UNKNOWN
  ∨ ∃ idx level size,
      idx ∈ entries ∧ level_read_text idx = Ok level
      ∧ size_read_text idx = Ok size
      ∧ key = "L" ++ strip level ∧ l = VStr (strip size).
Proof.
  intros Hscan [[_ ->] | (b & t & (pre & post & Heq & _) & ->)]; [now left|right].
  assert (Hin : (key, b, t) ∈ candidates cs).
  { rewrite Heq. apply elem_of_app. right. apply list_elem_of_here. }
  apply (candidates_from_entries entries cs _ Hscan) in Hin as (idx & Hidx & Hs).
  apply scan_index_candidate in Hs as (level & size & Hl & Hsz & -> & -> & _).
  now exists idx, level, size.
Qed.

(* ================================================================== *)
(** * providers.py: cache-size selection                               *)
(* ================================================================== *)

(** C4, the claim as it was written.  The number 9007199254740993 is
    2^53 + 1, which binary64 does not hold: [float] rounds it to 2^53, and
    the size text parses to 2^63, not to the number times 1024. *)
Lemma cache_size_rounding_counterexample :
  _parse_cache_size "9007199254740993K" = Ok (Some (2 ^ 63))
  ∧ 9007199254740993 * 1024 ≠ 2 ^ 63.
Proof. split; [vm_compute; reflexivity | discriminate]. Qed.

(** C4, amended.  A size text of digits, optionally a point and more
    digits, and a unit K, M or G in either case parses to
    [int(float(number) * m)] with m = 1024, 1024^2 or 1024^3, computed in
    binary64 and truncated: exactly the number times m for a whole number
    below 2^53, and the integer part of the product for a decimal that
    binary64 holds exactly together with its product.  When the cache
    directory exists and no scan raises, each of L1, L2, L3 is the size
    text of the first enumerated entry with the largest parsed byte count
    at that level, and the sentinel when no entry is at that level; the
    entries that count are exactly those whose two files exist and can be
    read and whose size parses, and every other entry is skipped.  Two
    level-2 entries of sizes 256K and 1M give L2 = 1M.  When the directory
    does not exist, all three are the sentinel. *)
Theorem cache_size_selection :
  (∀ ds fs u k,
     all_digits ds = true -> is_empty ds = false ->
     (∀ f, fs = Some f -> all_digits f = true ∧ is_empty f = false) ->
     unit_char u k ->
     _parse_cache_size (size_text ds fs u)
     = (m ← float_of_Z (2 ^ k);
        bytes ← int_of_float (fmul (float_of_decimal ds fs) m);
        Ok (Some bytes)))
  ∧ (∀ u, (u = chr "K" ∨ u = chr "k" -> unit_char u 10)
          ∧ (u = chr "M" ∨ u = chr "m" -> unit_char u 20)
          ∧ (u = chr "G" ∨ u = chr "g" -> unit_char u 30))
  ∧ (∀ ds, all_digits ds = true -> is_empty ds = false ->
     digits_value 0 ds < 2 ^ 53 ->
     (∀ u, u = chr "K" ∨ u = chr "k" ->
        _parse_cache_size (ds ++ [u]) = Ok (Some (digits_value 0 ds * 1024)))
     ∧ (∀ u, u = chr "M" ∨ u = chr "m" ->
          _parse_cache_size (ds ++ [u])
          = Ok (Some (digits_value 0 ds * 1024 ^ 2)))
     ∧ (∀ u, u = chr "G" ∨ u = chr "g" ->
          _parse_cache_size (ds ++ [u])
          = Ok (Some (digits_value 0 ds * 1024 ^ 3))))
  ∧ (∀ ds fs u k,
       all_digits ds = true -> is_empty ds = false ->
       all_digits fs = true -> is_empty fs = false -> unit_char u k ->
       representable (digits_value (digits_value 0 ds) fs)
                     (10 ^ Z.of_nat (List.length fs)) ->
       representable (digits_value (digits_value 0 ds) fs * 2 ^ k)
                     (10 ^ Z.of_nat (List.length fs)) ->
       _parse_cache_size (ds ++ "." ++ fs ++ [u])
       = Ok (Some (digits_value (digits_value 0 ds) fs * 2 ^ k
                   / 10 ^ Z.of_nat (List.length fs))))
  ∧ (∀ os entries cs,
       cache_dir_exists os = Ok true -> cache_dir_glob os = Ok entries ->
       scan_all entries = Ok cs ->
       (∃ l1 l2 l3,
          _cpu_cache_sizes os = Ok (VDict [("L1", l1); ("L2", l2); ("L3", l3)])
          ∧ level_label "L1" (candidates cs) l1
          ∧ level_label "L2" (candidates cs) l2
          ∧ level_label "L3" (candidates cs) l3)
       ∧ (∀ c, c ∈ candidates cs <->
               ∃ idx, idx ∈ entries ∧ scan_index idx = Ok (Some c)))
  ∧ (∀ idx key b t,
       scan_index idx = Ok (Some (key, b, t)) <->
       ∃ level size,
         level_exists idx = Ok true ∧ size_exists idx = Ok true
         ∧ level_read_text idx = Ok level ∧ size_read_text idx = Ok size
         ∧ key = "L" ++ strip level ∧ t = strip size
         ∧ _parse_cache_size (strip size) = Ok (Some b))
  ∧ (∀ idx,
       (level_exists idx = Ok false -> scan_index idx = Ok None)
       ∧ (level_exists idx = Ok true -> size_exists idx = Ok false ->
          scan_index idx = Ok None)
       ∧ (∀ e, level_exists idx = Ok true -> size_exists idx = Ok true ->
            level_read_text idx = Raise e -> is_Exception e = true ->
            scan_index idx = Ok None)
       ∧ (∀ level e, level_exists idx = Ok true -> size_exists idx = Ok true ->
            level_read_text idx = Ok level -> size_read_text idx = Raise e ->
            is_Exception e = true -> scan_index idx = Ok None)
       ∧ (∀ level size, level_exists idx = Ok true -> size_exists idx = Ok true ->
            level_read_text idx = Ok level -> size_read_text idx = Ok size ->
            _parse_cache_size (strip size) = Ok None -> scan_index idx = Ok None))
  ∧ (∀ entries,
       (∀ idx, idx ∈ entries -> is_ok (scan_index idx) = true) ->
       ∃ cs, scan_all entries = Ok cs)
  ∧ (∀ os, cache_dir_exists os = Ok true ->
       cache_dir_glob os = Ok [sample_index "2" "256K"; sample_index "2" "1M"]
       ∨ cache_dir_glob os = Ok [sample_index "2" "1M"; sample_index "2" "256K"] ->
       _cpu_cache_sizes os
       = Ok (VDict [("L1", VStr UNKNOWN); ("L2", VStr "1M"); ("L3", VStr UNKNOWN)]))
  ∧ (∀ os, cache_dir_exists os = Ok false ->
       _cpu_cache_sizes os
       = Ok (VDict [("L1", VStr UNKNOWN); ("L2", VStr UNKNOWN); ("L3", VStr UNKNOWN)])).
Proof.
  split; [exact parse_cache_size_formula|].
  split; [intros u; split; [apply unit_char_K | split; [apply unit_char_M | apply unit_char_G]]|].
  split; [|split; [|split; [|split; [|split; [|split; [|split]]]]]].
  - intros ds Hds Hne Hlt. repeat split; intros u Hu.
    + rewrite (parse_cache_size_whole ds u 10 Hds Hne Hlt (unit_char_K u Hu)).
      reflexivity.
    + rewrite (parse_cache_size_whole ds u 20 Hds Hne Hlt (unit_char_M u Hu)).
      reflexivity.
    + rewrite (parse_cache_size_whole ds u 30 Hds Hne Hlt (unit_char_G u Hu)).
      reflexivity.
  - intros ds fs u k Hds Hne Hfs Hnf Hu Hr1 Hr2.
    now apply parse_cache_size_decimal.
  - intros os entries cs Hex Hg Hscan. split.
    + now apply (cpu_cache_sizes_scanned os entries cs).
    + intros c. now apply candidates_from_entries.
  - intros idx key b t. split.
    + intros H. apply scan_index_candidate in H
        as (level & size & Hl & Hs & -> & -> & Hp & Hle & Hse).
      now exists level, size.
    + intros (level & size & Hle & Hse & Hl & Hs & -> & -> & Hp).
      now apply scan_index_readable.
  - apply scan_index_skips.
  - apply scan_all_total.
  - intros os Hex [Hg | Hg]; unfold _cpu_cache_sizes; rewrite Hex, Hg;
      vm_compute; reflexivity.
  - apply cpu_cache_sizes_no_directory.
Qed.

Lemma cache_size_selection_witness :
  _parse_cache_size "256K" = Ok (Some 262144)
  ∧ _cpu_cache_sizes (env_cache [sample_index "2" "256K"; sample_index "2" "1M"])
    = Ok (VDict [("L1", VStr UNKNOWN); ("L2", VStr "1M"); ("L3", VStr UNKNOWN)]).
Proof.
  split.
  - exact (proj1 (proj1 (proj2 (proj2 cache_size_selection))
                    "256" eq_refl eq_refl eq_refl)
             (chr "K") (or_introl eq_refl)).
  - exact (proj1 (proj2 (proj2 (proj2 (proj2 (proj2 (proj2 (proj2 (proj2
             cache_size_selection))))))))
             (env_cache [sample_index "2" "256K"; sample_index "2" "1M"])
             eq_refl (or_introl eq_refl)).
Defined.

(* ================================================================== *)
(** * providers.py: the shape of the cache record                      *)
(* ================================================================== *)

Lemma cpu_cache_sizes_shape (os : env) (v : value) :
  _cpu_cache_sizes os = Ok v ->
  ∃ l1 l2 l3,
    v = VDict [("L1", l1); ("L2", l2); ("L3", l3)]
    ∧ observed_label os "L1" l1 ∧ observed_label os "L2" l2
    ∧ observed_label os "L3" l3.
Proof.
  intros H.
  destruct (cache_dir_exists os) as [[|]|e] eqn:Hex.
  - destruct (cache_dir_glob os) as [entries|e] eqn:Hg.
    + destruct (scan_all entries) as [cs|e] eqn:Hscan.
      * destruct (cpu_cache_sizes_scanned os entries cs Hex Hg Hscan)
          as (l1 & l2 & l3 & Heq & H1 & H2 & H3).
        rewrite Heq in H. injection H as <-.
        exists l1, l2, l3. split; [reflexivity|].
        assert (Hobs : ∀ key l, level_label key (candidates cs) l ->
                                observed_label os key l).
        { intros key l Hl.
          destruct (level_label_observed entries cs key l Hscan Hl)
            as [-> | (idx & level & size & Hin & Hlv & Hsz & -> & ->)]; [now left|].
          right. now exists entries, idx, level, size. }
        auto.
      * unfold _cpu_cache_sizes in H. rewrite Hex, Hg in H. simpl in H.
        rewrite cache_loop_scan_all, Hscan in H. discriminate.
    + unfold _cpu_cache_sizes in H. rewrite Hex, Hg in H. discriminate.
  - rewrite (cpu_cache_sizes_no_directory os Hex) in H. injection H as <-.
    exists (VStr UNKNOWN), (VStr UNKNOWN), (VStr UNKNOWN).
    repeat split; now left.
  - unfold _cpu_cache_sizes in H. rewrite Hex in H. discriminate.
Qed.

Lemma cpu_cache_sizes_skipped (os os' : env) (pre post : list cache_index)
    (idx : cache_index) :
  cache_dir_exists os = Ok true -> cache_dir_exists os' = Ok true ->
  cache_dir_glob os = Ok (pre ++ idx :: post) ->
  cache_dir_glob os' = Ok (pre ++ post) ->
  scan_index idx = Ok None ->
  _cpu_cache_sizes os = _cpu_cache_sizes os'.
Proof.
  intros Hex Hex' Hg Hg' Hs. unfold _cpu_cache_sizes.
  rewrite Hex, Hex', Hg, Hg'. simpl.
  rewrite !cache_loop_scan_all, !scan_all_app. simpl. rewrite Hs. simpl.
  destruct (scan_all pre) as [c1|e]; [|reflexivity]. simpl.
  destruct (scan_all post) as [c2|e]; [|reflexivity]. simpl.
  now rewrite !candidates_app.
Qed.

(** An entry whose level file names no level among 1, 2, 3 leaves the
    record as it is without that entry. *)
Lemma cpu_cache_sizes_level_file (os os' : env) (pre post : list cache_index)
    (idx : cache_index) (level : text) :
  cache_dir_exists os = Ok true -> cache_dir_exists os' = Ok true ->
  cache_dir_glob os = Ok (pre ++ idx :: post) ->
  cache_dir_glob os' = Ok (pre ++ post) ->
  level_read_text idx = Ok level -> strip level ∉ [txt "1"; txt "2"; txt "3"] ->
  is_ok (scan_index idx) = true ->
  _cpu_cache_sizes os = _cpu_cache_sizes os'.
Proof.
  intros Hex Hex' Hg Hg' Hl Hlevel Hok.
  destruct (scan_index idx) as [[[[key b] t]|]|e] eqn:Hs; [| |discriminate].
  - apply (cpu_cache_sizes_other_level os os' pre post idx (key, b, t));
      try assumption.
    apply scan_index_candidate in Hs as (level' & size & Hl' & _ & -> & _).
    rewrite Hl in Hl'. injection Hl' as <-. cbn [fst snd].
    change ("L" ++ strip level) with ((chr "L" :: (strip level))).
    intros Hin. apply Hlevel.
    repeat (apply elem_of_cons in Hin as [Hin|Hin];
            [injection Hin as ->; repeat constructor|]).
    now apply elem_of_nil in Hin.
  - now apply (cpu_cache_sizes_skipped os os' pre post idx).
Qed.

(** C10.  Whatever [_cpu_cache_sizes] returns is a record with exactly the
    keys L1, L2, L3, each bound to the sentinel or to the size text of an
    enumerated entry whose level file names that level.  An entry whose
    level file names any other level (4, say) changes nothing in the
    record.  The entry kept at a level is the first one with the largest
    byte count: every same-level entry before it is strictly smaller, every
    one after it at most equal; so of two level-2 entries of equal byte
    counts, 1024K before 1M, the label is 1024K. *)
Theorem cache_record_shape :
  (∀ os v, _cpu_cache_sizes os = Ok v ->
     ∃ l1 l2 l3,
       v = VDict [("L1", l1); ("L2", l2); ("L3", l3)]
       ∧ observed_label os "L1" l1 ∧ observed_label os "L2" l2
       ∧ observed_label os "L3" l3)
  ∧ (∀ os os' pre post idx level,
       cache_dir_exists os = Ok true -> cache_dir_exists os' = Ok true ->
       cache_dir_glob os = Ok (pre ++ idx :: post) ->
       cache_dir_glob os' = Ok (pre ++ post) ->
       level_read_text idx = Ok level -> strip level ∉ [txt "1"; txt "2"; txt "3"] ->
       is_ok (scan_index idx) = true ->
       _cpu_cache_sizes os = _cpu_cache_sizes os')
  ∧ (∀ os entries cs,
       cache_dir_exists os = Ok true -> cache_dir_glob os = Ok entries ->
       scan_all entries = Ok cs ->
       ∃ l1 l2 l3,
         _cpu_cache_sizes os = Ok (VDict [("L1", l1); ("L2", l2); ("L3", l3)])
         ∧ level_label "L1" (candidates cs) l1
         ∧ level_label "L2" (candidates cs) l2
         ∧ level_label "L3" (candidates cs) l3)
  ∧ (∀ os, cache_dir_exists os = Ok true ->
       cache_dir_glob os = Ok [sample_index "2" "1024K"; sample_index "2" "1M"] ->
       _parse_cache_size "1024K" = _parse_cache_size "1M"
       ∧ _cpu_cache_sizes os
         = Ok (VDict [("L1", VStr UNKNOWN); ("L2", VStr "1024K"); ("L3", VStr UNKNOWN)])).
Proof.
  split; [exact cpu_cache_sizes_shape|].
  split; [exact cpu_cache_sizes_level_file|].
  split; [exact cpu_cache_sizes_scanned|].
  intros os Hex Hg. split; [vm_compute; reflexivity|].
  unfold _cpu_cache_sizes. rewrite Hex, Hg. vm_compute. reflexivity.
Qed.

Lemma cache_record_shape_witness :
  _cpu_cache_sizes (env_cache [sample_index "2" "256K"; sample_index "4" "8M";
                               sample_index "1" "32K"])
  = _cpu_cache_sizes (env_cache [sample_index "2" "256K"; sample_index "1" "32K"]).
Proof.
  refine (proj1 (proj2 cache_record_shape)
            (env_cache [sample_index "2" "256K"; sample_index "4" "8M";
                        sample_index "1" "32K"])
            (env_cache [sample_index "2" "256K"; sample_index "1" "32K"])
            [sample_index "2" "256K"] [sample_index "1" "32K"]
            (sample_index "4" "8M") "4"
            eq_refl eq_refl eq_refl eq_refl eq_refl _ eq_refl).
  change (strip "4") with (txt "4"). intros H.
  repeat (apply elem_of_cons in H as [H|H]; [discriminate H|]).
  now apply elem_of_nil in H.
Defined.

(* ================================================================== *)
(** * utils.py: format_bytes                                           *)
(* ================================================================== *)

Lemma pow_1024 (j : Z) : 0 <= j -> 1024 ^ j = 2 ^ (10 * j).
Proof. intros Hj. now rewrite Z.pow_mul_r by lia. Qed.

Lemma pow_1024_pos (j : nat) : 0 < 1024 ^ Z.of_nat j.
Proof. apply Z.pow_pos_nonneg; lia. Qed.

(** The loop computes on the exact value as long as every quotient is a
    binary64 number. *)
Lemma format_bytes_loop_val (units : list text) (size : pyfloat) (n d : Z) :
  0 < d -> fval size false n d ->
  (∀ j : nat, (1 <= j <= List.length units)%nat ->
     n = 0 ∨ representable n (d * 1024 ^ Z.of_nat j)) ->
  format_bytes_loop units size = loop_exact units n d.
Proof.
  revert size d. induction units as [|unit rest IH]; intros size d Hd Hv Hrep.
  - cbn [format_bytes_loop loop_exact]. now rewrite (fmt_2f_val size false n d Hd Hv).
  - cbn [format_bytes_loop loop_exact].
    rewrite (flt_lit_val size n d 1024 Hd ltac:(lia) Hv).
    rewrite (fmt_2f_val size false n d Hd Hv).
    destruct (n <? 1024 * d); [reflexivity|].
    apply IH; [lia| |].
    + apply fdiv_1024_val; [exact Hd | exact Hv |].
      destruct (Hrep 1%nat ltac:(cbn [List.length]; lia)) as [H0|H1]; [now left | right].
      now replace (1024 * d) with (d * 1024 ^ Z.of_nat 1) by (cbn; lia).
    + intros j Hj.
      destruct (Hrep (S j) ltac:(cbn [List.length]; lia)) as [H0|H1]; [now left | right].
      replace (1024 * d * 1024 ^ Z.of_nat j) with (d * 1024 ^ Z.of_nat (S j)); [exact H1|].
      rewrite Nat2Z.inj_succ, Z.pow_succ_r by lia. ring.
Qed.

(** The loop stops at the first unit whose scaled value is below 1024. *)
Lemma loop_exact_first_unit (n d : Z) :
  loop_exact byte_units n d = render_bytes n d (default 5%nat (first_unit n d)).
Proof.
  unfold first_unit, scaled_below_1024, byte_units. cbn [loop_exact find].
  change (Z.of_nat 0) with 0. change (Z.of_nat 1) with 1.
  change (Z.of_nat 2) with 2. change (Z.of_nat 3) with 3.
  change (Z.of_nat 4) with 4.
  replace (1024 * (d * 1024 ^ 0)) with (1024 * d) by lia.
  replace (1024 * (d * 1024 ^ 1)) with (1024 * (1024 * d)) by lia.
  replace (1024 * (d * 1024 ^ 2)) with (1024 * (1024 * (1024 * d))) by lia.
  replace (1024 * (d * 1024 ^ 3)) with (1024 * (1024 * (1024 * (1024 * d)))) by lia.
  replace (1024 * (d * 1024 ^ 4))
    with (1024 * (1024 * (1024 * (1024 * (1024 * d))))) by lia.
  assert (Hr : ∀ (k : nat) (D : Z), D = d * 1024 ^ Z.of_nat k ->
            fmt2_rat false n D ++ " " ++ unit_name k = render_bytes n d k).
  { intros k D ->. reflexivity. }
  destruct (n <? 1024 * d); [apply (Hr 0%nat); cbn; lia|].
  destruct (n <? 1024 * (1024 * d)); [apply (Hr 1%nat); cbn; lia|].
  destruct (n <? 1024 * (1024 * (1024 * d))); [apply (Hr 2%nat); cbn; lia|].
  destruct (n <? 1024 * (1024 * (1024 * (1024 * d)))); [apply (Hr 3%nat); cbn; lia|].
  destruct (n <? 1024 * (1024 * (1024 * (1024 * (1024 * d)))));
    [apply (Hr 4%nat); cbn; lia | apply (Hr 5%nat); cbn; lia].
Qed.

Lemma round_half_even_bounds (n d : Z) :
  0 < d -> n / d <= round_half_even n d <= n / d + 1.
Proof.
  intros Hd. unfold round_half_even.
  destruct (2 * (n mod d) ?= d); [destruct (Z.even (n / d))| |]; lia.
Qed.

Lemma representable_int_scaled (b : Z) (j : nat) :
  0 < b < 2 ^ 53 -> (j <= 5)%nat -> representable b (1 * 1024 ^ Z.of_nat j).
Proof.
  intros Hb Hj. exists b, (- (10 * Z.of_nat j)). split; [exact Hb|]. split; [lia|].
  apply dy_is_neg_exp; [lia|].
  rewrite Z.opp_involutive, pow_1024 by lia. ring.
Qed.

(** [format_bytes] on a number whose float value is [n / d]. *)
Lemma format_bytes_value (v : value) (f : pyfloat) (n d : Z) :
  isinstance_int_float v = true -> lt_zero v = false -> to_float v = Ok f ->
  0 < d -> fval f false n d ->
  (n < 1024 * d
   ∨ ∀ j : nat, (1 <= j <= 5)%nat -> n = 0 ∨ representable n (d * 1024 ^ Z.of_nat j)) ->
  format_bytes v = Ok (VStr (render_bytes n d (default 5%nat (first_unit n d)))).
Proof.
  intros Hinst Hlt Hf Hd Hv Hrep. unfold format_bytes.
  rewrite Hinst, Hlt, Hf. cbn [negb orb mbind result_bind]. do 2 f_equal.
  rewrite <- loop_exact_first_unit.
  destruct Hrep as [Hsmall | Hrep].
  - unfold byte_units. cbn [format_bytes_loop loop_exact].
    rewrite (flt_lit_val f n d 1024 Hd ltac:(lia) Hv).
    rewrite (fmt_2f_val f false n d Hd Hv).
    destruct (Z.ltb_spec n (1024 * d)); [reflexivity | lia].
  - apply format_bytes_loop_val; assumption.
Qed.

Lemma format_bytes_int_small (b : Z) :
  0 <= b < 2 ^ 53 ->
  format_bytes (VInt b)
  = Ok (VStr (render_bytes b 1 (default 5%nat (first_unit b 1)))).
Proof.
  intros Hb. destruct (float_of_Z_exact b Hb) as (f & Hf & Hv).
  apply (format_bytes_value (VInt b) f); try assumption; try reflexivity; try lia.
  - cbn [lt_zero]. destruct (Z.ltb_spec b 0); [lia | reflexivity].
  - right. intros j Hj. destruct (Z.eq_dec b 0) as [->|Hnz]; [now left | right].
    apply representable_int_scaled; lia.
Qed.

Lemma floor_log2_int (z : Z) : 0 < z -> floor_log2_rat z 1 = Z.log2 z.
Proof.
  intros Hz. unfold floor_log2_rat, rat_lt_pow2.
  change (Z.log2 1) with 0. rewrite Z.sub_0_r.
  pose proof (Z.log2_nonneg z). pose proof (Z.log2_spec z Hz) as [Hlo _].
  destruct (Z.leb_spec 0 (Z.log2 z)); [|lia].
  destruct (Z.ltb_spec z (1 * 2 ^ Z.log2 z)); [lia | reflexivity].
Qed.

(** [float(z)] from [2^53] on: a 53-bit mantissa and a positive exponent. *)
Lemma float_of_Z_big (z : Z) (f : pyfloat) :
  2 ^ 53 <= z -> float_of_Z z = Ok f ->
  ∃ x, fval f false x 1 ∧ 2 ^ 53 <= x
       ∧ ∀ j : nat, (1 <= j <= 5)%nat -> representable x (1 * 1024 ^ Z.of_nat j).
Proof.
  intros Hz. assert (Hz0 : 0 < z) by lia.
  unfold float_of_Z, binary64_round.
  destruct (Z.ltb_spec z 0) as [|_]; [lia|]. rewrite Z.abs_eq by lia.
  destruct (Z.eqb_spec z 0) as [|_]; [lia|].
  rewrite (floor_log2_int z Hz0).
  pose proof (Z.log2_spec z Hz0) as [Hlo Hhi].
  assert (HL : 53 <= Z.log2 z) by (apply Z.log2_le_pow2; lia).
  set (L := Z.log2 z) in *. rewrite Z.max_l by lia.
  set (e := L - 52). assert (He : 1 <= e) by lia.
  destruct (Z.leb_spec 0 e) as [_|]; [|lia].
  rewrite Z.mul_1_l.
  pose proof (pow2_pos e ltac:(lia)) as Hpe.
  assert (HLe : 2 ^ L = 2 ^ 52 * 2 ^ e).
  { rewrite <- Z.pow_add_r by lia. f_equal. lia. }
  assert (HLe' : 2 ^ Z.succ L = 2 ^ 53 * 2 ^ e).
  { rewrite <- Z.pow_add_r by lia. f_equal. lia. }
  assert (Hq : 2 ^ 52 <= z / 2 ^ e < 2 ^ 53).
  { split; [apply Z.div_le_lower_bound; lia | apply Z.div_lt_upper_bound; lia]. }
  pose proof (round_half_even_bounds z (2 ^ e) Hpe) as Hm.
  set (m := round_half_even z (2 ^ e)) in *.
  assert (Hmis : dy_is m e (m * 2 ^ e) 1) by (apply dy_is_nonneg_exp; lia).
  assert (H1024 : dy_is 1 1024 (2 ^ 1024) 1) by (apply dy_is_nonneg_exp; lia).
  rewrite (dy_cmp_spec m e (m * 2 ^ e) 1 1 1024 (2 ^ 1024) 1
             ltac:(lia) ltac:(lia) Hmis H1024).
  rewrite !Z.mul_1_r.
  destruct (Z.compare_spec (m * 2 ^ e) (2 ^ 1024)) as [|Hfin|]; try discriminate.
  intros [= <-].
  assert (Hebound : e <= 971).
  { assert (2 ^ (52 + e) < 2 ^ 1024) by (rewrite Z.pow_add_r by lia; nia).
    apply Z.pow_lt_mono_r_iff in H; lia. }
  exists (m * 2 ^ e). split; [|split].
  - exists m, e. split; [reflexivity|]. split; [lia | exact Hmis].
  - nia.
  - intros j Hj.
    destruct (Z.eq_dec m (2 ^ 53)) as [Hm53|Hm53].
    + assert (e <= 970).
      { assert (2 ^ (53 + e) < 2 ^ 1024) by (rewrite Z.pow_add_r by lia; nia).
        apply Z.pow_lt_mono_r_iff in H; lia. }
      exists (2 ^ 52), (e + 1 - 10 * Z.of_nat j).
      split; [lia|]. split; [lia|].
      apply (dy_is_scaled _ _ _ _ (e + 1) (10 * Z.of_nat j)); [lia | lia | lia |].
      rewrite Hm53, pow_1024, Z.pow_add_r by lia. ring.
    + exists m, (e - 10 * Z.of_nat j).
      split; [lia|]. split; [lia|].
      apply (dy_is_scaled _ _ _ _ e (10 * Z.of_nat j)); [lia | lia | lia |].
      rewrite pow_1024 by lia. ring.
Qed.

(** [float(z)] raises from [2^1024] on. *)
Lemma float_of_Z_overflow (z : Z) :
  2 ^ 1024 <= z -> float_of_Z z = Raise OverflowError.
Proof.
  intros Hz.
  assert (Hz0 : 0 < z) by (pose proof (pow2_pos 1024 ltac:(lia)); lia).
  unfold float_of_Z, binary64_round.
  destruct (Z.ltb_spec z 0) as [|_]; [lia|]. rewrite Z.abs_eq by lia.
  destruct (Z.eqb_spec z 0) as [|_]; [lia|].
  rewrite (floor_log2_int z Hz0).
  pose proof (Z.log2_spec z Hz0) as [Hlo _].
  assert (HL : 1024 <= Z.log2 z).
  { apply Z.log2_le_pow2; [exact Hz0 | exact Hz]. }
  rewrite Z.max_l by lia.
  destruct (Z.leb_spec 0 (Z.log2 z - 52)) as [_|]; [|lia].
  set (e := Z.log2 z - 52) in *.
  pose proof (pow2_pos e ltac:(lia)) as He.
  rewrite Z.mul_1_l.
  assert (Hm : 2 ^ 52 <= round_half_even z (2 ^ e)).
  { pose proof (round_half_even_bounds z (2 ^ e) He) as [Hb _].
    assert (2 ^ 52 <= z / 2 ^ e); [|lia].
    apply Z.div_le_lower_bound; [exact He|].
    rewrite Z.mul_comm, <- Z.pow_add_r by lia.
    now replace (52 + e) with (Z.log2 z) by lia. }
  set (m := round_half_even z (2 ^ e)) in *.
  assert (Hcmp : dy_cmp m e 1 1024 ≠ Lt).
  { unfold dy_cmp. rewrite Z.compare_lt_iff. rewrite Z.mul_1_l.
    destruct (Z.le_gt_cases e 1024).
    - rewrite Z.min_l by lia. rewrite Z.sub_diag, Z.pow_0_r, Z.mul_1_r.
      assert (2 ^ (1024 - e) <= 2 ^ 52) by (apply Z.pow_le_mono_r; lia). lia.
    - rewrite Z.min_r by lia. rewrite Z.sub_diag, Z.pow_0_r.
      pose proof (pow2_pos (e - 1024) ltac:(lia)).
      assert (0 < 2 ^ 52) by (apply pow2_pos; lia). nia. }
  destruct (dy_cmp m e 1 1024); [reflexivity | contradiction | reflexivity].
Qed.

(** [float(z)] for an integer either returns or raises [OverflowError]. *)
Lemma float_of_Z_raise (z : Z) (e : exn) :
  float_of_Z z = Raise e -> e = OverflowError.
Proof.
  unfold float_of_Z. destruct (binary64_round (z <? 0) (Z.abs z) 1);
    try discriminate. now intros [= <-].
Qed.

Lemma first_unit_spec (n d : Z) (k : nat) :
  first_unit n d = Some k ->
  (k <= 4)%nat ∧ scaled_below_1024 n d k = true
  ∧ ∀ j : nat, (j < k)%nat -> scaled_below_1024 n d j = false.
Proof.
  unfold first_unit. cbn [find].
  destruct (scaled_below_1024 n d 0) eqn:H0.
  { intros [= <-]. repeat split; [lia | exact H0 | intros j Hj; lia]. }
  destruct (scaled_below_1024 n d 1) eqn:H1.
  { intros [= <-]. repeat split; [lia | exact H1 |].
    intros [|j] Hj; [exact H0 | lia]. }
  destruct (scaled_below_1024 n d 2) eqn:H2.
  { intros [= <-]. repeat split; [lia | exact H2 |].
    intros [|[|j]] Hj; [exact H0 | exact H1 | lia]. }
  destruct (scaled_below_1024 n d 3) eqn:H3.
  { intros [= <-]. repeat split; [lia | exact H3 |].
    intros [|[|[|j]]] Hj; [exact H0 | exact H1 | exact H2 | lia]. }
  destruct (scaled_below_1024 n d 4) eqn:H4; [|discriminate].
  intros [= <-]. repeat split; [lia | exact H4 |].
  intros [|[|[|[|j]]]] Hj; [exact H0 | exact H1 | exact H2 | exact H3 | lia].
Qed.

Lemma first_unit_none (n d : Z) :
  0 < d -> first_unit n d = None <-> 1024 ^ 5 * d <= n.
Proof.
  intros Hd. unfold first_unit, scaled_below_1024. cbn [find].
  change (Z.of_nat 0) with 0. change (Z.of_nat 1) with 1.
  change (Z.of_nat 2) with 2. change (Z.of_nat 3) with 3.
  change (Z.of_nat 4) with 4.
  destruct (Z.ltb_spec n (1024 * (d * 1024 ^ 0))); [split; [discriminate | lia]|].
  destruct (Z.ltb_spec n (1024 * (d * 1024 ^ 1))); [split; [discriminate | lia]|].
  destruct (Z.ltb_spec n (1024 * (d * 1024 ^ 2))); [split; [discriminate | lia]|].
  destruct (Z.ltb_spec n (1024 * (d * 1024 ^ 3))); [split; [discriminate | lia]|].
  destruct (Z.ltb_spec n (1024 * (d * 1024 ^ 4))); [split; [discriminate | lia]|].
  split; [lia | reflexivity].
Qed.

Lemma format_bytes_int_big (b : Z) (f : pyfloat) :
  2 ^ 53 <= b -> float_of_Z b = Ok f ->
  ∃ x, fval f false x 1 ∧ 2 ^ 53 <= x
       ∧ format_bytes (VInt b) = Ok (VStr (render_bytes x 1 5)).
Proof.
  intros Hb Hf. destruct (float_of_Z_big b f Hb Hf) as (x & Hv & Hx & Hrep).
  exists x. split; [exact Hv|]. split; [exact Hx|].
  rewrite (format_bytes_value (VInt b) f x 1); try assumption; try reflexivity; try lia.
  - replace (first_unit x 1) with (@None nat); [reflexivity|].
    symmetry. apply first_unit_none; lia.
  - cbn [lt_zero]. destruct (Z.ltb_spec b 0); [lia | reflexivity].
  - right. intros j Hj. right. now apply Hrep.
Qed.

(** An integer from [2^53] on: rendered through its float value, or beyond
    the float range. *)
Lemma format_bytes_int_large (b : Z) :
  2 ^ 53 <= b ->
  (∃ f x, float_of_Z b = Ok f ∧ fval f false x 1 ∧ 2 ^ 53 <= x
          ∧ format_bytes (VInt b) = Ok (VStr (render_bytes x 1 5)))
  ∨ (float_of_Z b = Raise OverflowError
     ∧ format_bytes (VInt b) = Raise OverflowError).
Proof.
  intros Hb. destruct (float_of_Z b) as [f|e] eqn:Hf.
  - left. destruct (format_bytes_int_big b f Hb Hf) as (x & Hv & Hx & Hfmt).
    now exists f, x.
  - right. apply float_of_Z_raise in Hf as He. subst e. split; [reflexivity|].
    unfold format_bytes. cbn [isinstance_int_float lt_zero negb orb].
    destruct (Z.ltb_spec b 0) as [|_]; [lia|].
    cbn [to_float]. now rewrite Hf.
Qed.

Lemma format_bytes_int_beyond (b : Z) :
  2 ^ 1024 <= b -> format_bytes (VInt b) = Raise OverflowError.
Proof.
  intros Hb. pose proof (pow2_pos 1024 ltac:(lia)).
  unfold format_bytes. cbn [isinstance_int_float lt_zero negb orb].
  destruct (Z.ltb_spec b 0) as [|_]; [lia|].
  cbn [to_float]. now rewrite (float_of_Z_overflow b Hb).
Qed.

Lemma dyadic_fval (m e : Z) :
  0 <= m -> fval (FFin false m e) false (dyadic_num m e) (dyadic_den e).
Proof.
  intros Hm. exists m, e. split; [reflexivity|]. split; [exact Hm|].
  unfold dyadic_num, dyadic_den. destruct (Z.leb_spec 0 e).
  - apply dy_is_nonneg_exp; lia.
  - apply dy_is_neg_exp; lia.
Qed.

Lemma dyadic_den_pos (e : Z) : 0 < dyadic_den e.
Proof.
  unfold dyadic_den. destruct (Z.leb_spec 0 e); [lia | apply pow2_pos; lia].
Qed.

Lemma format_bytes_float (m e : Z) :
  0 <= m < 2 ^ 53 -> -1074 <= e <= 971 ->
  format_bytes (VFloat (FFin false m e))
  = Ok (VStr (render_bytes (dyadic_num m e) (dyadic_den e)
                (default 5%nat (first_unit (dyadic_num m e) (dyadic_den e))))).
Proof.
  intros Hm He.
  pose proof (dyadic_fval m e ltac:(lia)) as Hv.
  pose proof (dyadic_den_pos e) as Hd.
  assert (Hn : 0 <= dyadic_num m e).
  { unfold dyadic_num. destruct (0 <=? e); [|lia].
    pose proof (pow2_pos e). destruct (Z_lt_le_dec e 0); [|nia].
    rewrite Z.pow_neg_r by lia. lia. }
  apply (format_bytes_value _ (FFin false m e)); try assumption; try reflexivity.
  - cbn [lt_zero]. rewrite (flt_lit_val _ _ _ 0 Hd ltac:(lia) Hv).
    destruct (Z.ltb_spec (dyadic_num m e) (0 * dyadic_den e)); [lia | reflexivity].
  - destruct (Z_lt_le_dec (dyadic_num m e) (1024 * dyadic_den e)) as [|Hbig];
      [now left | right].
    intros j Hj. right.
    unfold dyadic_num, dyadic_den in *. destruct (Z.leb_spec 0 e) as [Hpos|Hneg].
    + pose proof (pow2_pos e Hpos).
      exists m, (e - 10 * Z.of_nat j). split; [nia|]. split; [lia|].
      apply (dy_is_scaled _ _ _ _ e (10 * Z.of_nat j)); [lia | lia | lia |].
      rewrite pow_1024 by lia. ring.
    + assert (Hexp : -43 <= e).
      { assert (H : 2 ^ (10 + - e) < 2 ^ 53).
        { rewrite Z.pow_add_r by lia. change (2 ^ 10) with 1024. lia. }
        apply Z.pow_lt_mono_r_iff in H; lia. }
      pose proof (pow2_pos (- e) ltac:(lia)).
      exists m, (e - 10 * Z.of_nat j). split; [nia|]. split; [lia|].
      apply (dy_is_scaled _ _ _ _ 0 (- e + 10 * Z.of_nat j)); [lia | lia | lia |].
      rewrite pow_1024, Z.pow_add_r by lia. ring.
Qed.

(** Negative zero is not below zero, and keeps its sign in print. *)
Lemma fmt2_rat_zero (neg : bool) (d : Z) :
  0 < d -> fmt2_rat neg 0 d = (if neg then "-" else "") ++ "0.00".
Proof.
  intros Hd. unfold fmt2_rat.
  replace (100 * 0) with (0 * d) by lia. rewrite round_half_even_exact by exact Hd.
  reflexivity.
Qed.

Lemma format_bytes_neg_zero (e : Z) :
  format_bytes (VFloat (FFin true 0 e)) = Ok (VStr "-0.00 B").
Proof.
  pose proof (pow2_pos (0 - Z.min e 0) ltac:(lia)) as HP.
  assert (H0 : flt (FFin true 0 e) (float_lit 0) = false).
  { change (float_lit 0) with (FFin false 0 0). cbn [flt signed]. unfold dy_cmp.
    change (- 0) with 0. now rewrite !Z.mul_0_l. }
  assert (H1 : flt (FFin true 0 e) (float_lit 1024) = true).
  { change (float_lit 1024) with (FFin false 1024 0). cbn [flt signed]. unfold dy_cmp.
    change (- 0) with 0. rewrite Z.mul_0_l.
    destruct (Z.compare_spec 0 (1024 * 2 ^ (0 - Z.min e 0))); [lia | reflexivity | lia]. }
  assert (H2 : fmt_2f (FFin true 0 e) = "-0.00").
  { cbn [fmt_2f]. destruct (Z.leb_spec 0 e).
    - rewrite Z.mul_0_l. now rewrite fmt2_rat_zero by lia.
    - rewrite fmt2_rat_zero; [reflexivity | apply pow2_pos; lia]. }
  unfold format_bytes, byte_units.
  cbn [isinstance_int_float lt_zero negb orb to_float]. rewrite H0.
  cbn [mbind result_bind format_bytes_loop]. rewrite H1, H2. reflexivity.
Qed.

(** The rendering has exactly two digits after the point. *)
Lemma render_bytes_form (n d : Z) (k : nat) :
  ∃ r, r = round_half_even (100 * n) (d * 1024 ^ Z.of_nat k)
       ∧ render_bytes n d k
         = show_Z (r / 100) ++ "." ++ fmt_02 (r mod 100) ++ " " ++ unit_name k
       ∧ List.length (fmt_02 (r mod 100)) = 2%nat.
Proof.
  eexists. split; [reflexivity|]. split.
  - unfold render_bytes, fmt2_rat. rewrite str_app_nil_l, !str_app_assoc. reflexivity.
  - apply fmt_02_length. div_lia.
Qed.

Lemma format_bytes_sentinel :
  (∀ v, isinstance_int_float v = false -> format_bytes v = Ok (VStr UNKNOWN))
  ∧ (∀ b : Z, b < 0 -> format_bytes (VInt b) = Ok (VStr UNKNOWN))
  ∧ (∀ f, flt f (float_lit 0) = true -> format_bytes (VFloat f) = Ok (VStr UNKNOWN)).
Proof.
  repeat split.
  - intros v Hv. unfold format_bytes. now rewrite Hv.
  - intros b Hb. unfold format_bytes. cbn [isinstance_int_float lt_zero negb orb].
    destruct (Z.ltb_spec b 0); [reflexivity | lia].
  - intros f Hf. unfold format_bytes. cbn [isinstance_int_float lt_zero negb orb].
    now rewrite Hf.
Qed.

(** C5, as the specification words it, fails at 500 bytes: the scaled value
    is below 1024 in every unit, so the largest such unit is TB, while
    [format_bytes] stops at the first unit and answers in B. *)
Lemma format_bytes_largest_unit_counterexample :
  format_bytes (VInt 500) = Ok (VStr "500.00 B")
  ∧ scaled_below_1024 500 1 4 = true
  ∧ spec_unit 500 1 = Some 4%nat
  ∧ format_bytes_spec 500 = "0.00 TB"
  ∧ format_bytes (VInt 500) ≠ Ok (VStr (format_bytes_spec 500)).
Proof.
  repeat split; try (vm_compute; reflexivity).
  intros H. vm_compute in H. discriminate H.
Qed.

(** An integer beyond the float range does not convert, and the error
    leaves [format_bytes]. *)
Lemma format_bytes_huge_int_raises :
  format_bytes (VInt (2 ^ 1024)) = Raise OverflowError.
Proof. vm_compute. reflexivity. Qed.

(** C5, amended.  For every non-negative integer or boolean whose float
    value exists and every float that is not below zero, [format_bytes]
    renders the float value scaled by the smallest unit among B, KB, MB, GB,
    TB for which the scaled value is below 1024, with exactly two digits
    after the point and that unit's suffix; when no unit qualifies, which is
    when the value is at least 1024^5, it renders the value divided by
    1024^5 with the label PB, so that the positive infinity reads [inf PB]
    and not-a-number [nan PB]; negative zero reads [-0.00 B].  An integer
    below 2^53 is its own float value; from 2^53 on the float value is an
    integer of at least 2^53, so the label is PB, unless the integer is
    beyond the float range, as every integer from 2^1024 on is, and then
    [format_bytes] raises [OverflowError].  Every value that is not a
    number, every negative integer and every float below zero yields the
    sentinel. *)
Theorem format_bytes_unit_rule :
  (∀ b : Z, 0 <= b < 2 ^ 53 ->
     format_bytes (VInt b)
     = Ok (VStr (render_bytes b 1 (default 5%nat (first_unit b 1)))))
  ∧ (∀ b : Z, 2 ^ 53 <= b ->
       (∃ f x, float_of_Z b = Ok f ∧ fval f false x 1 ∧ 2 ^ 53 <= x
               ∧ format_bytes (VInt b) = Ok (VStr (render_bytes x 1 5)))
       ∨ (float_of_Z b = Raise OverflowError
          ∧ format_bytes (VInt b) = Raise OverflowError))
  ∧ (∀ b : Z, 2 ^ 1024 <= b -> format_bytes (VInt b) = Raise OverflowError)
  ∧ (∀ b : bool,
       format_bytes (VBool b) = Ok (VStr (if b then "1.00 B" else "0.00 B")))
  ∧ (∀ m e : Z, 0 <= m < 2 ^ 53 -> -1074 <= e <= 971 ->
       format_bytes (VFloat (FFin false m e))
       = Ok (VStr (render_bytes (dyadic_num m e) (dyadic_den e)
                     (default 5%nat (first_unit (dyadic_num m e) (dyadic_den e))))))
  ∧ (∀ e : Z, format_bytes (VFloat (FFin true 0 e)) = Ok (VStr "-0.00 B"))
  ∧ format_bytes (VFloat (FInf false)) = Ok (VStr "inf PB")
  ∧ format_bytes (VFloat FNaN) = Ok (VStr "nan PB")
  ∧ (∀ (n d : Z) (k : nat), first_unit n d = Some k ->
       (k <= 4)%nat ∧ scaled_below_1024 n d k = true
       ∧ ∀ j : nat, (j < k)%nat -> scaled_below_1024 n d j = false)
  ∧ (∀ n d : Z, 0 < d -> first_unit n d = None <-> 1024 ^ 5 * d <= n)
  ∧ (∀ (n d : Z) (k : nat),
       ∃ r, r = round_half_even (100 * n) (d * 1024 ^ Z.of_nat k)
            ∧ render_bytes n d k
              = show_Z (r / 100) ++ "." ++ fmt_02 (r mod 100) ++ " " ++ unit_name k
            ∧ List.length (fmt_02 (r mod 100)) = 2%nat)
  ∧ (∀ v, isinstance_int_float v = false -> format_bytes v = Ok (VStr UNKNOWN))
  ∧ (∀ b : Z, b < 0 -> format_bytes (VInt b) = Ok (VStr UNKNOWN))
  ∧ (∀ f, flt f (float_lit 0) = true -> format_bytes (VFloat f) = Ok (VStr UNKNOWN)).
Proof.
  split; [exact format_bytes_int_small|].
  split; [exact format_bytes_int_large|].
  split; [exact format_bytes_int_beyond|].
  split; [intros []; vm_compute; reflexivity|].
  split; [exact format_bytes_float|].
  split; [exact format_bytes_neg_zero|].
  split; [vm_compute; reflexivity|].
  split; [vm_compute; reflexivity|].
  split; [exact first_unit_spec|].
  split; [exact first_unit_none|].
  split; [exact render_bytes_form|].
  exact format_bytes_sentinel.
Qed.

Lemma format_bytes_unit_rule_witness :
  format_bytes (VInt 1536) = Ok (VStr "1.50 KB")
  ∧ format_bytes (VInt 1125899906842624) = Ok (VStr "1.00 PB")
  ∧ format_bytes (VInt (2 ^ 2000)) = Raise OverflowError
  ∧ format_bytes (VFloat (FFin false 3 (-1))) = Ok (VStr "1.50 B")
  ∧ format_bytes (VInt (-1)) = Ok (VStr UNKNOWN).
Proof.
  split; [|split; [|split; [|split]]].
  - exact (proj1 format_bytes_unit_rule 1536 ltac:(lia)).
  - exact (proj1 format_bytes_unit_rule 1125899906842624
             ltac:(lia)).
  - apply (proj1 (proj2 (proj2 format_bytes_unit_rule))).
    apply Z.pow_le_mono_r; lia.
  - exact (proj1 (proj2 (proj2 (proj2 (proj2 format_bytes_unit_rule)))) 3 (-1)
             ltac:(lia) ltac:(lia)).
  - exact (proj1 (proj2 (proj2 (proj2 (proj2 (proj2 (proj2 (proj2 (proj2 (proj2 (proj2
             (proj2 (proj2 format_bytes_unit_rule)))))))))))) (-1) eq_refl).
Defined.

(* ================================================================== *)
(** * providers.py: the uptime pair                                    *)
(* ================================================================== *)

Lemma head_digit_app (s r : text) :
  all_digits s = true -> is_empty s = false -> head_is is_digit (s ++ r) = true.
Proof.
  destruct s as [|c s]; [discriminate|]. cbn [all_digits]. intros [Hc _]%andb_prop _.
  rewrite str_app_cons. exact Hc.
Qed.

(** A rendered duration starts with a digit, so it is never the sentinel. *)
Lemma format_duration_not_sentinel (n : Z) (h : text) :
  0 <= n -> format_duration (VInt n) = Ok (VStr h) -> h ≠ UNKNOWN.
Proof.
  intros Hn. destruct (Z.lt_ge_cases n (86400 * int_str_limit)) as [Hlim|Hlim];
    [|rewrite format_duration_int_limit by lia; discriminate].
  rewrite (format_duration_int n (conj Hn Hlim)). cbv zeta. intros [= <-].
  destruct (duration_fields n Hn) as (Hd & Hh & _).
  match goal with
  | |- ?t ≠ _ => assert (Hhead : head_is is_digit t = true)
  end.
  { destruct (0 <? n / 86400).
    - apply head_digit_app; [now apply show_Z_all_digits | now apply show_Z_nonempty].
    - apply head_digit_app; [apply fmt_02_all_digits; lia|].
      rewrite fmt_02_two_digits by lia. reflexivity. }
  intros Heq. rewrite Heq in Hhead. discriminate Hhead.
Qed.

Lemma round_half_even_nonneg (n d : Z) : 0 <= n -> 0 < d -> 0 <= round_half_even n d.
Proof.
  intros Hn Hd. pose proof (round_half_even_bounds n d Hd).
  pose proof (Z.div_pos n d Hn Hd). lia.
Qed.

(** A finite result of rounding lies below [2^1024]. *)
Lemma binary64_round_below (neg neg' : bool) (n d m e z : Z) :
  0 <= n -> 0 < d -> binary64_round neg n d = FFin neg' m e ->
  int_of_float (FFin neg' m e) = Ok z -> Z.abs z < 2 ^ 1024.
Proof.
  intros Hn Hd. unfold binary64_round.
  pose proof (pow2_pos 1024 ltac:(lia)) as HP.
  destruct (n =? 0).
  { intros [= <- <- <-] [= <-]. destruct neg; cbn; lia. }
  set (e0 := Z.max (floor_log2_rat n d - 52) (-1074)).
  set (m0 := if 0 <=? e0 then round_half_even n (d * 2 ^ e0)
             else round_half_even (n * 2 ^ (- e0)) d).
  assert (Hm : 0 <= m0).
  { subst m0. destruct (Z.leb_spec 0 e0).
    - pose proof (pow2_pos e0 ltac:(lia)). apply round_half_even_nonneg; nia.
    - pose proof (pow2_pos (- e0) ltac:(lia)). apply round_half_even_nonneg; nia. }
  destruct (dy_cmp m0 e0 1 1024) eqn:Hc; try discriminate.
  intros [= <- <- <-]. cbn [int_of_float]. intros [= <-].
  unfold dy_cmp in Hc. cbv zeta in Hc. rewrite Z.compare_lt_iff in Hc.
  assert (Hsig : ∀ x, 0 <= x -> Z.abs (signed neg x) = x)
    by (intros x Hx; destruct neg; cbn [signed]; lia).
  destruct (Z.leb_spec 0 e0) as [He|He].
  - pose proof (pow2_pos e0 He) as HE. rewrite Hsig by nia.
    destruct (Z.le_gt_cases e0 1024) as [Hle|Hgt].
    + rewrite Z.min_l in Hc by lia. rewrite Z.sub_diag in Hc.
      replace (2 ^ 1024) with (2 ^ (1024 - e0) * 2 ^ e0)
        by (rewrite <- Z.pow_add_r by lia; f_equal; lia).
      change (2 ^ 0) with 1 in Hc. apply Z.mul_lt_mono_pos_r; lia.
    + rewrite Z.min_r in Hc by lia. rewrite Z.sub_diag in Hc.
      pose proof (pow2_pos (e0 - 1024) ltac:(lia)).
      change (2 ^ 0) with 1 in Hc.
      pose proof (Z.mul_nonneg_nonneg m0 (2 ^ (e0 - 1024) - 1) Hm ltac:(lia)).
      assert (Hz : m0 = 0) by lia. rewrite Hz. lia.
  - pose proof (pow2_pos (- e0) ltac:(lia)) as HE.
    rewrite Hsig by (apply Z.div_pos; lia).
    rewrite Z.min_l in Hc by lia. rewrite Z.sub_diag in Hc.
    change (2 ^ 0) with 1 in Hc.
    replace (1024 - e0) with (1024 + - e0) in Hc by lia.
    rewrite Z.pow_add_r in Hc by lia.
    apply Z.div_lt_upper_bound; lia.
Qed.

(** The integer part of a float difference lies below [2^1024] in size. *)
Lemma fsub_int_below (a b : pyfloat) (z : Z) :
  int_of_float (fsub a b) = Ok z -> Z.abs z < 2 ^ 1024.
Proof.
  pose proof (pow2_pos 1024 ltac:(lia)) as HP.
  destruct a as [|na|n1 m1 e1], b as [|nb|n2 m2 e2]; cbn [fsub];
    try discriminate.
  - destruct (bool_decide (na = nb)); discriminate.
  - set (e := Z.min e1 e2).
    set (s := signed n1 m1 * 2 ^ (e1 - e) - signed n2 m2 * 2 ^ (e2 - e)).
    destruct (s =? 0).
    { intros [= <-]. destruct (n1 && negb n2 && (m1 =? 0)); cbn; lia. }
    unfold round_dyadic. destruct (Z.leb_spec 0 e) as [He|He].
    + pose proof (pow2_pos e He).
      destruct (binary64_round (s <? 0) (Z.abs s * 2 ^ e) 1) eqn:Hr; try discriminate.
      eapply binary64_round_below; [| |exact Hr]; nia.
    + pose proof (pow2_pos (- e) ltac:(lia)).
      destruct (binary64_round (s <? 0) (Z.abs s) (2 ^ (- e))) eqn:Hr; try discriminate.
      eapply binary64_round_below; [| |exact Hr]; lia.
Qed.

Lemma uptime_seconds_small (a b : pyfloat) (elapsed : Z) :
  int_of_float (fsub a b) = Ok elapsed ->
  0 <= Z.max 0 elapsed < 86400 * int_str_limit.
Proof.
  intros H%fsub_int_below. pose proof int_str_limit_pos.
  pose proof (pow2_pos 1024 ltac:(lia)). lia.
Qed.

Lemma uptime_pair_numeric (os : env) (boot : value) (now f : pyfloat) (elapsed : Z) :
  isinstance_int_float boot = true -> time_time os = Ok now ->
  to_float boot = Ok f -> int_of_float (fsub now f) = Ok elapsed ->
  ∃ h, uptime_pair os boot = Ok (VInt (Z.max 0 elapsed), VStr h)
       ∧ format_duration (VInt (Z.max 0 elapsed)) = Ok (VStr h)
       ∧ h ≠ UNKNOWN.
Proof.
  intros Hinst Hnow Hf Hel. unfold uptime_pair.
  rewrite Hinst, Hnow, Hf. cbn [mbind result_bind]. rewrite Hel.
  cbn [mbind result_bind].
  pose proof (uptime_seconds_small _ _ _ Hel) as Hnn.
  pose proof (format_duration_int _ Hnn) as Hfd. cbv zeta in Hfd.
  rewrite Hfd. cbn [mbind result_bind].
  eexists. split; [reflexivity|]. split; [reflexivity|].
  apply (format_duration_not_sentinel (Z.max 0 elapsed)); [exact (proj1 Hnn) | exact Hfd].
Qed.

Lemma uptime_pair_not_numeric (os : env) (boot : value) :
  isinstance_int_float boot = false ->
  uptime_pair os boot = Ok (VStr UNKNOWN, VStr UNKNOWN).
Proof. intros H. unfold uptime_pair. now rewrite H. Qed.

(** The two fields are the sentinel together or not at all. *)
Lemma uptime_pair_atomic (os : env) (boot a b : value) :
  uptime_pair os boot = Ok (a, b) -> a = VStr UNKNOWN <-> b = VStr UNKNOWN.
Proof.
  unfold uptime_pair. destruct (isinstance_int_float boot).
  - intros H. split_bind H as now Hnow. split_bind H as f Hf.
    split_bind H as elapsed Hel. split_bind H as human Hhuman.
    injection H as <- <-.
    pose proof (uptime_seconds_small _ _ _ Hel) as Hnn.
    pose proof (format_duration_int _ Hnn) as Hfd. cbv zeta in Hfd.
    rewrite Hfd in Hhuman. injection Hhuman as <-.
    split; [discriminate|]. intros [= Heq]. exfalso.
    now apply (format_duration_not_sentinel (Z.max 0 elapsed) _ (proj1 Hnn) Hfd).
  - now intros [= <- <-].
Qed.

Lemma get_system_info_uptime (os : env) (v : value) :
  get_system_info os = Ok v ->
  ∃ items boot a b,
    v = VDict items
    ∧ assoc "uptime_seconds" items = Some a
    ∧ assoc "uptime_human" items = Some b
    ∧ safe_call (fun _ => psutil_boot_time os) VNone = Ok boot
    ∧ uptime_pair os boot = Ok (a, b).
Proof.
  unfold get_system_info. intros H.
  split_bind H as uname Huname. split_bind H as os_name Hname.
  split_bind H as os_release Hrelease. split_bind H as os_version Hversion.
  split_bind H as hostname Hhost. split_bind H as boot Hboot.
  split_bind H as pair Hpair. destruct pair as [a b].
  split_bind H as mem_info Hmem. split_bind H as group Hgroup.
  destruct group as [[[tb ab] th] ah]. injection H as <-.
  eexists _, boot, a, b. repeat split; try reflexivity; assumption.
Qed.

(** C7.  When the boot-time probe returns a number, [uptime_seconds] is
    [max(0, int(now - boot))], the float difference truncated, and
    [uptime_human] is [format_duration] of it, which is never the sentinel;
    when the probe raises or returns anything that is not a number, both
    fields are the sentinel.  In every record [get_system_info] returns, the
    two fields are the sentinel together or not at all. *)
Theorem uptime_pair_consistent :
  (∀ os boot now f elapsed,
     isinstance_int_float boot = true -> time_time os = Ok now ->
     to_float boot = Ok f -> int_of_float (fsub now f) = Ok elapsed ->
     ∃ h, uptime_pair os boot = Ok (VInt (Z.max 0 elapsed), VStr h)
          ∧ format_duration (VInt (Z.max 0 elapsed)) = Ok (VStr h)
          ∧ h ≠ UNKNOWN)
  ∧ (∀ os boot, isinstance_int_float boot = false ->
       uptime_pair os boot = Ok (VStr UNKNOWN, VStr UNKNOWN))
  ∧ (∀ os e, psutil_boot_time os = Raise e -> is_Exception e = true ->
       safe_call (fun _ => psutil_boot_time os) VNone = Ok VNone
       ∧ uptime_pair os VNone = Ok (VStr UNKNOWN, VStr UNKNOWN))
  ∧ (∀ os boot a b, uptime_pair os boot = Ok (a, b) ->
       a = VStr UNKNOWN <-> b = VStr UNKNOWN)
  ∧ (∀ os v, get_system_info os = Ok v ->
       ∃ items boot a b,
         v = VDict items
         ∧ assoc "uptime_seconds" items = Some a
         ∧ assoc "uptime_human" items = Some b
         ∧ safe_call (fun _ => psutil_boot_time os) VNone = Ok boot
         ∧ uptime_pair os boot = Ok (a, b)
         ∧ (a = VStr UNKNOWN <-> b = VStr UNKNOWN)).
Proof.
  split; [exact uptime_pair_numeric|].
  split; [exact uptime_pair_not_numeric|].
  split; [|split; [exact uptime_pair_atomic|]].
  - intros os e He Hexc. split; [|reflexivity].
    unfold safe_call. rewrite He. simpl. now rewrite Hexc.
  - intros os v Hv.
    destruct (get_system_info_uptime os v Hv) as (items & boot & a & b & H1 & H2 & H3 & H4 & H5).
    exists items, boot, a, b. repeat split; try assumption.
    + now apply (uptime_pair_atomic os boot a b H5).
    + now apply (uptime_pair_atomic os boot a b H5).
Qed.

Lemma uptime_pair_consistent_witness :
  ∃ h, uptime_pair (env_linux (Ok (float_lit 1700000000)) (Raise OSError) (Raise OSError))
         (VFloat (float_lit 1699900000))
       = Ok (VInt (Z.max 0 100000), VStr h)
       ∧ format_duration (VInt (Z.max 0 100000)) = Ok (VStr h)
       ∧ h ≠ UNKNOWN.
Proof.
  exact (proj1 uptime_pair_consistent
           (env_linux (Ok (float_lit 1700000000)) (Raise OSError) (Raise OSError))
           (VFloat (float_lit 1699900000)) (float_lit 1700000000)
           (float_lit 1699900000) 100000 eq_refl eq_refl eq_refl eq_refl).
Defined.

(* ================================================================== *)
(** * providers.py: the probes behind safe_call                        *)
(* ================================================================== *)

Lemma safe_call_ordinary {A} (r : result A) (default : A) :
  ordinary r = true ->
  safe_call (fun _ => r) default = Ok (match r with Ok a => a | Raise _ => default end).
Proof.
  unfold safe_call, try_except. destruct r as [a|e]; [reflexivity|].
  cbn [ordinary]. now intros ->.
Qed.

Lemma fails_ordinary {A} (r : result A) : fails r = true -> ordinary r = true.
Proof. now destruct r. Qed.

(** X1.  When [platform.machine()] returns or raises an ordinary exception,
    [_cpu_architecture] returns a non-empty text: the machine name as it
    came when that is not empty, and the sentinel when it is empty or the
    call failed. *)
Theorem cpu_architecture_never_blank (os : env) :
  ordinary (platform_machine os) = true ->
  ∃ s, _cpu_architecture os = Ok s ∧ s ≠ ""
       ∧ (∀ m, platform_machine os = Ok m -> m ≠ "" -> s = m)
       ∧ (platform_machine os = Ok "" -> s = UNKNOWN)
       ∧ (fails (platform_machine os) = true -> s = UNKNOWN).
Proof.
  unfold _cpu_architecture, safe_call, try_except.
  destruct (platform_machine os) as [m|e]; cbn [ordinary fails mbind result_bind].
  - intros _. destruct m as [|c m]; cbn [str_or is_empty].
    + exists UNKNOWN. repeat split; try discriminate.
      intros m' [= <-] Hne. now destruct Hne.
    + exists ((c :: m)). repeat split; try discriminate.
      now intros m' [= <-] _.
  - intros ->. exists UNKNOWN. repeat split; discriminate.
Qed.


Lemma cpu_architecture_never_blank_witness :
  _cpu_architecture (env_linux (Raise OSError) (Raise OSError) (Raise OSError))
  = Ok "x86_64".
Proof.
  destruct (cpu_architecture_never_blank
              (env_linux (Raise OSError) (Raise OSError) (Raise OSError)) eq_refl)
    as (s & H1 & _ & H2 & _).
  rewrite H1. f_equal. apply H2; [reflexivity | discriminate].
Defined.

(** X2.  When [psutil.cpu_count] returns or raises an ordinary exception,
    [_cpu_count] returns: the probe's answer when that is an integer, and
    the sentinel when it is anything else ([None] for a count psutil could
    not determine) or the call failed. *)
Theorem cpu_count_int_or_sentinel (os : env) (logical : bool) :
  ordinary (psutil_cpu_count os logical) = true ->
  ∃ v, _cpu_count os logical = Ok v
       ∧ int_or_unknown v = true
       ∧ (∀ x, psutil_cpu_count os logical = Ok x -> isinstance_int x = true -> v = x)
       ∧ (∀ x, psutil_cpu_count os logical = Ok x -> isinstance_int x = false ->
            v = VStr UNKNOWN)
       ∧ (fails (psutil_cpu_count os logical) = true -> v = VStr UNKNOWN).
Proof.
  intros Hord. unfold _cpu_count.
  rewrite (safe_call_ordinary (psutil_cpu_count os logical) VNone Hord).
  cbn [mbind result_bind].
  destruct (psutil_cpu_count os logical) as [x|e]; cbn [fails].
  - destruct (isinstance_int x) eqn:Hx.
    + exists x. split; [reflexivity|]. split; [now destruct x|].
      split; [now intros ? [= <-] _|]. split; [|discriminate].
      intros ? [= <-] H. congruence.
    + exists (VStr UNKNOWN). split; [reflexivity|]. split; [reflexivity|].
      split; [|split; [reflexivity | discriminate]].
      intros ? [= <-] H. congruence.
  - exists (VStr UNKNOWN). cbn [isinstance_int]. repeat split; discriminate.
Qed.

Lemma cpu_count_int_or_sentinel_witness :
  _cpu_count (env_linux (Raise OSError) (Raise OSError) (Raise OSError)) true
  = Ok (VInt 8).
Proof.
  destruct (cpu_count_int_or_sentinel
              (env_linux (Raise OSError) (Raise OSError) (Raise OSError)) true eq_refl)
    as (v & H1 & _ & H2 & _).
  rewrite H1. f_equal. apply H2; reflexivity.
Defined.

(** Rounding to [k] decimals keeps a value that has no more than [k]
    decimals. *)
Lemma round_float_on_grid (f : pyfloat) (neg : bool) (n d k q : Z) :
  0 < d -> 0 <= k -> fval f neg n d -> 10 ^ k * n = q * d ->
  n = 0 ∨ representable n d ->
  fval (round_float f k) neg n d.
Proof.
  intros Hd Hk (m & e & -> & Hm & His) Hq Hrep.
  pose proof (dy_is_nonneg m e n d Hd Hm His) as Hn.
  assert (Hp : 0 < 10 ^ k) by (apply Z.pow_pos_nonneg; lia).
  assert (Hq0 : 0 <= q) by nia.
  cbn [round_float].
  destruct (Z.leb_spec 0 e) as [Hpos|Hneg].
  - pose proof (proj1 (dy_is_nonneg_exp m e n d Hpos) His) as His'.
    pose proof (pow2_pos e Hpos).
    apply binary64_round_val; [nia | lia | lia | | exact Hrep].
    rewrite <- His'. ring.
  - pose proof (proj1 (dy_is_neg_exp m e n d ltac:(lia)) His) as His'.
    pose proof (pow2_pos (- e) ltac:(lia)) as HP.
    assert (Hm' : 10 ^ k * m = q * 2 ^ (- e)).
    { apply (Z.mul_reg_r _ _ d); [lia|].
      replace (10 ^ k * m * d) with (10 ^ k * (m * d)) by ring.
      rewrite His'.
      replace (10 ^ k * (n * 2 ^ (- e))) with (10 ^ k * n * 2 ^ (- e)) by ring.
      rewrite Hq. ring. }
    rewrite Hm', round_half_even_exact by lia.
    apply binary64_round_val; [lia | lia | lia | | exact Hrep].
    rewrite <- Hq. ring.
Qed.

(** X3.  When [psutil.cpu_percent] returns or raises an ordinary
    exception, [_cpu_usage] returns an integer, a float or the sentinel:
    an integer reading as it came, a float reading rounded to one decimal
    (so that a reading with at most one decimal, 12.5 say, keeps its
    value), and the sentinel for any other answer and for a failed call. *)
Theorem cpu_usage_number_or_sentinel (os : env) :
  ordinary (psutil_cpu_percent os) = true ->
  ∃ v, _cpu_usage os = Ok v
       ∧ number_or_unknown v = true
       ∧ (∀ z, psutil_cpu_percent os = Ok (VInt z) -> v = VInt z)
       ∧ (∀ f, psutil_cpu_percent os = Ok (VFloat f) -> v = VFloat (round_float f 1))
       ∧ (∀ f neg n d q,
            psutil_cpu_percent os = Ok (VFloat f) ->
            0 < d -> fval f neg n d -> 10 * n = q * d ->
            n = 0 ∨ representable n d ->
            ∃ g, v = VFloat g ∧ fval g neg n d)
       ∧ (∀ x, psutil_cpu_percent os = Ok x -> isinstance_int_float x = false ->
            v = VStr UNKNOWN)
       ∧ (fails (psutil_cpu_percent os) = true -> v = VStr UNKNOWN).
Proof.
  intros Hord. unfold _cpu_usage.
  rewrite (safe_call_ordinary (psutil_cpu_percent os) VNone Hord).
  cbn [mbind result_bind].
  destruct (psutil_cpu_percent os) as [x|e]; cbn [fails].
  - destruct x as [|b|z|f|s|l|d|t a];
      cbn [isinstance_int_float py_round];
      (eexists; split; [reflexivity|]); (split; [reflexivity|]);
      (split; [intros ? [= <-]; reflexivity || discriminate|]);
      (split; [intros ? [= <-]; reflexivity || discriminate|]);
      (split; [|split; [intros ? [= <-]; reflexivity || discriminate | discriminate]]);
      try (intros ? ? ? ? ? [= <-]; fail).
    intros f' neg n d' q [= <-] Hd Hv Hq Hrep.
    exists (round_float f 1). split; [reflexivity|].
    apply (round_float_on_grid f neg n d' 1 q); try assumption; lia.
  - exists (VStr UNKNOWN). cbn [isinstance_int_float].
    repeat split; discriminate.
Qed.

Lemma cpu_usage_number_or_sentinel_witness :
  ∃ g, _cpu_usage (env_linux (Raise OSError) (Raise OSError) (Raise OSError))
       = Ok (VFloat g)
       ∧ fval g false 3 1.
Proof.
  destruct (cpu_usage_number_or_sentinel
              (env_linux (Raise OSError) (Raise OSError) (Raise OSError)) eq_refl)
    as (v & H1 & _ & _ & _ & H2 & _).
  destruct (H2 (float_lit 3) false 3 1 30 eq_refl ltac:(lia)
              (float_lit_val 3 ltac:(lia)) eq_refl) as (g & -> & Hg).
  - right. exists 3, 0. split; [lia|]. split; [lia|]. reflexivity.
  - exists g. split; assumption.
Defined.

(* ================================================================== *)
(** * providers.py: the frequency record                               *)
(* ================================================================== *)

Lemma freq_field_inv (freq : value) (name : string) (x : value) :
  freq_field freq name = Ok x ->
  freq_reading (getattr freq name) x ∧ number_or_unknown x = true.
Proof.
  unfold freq_field, freq_reading.
  destruct (getattr freq name) as [a|e]; cbn [mbind result_bind]; [|discriminate].
  destruct a; cbn [py_round]; intros [= <-]; split; reflexivity.
Qed.

Lemma fails_inv {A} (r : result A) :
  fails r = true -> ∃ e, r = Raise e ∧ is_Exception e = true.
Proof. destruct r as [a|e]; [discriminate|]. intros H. now exists e. Qed.

Lemma safe_call_fails {A} (r : result A) (default : A) :
  fails r = true -> safe_call (fun _ => r) default = Ok default.
Proof.
  intros (e & -> & He)%fails_inv. unfold safe_call, try_except. now rewrite He.
Qed.

Lemma safe_call_inv {A} (r : result A) (default a : A) :
  safe_call (fun _ => r) default = Ok a ->
  r = Ok a ∨ (fails r = true ∧ a = default).
Proof.
  unfold safe_call, try_except. destruct r as [x|e]; [now left|].
  cbn [fails]. destruct (is_Exception e); [|discriminate].
  intros [= <-]. now right.
Qed.

Lemma cpu_count_inv (os : env) (logical : bool) (v : value) :
  _cpu_count os logical = Ok v -> int_or_unknown v = true.
Proof.
  unfold _cpu_count. intros H. split_bind H as x Hx.
  destruct (isinstance_int x) eqn:Hi; injection H as <-; [now destruct x | reflexivity].
Qed.

Lemma cpu_usage_inv (os : env) (v : value) :
  _cpu_usage os = Ok v -> number_or_unknown v = true.
Proof.
  unfold _cpu_usage. intros H. split_bind H as x Hx.
  destruct x; cbn [isinstance_int_float py_round] in H; now injection H as <-.
Qed.

Lemma cpu_frequency_inv (os : env) (v : value) :
  _cpu_frequency os = Ok v ->
  ∃ c mn mx,
    v = VDict [("current", c); ("min", mn); ("max", mx)]
    ∧ number_or_unknown c = true ∧ number_or_unknown mn = true
    ∧ number_or_unknown mx = true
    ∧ (∀ freq, psutil_cpu_freq os = Ok freq -> truth freq = true ->
         freq_reading (getattr freq "current") c
         ∧ freq_reading (getattr freq "min") mn
         ∧ freq_reading (getattr freq "max") mx).
Proof.
  unfold _cpu_frequency. intros H. split_bind H as freq Hfreq.
  apply safe_call_inv in Hfreq as [Hfreq | [Hfail ->]].
  - destruct (truth freq) eqn:Ht; cbn [negb] in H.
    + split_bind H as c Hc. split_bind H as mn Hmn.
      split_bind H as mx Hmx. injection H as <-.
      apply freq_field_inv in Hc as [Hc1 Hc2].
      apply freq_field_inv in Hmn as [Hmn1 Hmn2].
      apply freq_field_inv in Hmx as [Hmx1 Hmx2].
      exists c, mn, mx. do 4 (split; [assumption || reflexivity|]).
      intros freq' Hf' _. rewrite Hfreq in Hf'. injection Hf' as <-. auto.
    + injection H as <-. eexists _, _, _. do 4 (split; [reflexivity|]).
      intros freq' Hf' Ht'. rewrite Hfreq in Hf'. injection Hf' as <-. congruence.
  - cbn [truth negb] in H. injection H as <-.
    eexists _, _, _. do 4 (split; [reflexivity|]).
    intros freq' Hf' _. rewrite Hf' in Hfail. discriminate Hfail.
Qed.

(** X4.  [_cpu_frequency] answers with the record of three sentinels when
    [psutil.cpu_freq] fails or returns nothing (a false value).  Whatever
    it returns is a record with exactly the keys current, min and max, each
    an integer, a float or the sentinel; with a true probe answer, each
    field is made from its own attribute alone: the sentinel for [None],
    the integer itself, the float rounded to two decimals. *)
Theorem cpu_frequency_contract (os : env) :
  (fails (psutil_cpu_freq os) = true ->
     _cpu_frequency os
     = Ok (VDict [("current", VStr UNKNOWN); ("min", VStr UNKNOWN);
                  ("max", VStr UNKNOWN)]))
  ∧ (∀ freq, psutil_cpu_freq os = Ok freq -> truth freq = false ->
       _cpu_frequency os
       = Ok (VDict [("current", VStr UNKNOWN); ("min", VStr UNKNOWN);
                    ("max", VStr UNKNOWN)]))
  ∧ (∀ v, _cpu_frequency os = Ok v ->
       ∃ c mn mx,
         v = VDict [("current", c); ("min", mn); ("max", mx)]
         ∧ number_or_unknown c = true ∧ number_or_unknown mn = true
         ∧ number_or_unknown mx = true
         ∧ (∀ freq, psutil_cpu_freq os = Ok freq -> truth freq = true ->
              freq_reading (getattr freq "current") c
              ∧ freq_reading (getattr freq "min") mn
              ∧ freq_reading (getattr freq "max") mx)).
Proof.
  split; [|split; [|exact (cpu_frequency_inv os)]].
  - intros Hf. unfold _cpu_frequency. now rewrite (safe_call_fails _ VNone Hf).
  - intros freq Hf Ht. unfold _cpu_frequency, safe_call. rewrite Hf.
    cbn [try_except mbind result_bind]. now rewrite Ht.
Qed.

Lemma cpu_frequency_contract_witness :
  ∃ c mn mx,
    _cpu_frequency (env_linux (Raise OSError) (Raise OSError) (Raise OSError))
    = Ok (VDict [("current", c); ("min", mn); ("max", mx)])
    ∧ c = VFloat (round_float (float_lit 2400) 2)
    ∧ mx = VStr UNKNOWN.
Proof.
  assert (∃ v, _cpu_frequency (env_linux (Raise OSError) (Raise OSError) (Raise OSError))
               = Ok v) as [v Hv] by (vm_compute; eexists; reflexivity).
  rewrite Hv.
  destruct (proj2 (proj2 (cpu_frequency_contract
              (env_linux (Raise OSError) (Raise OSError) (Raise OSError)))) v Hv)
    as (c & mn & mx & -> & _ & _ & _ & H).
  destruct (H _ eq_refl eq_refl) as (Hc & _ & Hmx).
  exists c, mn, mx. split; [reflexivity|]. split; [exact Hc | exact Hmx].
Defined.

(** X5.  The attributes of a true probe answer are read outside any
    handler: when the answer lacks one of current, min, max (as every value
    that is not such an object does), [_cpu_frequency] raises instead of
    answering with the sentinel, and so does [get_cpu_info]; when it is
    current that is missing, the error is [AttributeError]. *)
Theorem cpu_frequency_missing_attribute_raises (os : env) (freq : value) (name : string) :
  psutil_cpu_freq os = Ok freq -> truth freq = true ->
  name ∈ ["current"; "min"; "max"] -> hasattr freq name = false ->
  is_ok (_cpu_frequency os) = false
  ∧ is_ok (get_cpu_info os) = false
  ∧ (name = "current" -> _cpu_frequency os = Raise AttributeError).
Proof.
  intros Hf Ht Hname Hno.
  assert (Hget : getattr freq name = Raise AttributeError).
  { unfold hasattr in Hno. unfold getattr. destruct freq; try reflexivity.
    now destruct (assoc name attrs). }
  assert (Hfield : is_ok (freq_field freq name) = false).
  { unfold freq_field. now rewrite Hget. }
  assert (Hfreq : is_ok (_cpu_frequency os) = false).
  { unfold _cpu_frequency, safe_call. rewrite Hf. cbn [try_except mbind result_bind].
    rewrite Ht. cbn [negb].
    destruct (freq_field freq "current") as [c|e] eqn:Hc; [|reflexivity].
    destruct (freq_field freq "min") as [mn|e] eqn:Hmn; [|reflexivity].
    destruct (freq_field freq "max") as [mx|e] eqn:Hmx; [|reflexivity].
    exfalso.
    repeat (apply elem_of_cons in Hname as [-> | Hname];
            [first [rewrite Hc in Hfield | rewrite Hmn in Hfield
                   | rewrite Hmx in Hfield]; discriminate Hfield|]).
    now apply elem_of_nil in Hname. }
  split; [exact Hfreq|]. split.
  - unfold get_cpu_info.
    destruct (_cpu_brand os); [|reflexivity].
    destruct (_cpu_architecture os); [|reflexivity].
    destruct (_cpu_count os false); [|reflexivity].
    destruct (_cpu_count os true); [|reflexivity].
    cbn [mbind result_bind].
    destruct (_cpu_frequency os); [discriminate | reflexivity].
  - intros ->. unfold _cpu_frequency, safe_call. rewrite Hf.
    cbn [try_except mbind result_bind]. rewrite Ht. cbn [negb].
    unfold freq_field. now rewrite Hget.
Qed.

Lemma cpu_frequency_missing_attribute_raises_witness :
  is_ok (get_cpu_info env_odd_frequency) = false.
Proof.
  exact (proj1 (proj2 (cpu_frequency_missing_attribute_raises
           env_odd_frequency (VInt 2400) "current" eq_refl eq_refl
           ltac:(repeat constructor) eq_refl))).
Defined.

(* ================================================================== *)
(** * providers.py: the records of the two collectors                  *)
(* ================================================================== *)

Lemma cpu_features_inv (os : env) (v : value) :
  _cpu_features os = Ok v -> feature_list v.
Proof.
  unfold _cpu_features, feature_list.
  destruct (cpuinfo_exists os) as [[|]|e]; cbn [mbind result_bind negb];
    [| now intros [= <-]; left | discriminate].
  destruct (cpuinfo_read_text os) as [content|e].
  - destruct (features_match content) as [g|]; [|now intros [= <-]; left].
    rewrite features_comprehension.
    pose proof (split_ws_tokens g) as Htok.
    destruct (split_ws g) as [|t ts] eqn:Hs; intros [= <-]; [now left|].
    right. exists (t :: ts). split; [discriminate|]. split; [reflexivity | exact Htok].
  - destruct (is_Exception e); [now intros [= <-]; left | discriminate].
Qed.

Lemma observed_label_text (os : env) (key : text) (l : value) :
  observed_label os key l -> ∃ s, l = VStr s.
Proof.
  intros [-> | (entries & idx & level & size & _ & _ & _ & _ & _ & ->)]; eauto.
Qed.

Lemma get_cpu_info_inv (os : env) (v : value) :
  get_cpu_info os = Ok v ->
  ∃ brand arch pc lp cur mn mx usage feats l1 l2 l3,
    v = VDict [("brand", VStr brand);
               ("architecture", VStr arch);
               ("physical_cores", pc);
               ("logical_processors", lp);
               ("frequency_mhz", VDict [("current", cur); ("min", mn); ("max", mx)]);
               ("usage_percent", usage);
               ("features", feats);
               ("cache", VDict [("L1", VStr l1); ("L2", VStr l2); ("L3", VStr l3)])]
    ∧ _cpu_brand os = Ok brand ∧ _cpu_architecture os = Ok arch
    ∧ _cpu_count os false = Ok pc ∧ _cpu_count os true = Ok lp
    ∧ _cpu_frequency os = Ok (VDict [("current", cur); ("min", mn); ("max", mx)])
    ∧ _cpu_usage os = Ok usage ∧ _cpu_features os = Ok feats
    ∧ _cpu_cache_sizes os
      = Ok (VDict [("L1", VStr l1); ("L2", VStr l2); ("L3", VStr l3)]).
Proof.
  unfold get_cpu_info. intros H.
  split_bind H as brand Hbrand. split_bind H as arch Harch.
  split_bind H as pc Hpc. split_bind H as lp Hlp.
  split_bind H as freq Hfreq. split_bind H as usage Husage.
  split_bind H as feats Hfeats. split_bind H as cache Hcache.
  injection H as <-.
  destruct (cpu_frequency_inv os freq Hfreq) as (cur & mn & mx & -> & _).
  destruct (cpu_cache_sizes_shape os cache Hcache) as (l1 & l2 & l3 & -> & H1 & H2 & H3).
  apply observed_label_text in H1 as [s1 ->].
  apply observed_label_text in H2 as [s2 ->].
  apply observed_label_text in H3 as [s3 ->].
  exists brand, arch, pc, lp, cur, mn, mx, usage, feats, s1, s2, s3.
  repeat split; assumption.
Qed.

(** X6.  Whatever [get_cpu_info] returns is a record with exactly the keys
    brand, architecture, physical_cores, logical_processors, frequency_mhz,
    usage_percent, features and cache, in that order: brand and
    architecture are texts, the two counts are integers or the sentinel,
    frequency_mhz is a record of current, min and max, each of them and the
    usage a number or the sentinel, features is the sentinel or a non-empty
    list of whitespace-free tokens, and cache is a record of three texts
    under L1, L2 and L3. *)
Theorem get_cpu_info_shape (os : env) (v : value) :
  get_cpu_info os = Ok v ->
  ∃ brand arch pc lp cur mn mx usage feats l1 l2 l3,
    v = VDict [("brand", VStr brand);
               ("architecture", VStr arch);
               ("physical_cores", pc);
               ("logical_processors", lp);
               ("frequency_mhz", VDict [("current", cur); ("min", mn); ("max", mx)]);
               ("usage_percent", usage);
               ("features", feats);
               ("cache", VDict [("L1", VStr l1); ("L2", VStr l2); ("L3", VStr l3)])]
    ∧ int_or_unknown pc = true ∧ int_or_unknown lp = true
    ∧ number_or_unknown cur = true ∧ number_or_unknown mn = true
    ∧ number_or_unknown mx = true ∧ number_or_unknown usage = true
    ∧ feature_list feats.
Proof.
  intros H.
  destruct (get_cpu_info_inv os v H)
    as (brand & arch & pc & lp & cur & mn & mx & usage & feats & l1 & l2 & l3
        & -> & _ & _ & Hpc & Hlp & Hfreq & Husage & Hfeats & _).
  exists brand, arch, pc, lp, cur, mn, mx, usage, feats, l1, l2, l3.
  split; [reflexivity|].
  split; [exact (cpu_count_inv _ _ _ Hpc)|].
  split; [exact (cpu_count_inv _ _ _ Hlp)|].
  destruct (cpu_frequency_inv os _ Hfreq)
    as (cur' & mn' & mx' & Heq & Hcur & Hmn & Hmx & _).
  injection Heq as <- <- <-.
  do 3 (split; [assumption|]).
  split; [exact (cpu_usage_inv _ _ Husage) | exact (cpu_features_inv _ _ Hfeats)].
Qed.

Lemma get_cpu_info_shape_witness :
  ∃ brand arch pc lp cur mn mx usage feats l1 l2 l3,
    get_cpu_info (env_linux (Raise OSError) (Raise OSError) (Raise OSError))
    = Ok (VDict [("brand", VStr brand);
                 ("architecture", VStr arch);
                 ("physical_cores", pc);
                 ("logical_processors", lp);
                 ("frequency_mhz", VDict [("current", cur); ("min", mn); ("max", mx)]);
                 ("usage_percent", usage);
                 ("features", feats);
                 ("cache", VDict [("L1", VStr l1); ("L2", VStr l2); ("L3", VStr l3)])])
    ∧ feature_list feats.
Proof.
  assert (∃ v, get_cpu_info (env_linux (Raise OSError) (Raise OSError) (Raise OSError))
               = Ok v) as [v Hv] by (vm_compute; eexists; reflexivity).
  rewrite Hv.
  destruct (get_cpu_info_shape _ v Hv)
    as (brand & arch & pc & lp & cur & mn & mx & usage & feats & l1 & l2 & l3
        & -> & _ & _ & _ & _ & _ & _ & Hf).
  exists brand, arch, pc, lp, cur, mn, mx, usage, feats, l1, l2, l3.
  split; [reflexivity | exact Hf].
Defined.

Lemma str_or_resolved (field : text) (fallback : result text) (name : text) :
  str_or field (s ← fallback; str_or s (Ok UNKNOWN)) = Ok name ->
  resolved field fallback name ∧ name ≠ "".
Proof.
  unfold str_or, resolved. destruct field as [|c field]; cbn [is_empty].
  - intros H. split_bind H as s Hs. split.
    + right. split; [reflexivity|]. exists s. split; [exact Hs|].
      unfold or_unknown. destruct (is_empty s); now injection H as <-.
    + destruct s; cbn [is_empty] in H; injection H as <-; discriminate.
  - intros [= <-]. split; [left; split; [discriminate | reflexivity] | discriminate].
Qed.

Lemma resolved_str_or (field : text) (fallback : result text) (name : text) :
  resolved field fallback name ->
  str_or field (s ← fallback; str_or s (Ok UNKNOWN)) = Ok name.
Proof.
  unfold str_or, resolved.
  intros [[Hne ->] | [-> (s & -> & ->)]].
  - now destruct field.
  - cbn [is_empty mbind result_bind]. unfold or_unknown. now destruct (is_empty s).
Qed.

Lemma get_system_info_inv (os : env) (v : value) :
  get_system_info os = Ok v ->
  ∃ u name release version hostname boot a b mem tb ab th ah,
    platform_uname os = Ok u
    ∧ (resolved (u_system u) (platform_system os) name ∧ name ≠ "")
    ∧ (resolved (u_release u) (platform_release os) release ∧ release ≠ "")
    ∧ (resolved (u_version u) (platform_version os) version ∧ version ≠ "")
    ∧ safe_call (fun _ => socket_gethostname os) (VStr UNKNOWN) = Ok hostname
    ∧ safe_call (fun _ => psutil_boot_time os) VNone = Ok boot
    ∧ uptime_pair os boot = Ok (a, b)
    ∧ safe_call (fun _ => psutil_virtual_memory os) VNone = Ok mem
    ∧ memory_group mem = Ok (tb, ab, th, ah)
    ∧ v = VDict [("os", VDict [("name", VStr name);
                              ("release", VStr release);
                              ("version", VStr version)]);
                 ("hostname", hostname);
                 ("uptime_seconds", a);
                 ("uptime_human", b);
                 ("memory", VDict [("total_bytes", tb);
                                   ("available_bytes", ab);
                                   ("total_human", th);
                                   ("available_human", ah)])].
Proof.
  unfold get_system_info. intros H.
  split_bind H as uname Huname. split_bind H as os_name Hname.
  split_bind H as os_release Hrelease. split_bind H as os_version Hversion.
  split_bind H as hostname Hhost. split_bind H as boot Hboot.
  split_bind H as pair Hpair. destruct pair as [a b].
  split_bind H as mem_info Hmem. split_bind H as group Hgroup.
  destruct group as [[[tb ab] th] ah]. injection H as <-.
  exists uname, os_name, os_release, os_version, hostname, boot, a, b, mem_info,
    tb, ab, th, ah.
  split; [assumption|].
  split; [now apply str_or_resolved|].
  split; [now apply str_or_resolved|].
  split; [now apply str_or_resolved|].
  repeat split; assumption.
Qed.



(* ================================================================== *)
(** * providers.py: failing probes                                     *)
(* ================================================================== *)

Lemma cpu_brand_all_failing (os : env) (ex : bool) :
  fails (platform_processor os) = true -> cpuinfo_exists os = Ok ex ->
  fails (cpuinfo_read_text os) = true ->
  _cpu_brand os = Ok UNKNOWN.
Proof.
  intros (e & Hp & He)%fails_inv Hex (e' & Hr & He')%fails_inv.
  unfold _cpu_brand, processor_name. rewrite Hp. cbn [mbind result_bind try_except].
  rewrite He. cbn [mbind result_bind is_empty negb andb]. rewrite Hex.
  cbn [mbind result_bind]. destruct ex; [|reflexivity].
  rewrite Hr. cbn [mbind result_bind try_except]. now rewrite He'.
Qed.

Lemma cpu_features_all_failing (os : env) (ex : bool) :
  cpuinfo_exists os = Ok ex -> fails (cpuinfo_read_text os) = true ->
  _cpu_features os = Ok (VStr UNKNOWN).
Proof.
  intros Hex (e & Hr & He)%fails_inv. destruct ex.
  - exact (cpu_features_unreadable os e Hex Hr He).
  - exact (cpu_features_missing os Hex).
Qed.

(** X8.  Failures stay where they happen once the calls that stand outside
    every handler return.  When [platform.uname()] returns, the three os
    names are resolved, the two [exists()] tests answer (the cache
    directory being absent) and every other probe raises an ordinary
    exception, the snapshot is produced, all structural keys are in place,
    and every leaf but the os names is the sentinel. *)
Theorem snapshot_sentinel_record (os : env) (u : uname_result)
    (name release version : text) (ex : bool) :
  platform_uname os = Ok u ->
  resolved (u_system u) (platform_system os) name ->
  resolved (u_release u) (platform_release os) release ->
  resolved (u_version u) (platform_version os) version ->
  cpuinfo_exists os = Ok ex -> cache_dir_exists os = Ok false ->
  fails (platform_processor os) = true ->
  fails (platform_machine os) = true ->
  (∀ logical, fails (psutil_cpu_count os logical) = true) ->
  fails (psutil_cpu_freq os) = true ->
  fails (psutil_cpu_percent os) = true ->
  fails (cpuinfo_read_text os) = true ->
  fails (socket_gethostname os) = true ->
  fails (psutil_boot_time os) = true ->
  fails (psutil_virtual_memory os) = true ->
  snapshot os
  = Ok (VDict
      [("cpu", VDict
         [("brand", VStr UNKNOWN); ("architecture", VStr UNKNOWN);
          ("physical_cores", VStr UNKNOWN); ("logical_processors", VStr UNKNOWN);
          ("frequency_mhz", VDict [("current", VStr UNKNOWN); ("min", VStr UNKNOWN);
                                   ("max", VStr UNKNOWN)]);
          ("usage_percent", VStr UNKNOWN); ("features", VStr UNKNOWN);
          ("cache", VDict [("L1", VStr UNKNOWN); ("L2", VStr UNKNOWN);
                           ("L3", VStr UNKNOWN)])]);
       ("system", VDict
         [("os", VDict [("name", VStr name); ("release", VStr release);
                        ("version", VStr version)]);
          ("hostname", VStr UNKNOWN);
          ("uptime_seconds", VStr UNKNOWN); ("uptime_human", VStr UNKNOWN);
          ("memory", VDict [("total_bytes", VStr UNKNOWN);
                            ("available_bytes", VStr UNKNOWN);
                            ("total_human", VStr UNKNOWN);
                            ("available_human", VStr UNKNOWN)])])]).
Proof.
  intros Hu Hn Hr Hv Hex Hcache Hproc Hmach Hcount Hfreq Hpct Hread Hhost Hboot Hmem.
  assert (Hcpu : get_cpu_info os
    = Ok (VDict
         [("brand", VStr UNKNOWN); ("architecture", VStr UNKNOWN);
          ("physical_cores", VStr UNKNOWN); ("logical_processors", VStr UNKNOWN);
          ("frequency_mhz", VDict [("current", VStr UNKNOWN); ("min", VStr UNKNOWN);
                                   ("max", VStr UNKNOWN)]);
          ("usage_percent", VStr UNKNOWN); ("features", VStr UNKNOWN);
          ("cache", VDict [("L1", VStr UNKNOWN); ("L2", VStr UNKNOWN);
                           ("L3", VStr UNKNOWN)])])).
  { assert (Harch : _cpu_architecture os = Ok UNKNOWN).
    { apply fails_inv in Hmach as (e & Hm & He).
      unfold _cpu_architecture, safe_call. rewrite Hm.
      cbn [mbind result_bind try_except]. now rewrite He. }
    assert (Hcnt : ∀ logical, _cpu_count os logical = Ok (VStr UNKNOWN)).
    { intros logical. unfold _cpu_count.
      now rewrite (safe_call_fails _ VNone (Hcount logical)). }
    assert (Hfrq : _cpu_frequency os
                   = Ok (VDict [("current", VStr UNKNOWN); ("min", VStr UNKNOWN);
                                ("max", VStr UNKNOWN)])).
    { unfold _cpu_frequency. now rewrite (safe_call_fails _ VNone Hfreq). }
    assert (Huse : _cpu_usage os = Ok (VStr UNKNOWN)).
    { unfold _cpu_usage. now rewrite (safe_call_fails _ VNone Hpct). }
    unfold get_cpu_info.
    rewrite (cpu_brand_all_failing os ex Hproc Hex Hread), Harch, !Hcnt, Hfrq, Huse,
      (cpu_features_all_failing os ex Hex Hread),
      (cpu_cache_sizes_no_directory os Hcache).
    reflexivity. }
  assert (Hsys : get_system_info os
    = Ok (VDict
         [("os", VDict [("name", VStr name); ("release", VStr release);
                        ("version", VStr version)]);
          ("hostname", VStr UNKNOWN);
          ("uptime_seconds", VStr UNKNOWN); ("uptime_human", VStr UNKNOWN);
          ("memory", VDict [("total_bytes", VStr UNKNOWN);
                            ("available_bytes", VStr UNKNOWN);
                            ("total_human", VStr UNKNOWN);
                            ("available_human", VStr UNKNOWN)])])).
  { unfold get_system_info. rewrite Hu. cbn [mbind result_bind].
    rewrite (resolved_str_or _ _ _ Hn), (resolved_str_or _ _ _ Hr),
      (resolved_str_or _ _ _ Hv).
    cbn [mbind result_bind].
    rewrite (safe_call_fails _ (VStr UNKNOWN) Hhost), !(safe_call_fails _ VNone)
      by assumption.
    reflexivity. }
  unfold snapshot. now rewrite Hcpu, Hsys.
Qed.

Lemma snapshot_sentinel_record_witness :
  ∃ cpu, snapshot env_all_empty
         = Ok (VDict
             [("cpu", cpu);
              ("system", VDict
                [("os", VDict [("name", VStr "N/A"); ("release", VStr "N/A");
                               ("version", VStr "N/A")]);
                 ("hostname", VStr "N/A");
                 ("uptime_seconds", VStr "N/A"); ("uptime_human", VStr "N/A");
                 ("memory", VDict [("total_bytes", VStr "N/A");
                                   ("available_bytes", VStr "N/A");
                                   ("total_human", VStr "N/A");
                                   ("available_human", VStr "N/A")])])]).
Proof.
  eexists.
  refine (snapshot_sentinel_record env_all_empty
            {| u_system := ""; u_release := ""; u_version := "";
               u_machine := ""; u_processor := "" |}
            "N/A" "N/A" "N/A" false eq_refl _ _ _ eq_refl eq_refl eq_refl eq_refl
            (fun _ => eq_refl) eq_refl eq_refl eq_refl eq_refl eq_refl eq_refl);
    right; (split; [reflexivity|]); exists ""; split; reflexivity.
Defined.

(* ================================================================== *)
(** * providers.py: a brand named by the platform                      *)
(* ================================================================== *)

(** X9.  A processor name that is neither empty nor, once trimmed and
    lower-cased, one of the generic architecture names is the brand exactly
    as the platform gave it (untrimmed), whether it came from
    [platform.processor()] or, that being empty, from
    [platform.uname().processor]; the info pseudo-file is not consulted,
    so nothing about it can change or fail the answer. *)
Theorem cpu_brand_keeps_platform_name (os : env) (name : text) :
  platform_processor os = Ok name
  ∨ (platform_processor os = Ok ""
     ∧ ∃ u, platform_uname os = Ok u ∧ u_processor u = name) ->
  name ≠ "" -> lower (strip name) ∉ GENERIC_CPU_NAMES ->
  _cpu_brand os = Ok name.
Proof.
  intros Hsrc Hne Hgen. apply cpu_brand_platform_name; try assumption.
  unfold processor_name, str_or.
  destruct Hsrc as [-> | [-> (u & -> & <-)]]; cbn [mbind result_bind].
  - now destruct name.
  - reflexivity.
Qed.

Lemma cpu_brand_keeps_platform_name_witness :
  _cpu_brand (env_processor (Ok " Example CPU X9 ")) = Ok " Example CPU X9 ".
Proof.
  apply (cpu_brand_keeps_platform_name
           (env_processor (Ok " Example CPU X9 ")) " Example CPU X9 ").
  - left. reflexivity.
  - discriminate.
  - vm_compute. intros H.
    repeat (apply elem_of_cons in H as [H|H]; [discriminate H|]).
    now apply elem_of_nil in H.
Defined.

(* ================================================================== *)
(** * providers.py: the memory fields                                  *)
(* ================================================================== *)

(** X10.  In every record [get_system_info] returns, the four memory
    fields are the sentinel together, or the two byte fields are the
    [total] and [available] attributes of what [psutil.virtual_memory()]
    returned and the two human fields are [format_bytes] of them. *)
Theorem memory_fields_set_together (os : env) (v : value) :
  get_system_info os = Ok v ->
  ∃ items tb ab th ah,
    v = VDict items
    ∧ assoc "memory" items
      = Some (VDict [("total_bytes", tb); ("available_bytes", ab);
                     ("total_human", th); ("available_human", ah)])
    ∧ ((tb = VStr UNKNOWN ∧ ab = VStr UNKNOWN ∧ th = VStr UNKNOWN
        ∧ ah = VStr UNKNOWN)
       ∨ (∃ mem, psutil_virtual_memory os = Ok mem ∧ truth mem = true
                 ∧ getattr mem "total" = Ok tb ∧ getattr mem "available" = Ok ab
                 ∧ format_bytes tb = Ok th ∧ format_bytes ab = Ok ah)).
Proof.
  intros Hv.
  destruct (get_system_info_inv os v Hv)
    as (u & name & release & version & hostname & boot & a & b & mem
        & tb & ab & th & ah & _ & _ & _ & _ & _ & _ & _ & Hmem & Hgroup & ->).
  eexists _, tb, ab, th, ah. split; [reflexivity|]. split; [reflexivity|].
  unfold memory_group in Hgroup.
  destruct (truth mem) eqn:Ht; cbn [andb] in Hgroup.
  - destruct (hasattr mem "total").
    + right. split_bind Hgroup as tb' Htb. split_bind Hgroup as ab' Hab.
      split_bind Hgroup as th' Hth. split_bind Hgroup as ah' Hah.
      injection Hgroup as <- <- <- <-.
      exists mem. apply safe_call_inv in Hmem as [Hmem | [_ ->]];
        [|discriminate Ht].
      repeat split; assumption.
    + injection Hgroup as <- <- <- <-. left. auto.
  - injection Hgroup as <- <- <- <-. left. auto.
Qed.

Lemma memory_fields_set_together_witness :
  ∃ items tb ab th ah,
    get_system_info (env_linux (Raise OSError) (Raise OSError) (Ok mem_both))
    = Ok (VDict items)
    ∧ assoc "memory" items
      = Some (VDict [("total_bytes", tb); ("available_bytes", ab);
                     ("total_human", th); ("available_human", ah)])
    ∧ format_bytes tb = Ok th ∧ format_bytes ab = Ok ah.
Proof.
  assert (∃ v, get_system_info (env_linux (Raise OSError) (Raise OSError) (Ok mem_both))
               = Ok v) as [v Hv] by (vm_compute; eexists; reflexivity).
  rewrite Hv.
  destruct (memory_fields_set_together _ v Hv)
    as (items & tb & ab & th & ah & -> & Hm & Hcase).
  exists items, tb, ab, th, ah. split; [reflexivity|]. split; [exact Hm|].
  destruct Hcase as [(-> & -> & -> & ->) | (mem & _ & _ & _ & _ & H1 & H2)].
  - split; reflexivity.
  - split; assumption.
Defined.

(* ================================================================== *)
(** * providers.py: the cache record and the order of enumeration      *)
(* ================================================================== *)

Lemma first_largest_elem (key : text) (cands : list (text * Z * text))
    (b : Z) (t : text) :
  first_largest key cands b t -> (key, b, t) ∈ cands.
Proof.
  intros (pre & post & -> & _). apply elem_of_app. right. apply list_elem_of_here.
Qed.

(** The label at a level depends on the set of candidates only, as long as
    candidates of equal byte counts at that level carry the same text. *)
Lemma level_label_unique (key : text) (cands cands' : list (text * Z * text))
    (l l' : value) :
  (∀ c, c ∈ cands <-> c ∈ cands') ->
  (∀ b t t', (key, b, t) ∈ cands -> (key, b, t') ∈ cands -> t = t') ->
  level_label key cands l -> level_label key cands' l' -> l = l'.
Proof.
  intros Hsame Htie [[Hno ->] | (b & t & Hfl & ->)] [[Hno' ->] | (b' & t' & Hfl' & ->)].
  - reflexivity.
  - exfalso. apply (Hno b' t'), Hsame. now apply first_largest_elem.
  - exfalso. apply (Hno' b t), Hsame. now apply first_largest_elem.
  - pose proof (first_largest_elem _ _ _ _ Hfl) as Hin.
    pose proof (first_largest_elem _ _ _ _ Hfl') as Hin'.
    apply Hsame in Hin' as Hin2. apply Hsame in Hin as Hin3.
    pose proof (first_largest_bound _ _ _ _ _ _ Hfl Hin2).
    pose proof (first_largest_bound _ _ _ _ _ _ Hfl' Hin3).
    assert (b' = b) as -> by lia.
    f_equal. exact (Htie b t t' Hin Hin2).
Qed.

(** X11.  The cache record does not depend on the order in which the
    directory is enumerated, nor on an entry being enumerated twice: two
    enumerations of the same entries give the same record, provided no scan
    raises and entries of one level with equal byte counts carry the same
    size text. *)
Theorem cpu_cache_sizes_order_independent (os os' : env)
    (entries entries' : list cache_index) :
  cache_dir_exists os = Ok true -> cache_dir_exists os' = Ok true ->
  cache_dir_glob os = Ok entries -> cache_dir_glob os' = Ok entries' ->
  (∀ idx, idx ∈ entries <-> idx ∈ entries') ->
  (∀ idx, idx ∈ entries -> is_ok (scan_index idx) = true) ->
  (∀ idx idx' key b t t',
     idx ∈ entries -> idx' ∈ entries ->
     scan_index idx = Ok (Some (key, b, t)) ->
     scan_index idx' = Ok (Some (key, b, t')) -> t = t') ->
  _cpu_cache_sizes os = _cpu_cache_sizes os'.
Proof.
  intros Hex Hex' Hg Hg' Hsame Hok Htie.
  destruct (scan_all_total entries Hok) as [cs Hcs].
  destruct (scan_all_total entries') as [cs' Hcs'].
  { intros idx Hin. apply Hok. now apply Hsame. }
  destruct (cpu_cache_sizes_scanned os entries cs Hex Hg Hcs)
    as (l1 & l2 & l3 & -> & H1 & H2 & H3).
  destruct (cpu_cache_sizes_scanned os' entries' cs' Hex' Hg' Hcs')
    as (l1' & l2' & l3' & -> & H1' & H2' & H3').
  assert (Hc : ∀ c, c ∈ candidates cs <-> c ∈ candidates cs').
  { intros c. rewrite (candidates_from_entries entries cs c Hcs),
      (candidates_from_entries entries' cs' c Hcs').
    split; intros (idx & Hin & Hs); exists idx; (split; [now apply Hsame | exact Hs]). }
  assert (Ht : ∀ key b t t', (key, b, t) ∈ candidates cs ->
                             (key, b, t') ∈ candidates cs -> t = t').
  { intros key b t t' Hin Hin'.
    apply (candidates_from_entries entries cs _ Hcs) in Hin as (idx & Hi & Hs).
    apply (candidates_from_entries entries cs _ Hcs) in Hin' as (idx' & Hi' & Hs').
    exact (Htie idx idx' key b t t' Hi Hi' Hs Hs'). }
  rewrite (level_label_unique "L1" _ _ l1 l1' Hc (Ht "L1") H1 H1'),
    (level_label_unique "L2" _ _ l2 l2' Hc (Ht "L2") H2 H2'),
    (level_label_unique "L3" _ _ l3 l3' Hc (Ht "L3") H3 H3').
  reflexivity.
Qed.

Lemma cpu_cache_sizes_order_independent_witness :
  _cpu_cache_sizes (env_cache [sample_index "2" "256K"; sample_index "2" "1M";
                               sample_index "1" "32K"])
  = _cpu_cache_sizes (env_cache [sample_index "1" "32K"; sample_index "2" "1M";
                                 sample_index "2" "256K"; sample_index "2" "1M"]).
Proof.
  apply (cpu_cache_sizes_order_independent _ _
           [sample_index "2" "256K"; sample_index "2" "1M"; sample_index "1" "32K"]
           [sample_index "1" "32K"; sample_index "2" "1M";
            sample_index "2" "256K"; sample_index "2" "1M"]);
    try reflexivity.
  - intros idx. rewrite !elem_of_cons, !elem_of_nil. tauto.
  - intros idx Hin.
    repeat (apply elem_of_cons in Hin as [-> | Hin]; [vm_compute; reflexivity|]).
    now apply elem_of_nil in Hin.
  - intros idx idx' key b t t' Hin Hin'.
    repeat (apply elem_of_cons in Hin as [-> | Hin];
            [repeat (apply elem_of_cons in Hin' as [-> | Hin'];
                     [vm_compute; congruence|]);
             now apply elem_of_nil in Hin'|]).
    now apply elem_of_nil in Hin.
Defined.

(* ================================================================== *)
(** * providers.py: what _parse_cache_size accepts                     *)
(* ================================================================== *)

Lemma span_digits_inv (s ds r : text) :
  span_digits s = (ds, r) ->
  s = ds ++ r ∧ all_digits ds = true ∧ head_is is_digit r = false.
Proof.
  revert ds r. induction s as [|c s IH]; intros ds r.
  - cbn [span_digits]. intros [= <- <-]. repeat split.
  - cbn [span_digits]. destruct (is_digit c) eqn:Hc.
    + destruct (span_digits s) as [ds' r'] eqn:Hs. intros [= <- <-].
      destruct (IH ds' r' eq_refl) as (-> & Hd & Hr).
      rewrite str_app_cons. cbn [all_digits]. rewrite Hc. repeat split; assumption.
    + intros [= <- <-]. rewrite str_app_nil_l. cbn [all_digits head_is].
      repeat split. exact Hc.
Qed.

Lemma re_match_size_inv (t ds : text) (fs : option text) (u : char) :
  re_match_size t = Some (ds, fs, u) ->
  t = size_text ds fs u
  ∧ all_digits ds = true ∧ is_empty ds = false
  ∧ (∀ f, fs = Some f -> all_digits f = true ∧ is_empty f = false)
  ∧ is_unit u = true.
Proof.
  unfold re_match_size, size_text.
  destruct (span_digits t) as [ds' r1] eqn:H1.
  apply span_digits_inv in H1 as (-> & Hd & _).
  destruct (is_empty ds') eqn:He; [discriminate|].
  destruct r1 as [|c r2]; [discriminate|].
  destruct (bool_decide (c = chr ".")) eqn:Hdot.
  - apply bool_decide_eq_true in Hdot as ->.
    destruct (span_digits r2) as [fs' r3] eqn:H2.
    apply span_digits_inv in H2 as (-> & Hf & _).
    destruct (is_empty fs') eqn:Hef; [discriminate|].
    destruct r3 as [|u' [|? ?]]; try discriminate.
    destruct (is_unit u') eqn:Hu; [|discriminate].
    intros [= <- <- <-].
    split; [reflexivity|]. split; [assumption|]. split; [assumption|].
    split; [|assumption]. intros f [= <-]. split; assumption.
  - destruct (is_unit c) eqn:Hu; cbn [andb]; [|discriminate].
    destruct r2 as [|? ?]; cbn [is_empty]; [|discriminate].
    intros [= <- <- <-]. rewrite str_app_nil_l.
    split; [reflexivity|]. split; [assumption|]. split; [assumption|].
    split; [discriminate | assumption].
Qed.


(** Rounding keeps the sign it is given and a non-negative mantissa. *)
Lemma binary64_round_sign (neg : bool) (n d : Z) :
  0 <= n -> 0 < d ->
  binary64_round neg n d = FInf neg
  ∨ ∃ m e, binary64_round neg n d = FFin neg m e ∧ 0 <= m.
Proof.
  intros Hn Hd. unfold binary64_round.
  destruct (n =? 0); [right; exists 0, 0; split; [reflexivity | lia]|].
  set (e := Z.max (floor_log2_rat n d - 52) (-1074)).
  set (m := if 0 <=? e then round_half_even n (d * 2 ^ e)
            else round_half_even (n * 2 ^ (- e)) d).
  assert (Hm : 0 <= m).
  { subst m. destruct (Z.leb_spec 0 e).
    - pose proof (pow2_pos e ltac:(lia)). apply round_half_even_nonneg; nia.
    - pose proof (pow2_pos (- e) ltac:(lia)). apply round_half_even_nonneg; nia. }
  destruct (dy_cmp m e 1 1024); [now left | right | now left].
  now exists m, e.
Qed.

Lemma int_of_float_nonneg (m e z : Z) :
  0 <= m -> int_of_float (FFin false m e) = Ok z -> 0 <= z.
Proof.
  intros Hm. cbn [int_of_float signed]. intros [= <-].
  destruct (Z.leb_spec 0 e).
  - pose proof (pow2_pos e ltac:(lia)). nia.
  - pose proof (pow2_pos (- e) ltac:(lia)). apply Z.div_pos; lia.
Qed.

Lemma unit_multiplier_pos (u : char) : 0 < unit_multiplier u.
Proof. unfold unit_multiplier. repeat case_bool_decide; lia. Qed.

Lemma parse_cache_size_nonneg (text : text) (b : Z) :
  _parse_cache_size text = Ok (Some b) -> 0 <= b.
Proof.
  unfold _parse_cache_size.
  destruct (re_match_size (strip text)) as [[[ds fs] u]|]; [|discriminate].
  intros H. split_bind H as m Hm. split_bind H as bytes Hb. injection H as <-.
  assert (Hval : float_of_decimal ds fs = FInf false
                 ∨ ∃ m1 e1, float_of_decimal ds fs = FFin false m1 e1 ∧ 0 <= m1).
  { unfold float_of_decimal. destruct fs as [f|].
    - apply binary64_round_sign.
      + apply digits_value_nonneg, digits_value_nonneg. lia.
      + apply Z.pow_pos_nonneg; lia.
    - apply binary64_round_sign; [apply digits_value_nonneg|]; lia. }
  assert (Hmul : ∃ m2 e2, m = FFin false m2 e2 ∧ 0 <= m2).
  { pose proof (unit_multiplier_pos (upper_char u)) as Hp.
    unfold float_of_Z in Hm.
    destruct (Z.ltb_spec (unit_multiplier (upper_char u)) 0) as [|_]; [lia|].
    destruct (binary64_round_sign false (Z.abs (unit_multiplier (upper_char u))) 1
                ltac:(lia) ltac:(lia)) as [Hi | (m2 & e2 & Hf & Hm2)].
    - rewrite Hi in Hm. discriminate Hm.
    - rewrite Hf in Hm. injection Hm as <-. now exists m2, e2. }
  destruct Hmul as (m2 & e2 & -> & Hm2).
  destruct Hval as [Hv | (m1 & e1 & Hv & Hm1)]; rewrite Hv in Hb.
  - cbn [fmul] in Hb. destruct (m2 =? 0); discriminate Hb.
  - cbn [fmul xorb] in Hb. unfold round_dyadic in Hb.
    assert (Hprod : 0 <= m1 * m2) by nia.
    destruct (Z.leb_spec 0 (e1 + e2)).
    + pose proof (pow2_pos (e1 + e2) ltac:(lia)).
      destruct (binary64_round_sign false (m1 * m2 * 2 ^ (e1 + e2)) 1
                  ltac:(nia) ltac:(lia)) as [Hi | (m3 & e3 & Hf & Hm3)];
        rewrite ?Hi, ?Hf in Hb; [discriminate Hb|].
      exact (int_of_float_nonneg m3 e3 bytes Hm3 Hb).
    + pose proof (pow2_pos (- (e1 + e2)) ltac:(lia)).
      destruct (binary64_round_sign false (m1 * m2) (2 ^ (- (e1 + e2)))
                  ltac:(nia) ltac:(lia)) as [Hi | (m3 & e3 & Hf & Hm3)];
        rewrite ?Hi, ?Hf in Hb; [discriminate Hb|].
      exact (int_of_float_nonneg m3 e3 bytes Hm3 Hb).
Qed.

Lemma parse_cache_size_shape (text : text) (b : Z) :
  _parse_cache_size text = Ok (Some b) ->
  ∃ ds fs u,
    strip text = size_text ds fs u
    ∧ all_digits ds = true ∧ is_empty ds = false
    ∧ (∀ f, fs = Some f -> all_digits f = true ∧ is_empty f = false)
    ∧ is_unit u = true.
Proof.
  unfold _parse_cache_size.
  destruct (re_match_size (strip text)) as [[[ds fs] u]|] eqn:Hm; [|discriminate].
  intros _. exists ds, fs, u. now apply re_match_size_inv.
Qed.

Lemma all_digits_app (s t : text) :
  all_digits (s ++ t) = all_digits s && all_digits t.
Proof.
  induction s as [|c s IH]; [reflexivity|].
  rewrite str_app_cons. cbn [all_digits]. now rewrite IH, andb_assoc.
Qed.

Lemma is_unit_cases (u : char) :
  is_unit u = true ->
  u ∈ [chr "K"; chr "M"; chr "G"; chr "k"; chr "m"; chr "g"; 8490].
Proof. unfold is_unit. apply bool_decide_eq_true. Qed.

Lemma is_unit_not_digit (u : char) : is_unit u = true -> is_digit u = false.
Proof.
  intros H%is_unit_cases.
  repeat (apply elem_of_cons in H as [-> | H]; [vm_compute; reflexivity|]).
  now apply elem_of_nil in H.
Qed.

(** X12.  [_parse_cache_size] accepts nothing but a well-formed size: when
    it returns a number, the trimmed text is decimal digits, optionally a
    point and more digits, and exactly one unit character (K, M or G in
    either case, or the Kelvin sign, which the pattern takes for a k), and
    the number is not negative.  A text of digits alone, a byte count
    without unit, is turned down with [None]. *)
Theorem parse_cache_size_accepts_only :
  (∀ text b, _parse_cache_size text = Ok (Some b) ->
     0 <= b
     ∧ ∃ ds fs u,
         strip text = size_text ds fs u
         ∧ all_digits ds = true ∧ is_empty ds = false
         ∧ (∀ f, fs = Some f -> all_digits f = true ∧ is_empty f = false)
         ∧ is_unit u = true)
  ∧ (∀ text, all_digits (strip text) = true -> _parse_cache_size text = Ok None).
Proof.
  split.
  - intros text b H. split; [exact (parse_cache_size_nonneg text b H)|].
    exact (parse_cache_size_shape text b H).
  - intros text Hd. unfold _parse_cache_size.
    destruct (re_match_size (strip text)) as [[[ds fs] u]|] eqn:Hm; [|reflexivity].
    exfalso. apply re_match_size_inv in Hm as (Heq & _ & _ & _ & Hu).
    rewrite Heq in Hd. unfold size_text in Hd.
    rewrite !all_digits_app in Hd.
    apply andb_prop in Hd as [_ Hd]. apply andb_prop in Hd as [_ Hd].
    cbn [all_digits] in Hd. rewrite (is_unit_not_digit u Hu) in Hd. discriminate Hd.
Qed.

Lemma parse_cache_size_accepts_only_witness :
  (∃ ds fs u, strip " 1.5m " = size_text ds fs u ∧ is_unit u = true)
  ∧ _parse_cache_size "32768" = Ok None.
Proof.
  split.
  - destruct (proj1 parse_cache_size_accepts_only " 1.5m " 1572864
                ltac:(vm_compute; reflexivity))
      as (_ & ds & fs & u & H1 & _ & _ & _ & H2).
    now exists ds, fs, u.
  - exact (proj2 parse_cache_size_accepts_only "32768" eq_refl).
Defined.

(* ================================================================== *)
(** * utils.py: beyond the float range, and just below a unit          *)
(* ================================================================== *)

(** X13.  An integer from [2^1024] on is beyond the float range:
    [format_bytes] raises [OverflowError] on it instead of answering.
    [format_duration], which converts no integer to a float, still renders
    it while the day count can be printed, that is below [86400 * 10^4300],
    and raises [ValueError] from there on. *)
Theorem format_bytes_int_overflow (b : Z) :
  2 ^ 1024 <= b ->
  format_bytes (VInt b) = Raise OverflowError
  ∧ (b < 86400 * int_str_limit -> is_ok (format_duration (VInt b)) = true)
  ∧ (86400 * int_str_limit <= b -> format_duration (VInt b) = Raise ValueError).
Proof.
  intros Hb.
  assert (Hb0 : 0 <= b) by (pose proof (pow2_pos 1024 ltac:(lia)); lia).
  split; [|split].
  - unfold format_bytes. cbn [isinstance_int_float lt_zero negb orb].
    destruct (Z.ltb_spec b 0) as [|_]; [lia|].
    cbn [to_float]. now rewrite (float_of_Z_overflow b Hb).
  - intros Hlim. now rewrite (format_duration_int b (conj Hb0 Hlim)).
  - exact (format_duration_int_limit b).
Qed.

Lemma format_bytes_int_overflow_witness :
  format_bytes (VInt (2 ^ 1024 + 1)) = Raise OverflowError
  ∧ is_ok (format_duration (VInt (2 ^ 1024 + 1))) = true.
Proof.
  pose proof (format_bytes_int_overflow (2 ^ 1024 + 1)
                ltac:(vm_compute; discriminate)) as (H1 & H2 & _).
  split; [exact H1|]. apply H2. vm_compute. reflexivity.
Defined.

Lemma first_unit_at (n d : Z) (k : nat) :
  0 < d -> (1 <= k <= 4)%nat ->
  1024 ^ Z.of_nat k * d <= n < 1024 ^ (Z.of_nat k + 1) * d ->
  first_unit n d = Some k.
Proof.
  intros Hd Hk Hn. unfold first_unit, scaled_below_1024. cbn [find].
  change (Z.of_nat 0) with 0. change (Z.of_nat 1) with 1.
  change (Z.of_nat 2) with 2. change (Z.of_nat 3) with 3.
  change (Z.of_nat 4) with 4.
  destruct k as [|[|[|[|[|k]]]]]; try lia;
    [change (Z.of_nat 1) with 1 in Hn | change (Z.of_nat 2) with 2 in Hn
    | change (Z.of_nat 3) with 3 in Hn | change (Z.of_nat 4) with 4 in Hn];
    repeat match goal with
           | |- context [?a <? ?b] => destruct (Z.ltb_spec a b); try lia
           end; reflexivity.
Qed.

(** X14.  Just below a unit boundary the number shown reaches 1024.00: a
    byte count that needs unit KB, MB, GB or TB and lies within half a
    hundredth of the next unit is rendered as 1024.00 in the smaller unit,
    not as 1.00 in the next one (1048575 bytes read 1024.00 KB). *)
Theorem format_bytes_rounds_up_to_1024 (b : Z) (k : nat) :
  (1 <= k <= 4)%nat ->
  204799 * 1024 ^ Z.of_nat k <= 200 * b -> b < 1024 ^ (Z.of_nat k + 1) ->
  format_bytes (VInt b) = Ok (VStr ("1024.00 " ++ unit_name k)).
Proof.
  intros Hk Hlo Hhi.
  assert (HD : 0 < 1024 ^ Z.of_nat k) by apply pow_1024_pos.
  assert (Hsucc : 1024 ^ (Z.of_nat k + 1) = 1024 * 1024 ^ Z.of_nat k)
    by (rewrite Z.pow_add_r by lia; lia).
  assert (Hb : 0 <= b < 2 ^ 53).
  { split; [lia|]. apply (Z.lt_le_trans _ _ _ Hhi).
    change (2 ^ 53) with (8 * 1024 ^ 5).
    assert (1024 ^ (Z.of_nat k + 1) <= 1024 ^ 5) by (apply Z.pow_le_mono_r; lia).
    lia. }
  rewrite (format_bytes_int_small b Hb).
  rewrite (first_unit_at b 1 k); [| lia | lia | lia].
  change (default 5%nat (Some k)) with k. unfold render_bytes, fmt2_rat.
  set (D := 1024 ^ Z.of_nat k) in *.
  replace (1 * D) with D by lia.
  assert (Hr : round_half_even (100 * b) D = 102400).
  { unfold round_half_even.
    pose proof (Z.div_mod (100 * b) D ltac:(lia)) as Hdm.
    pose proof (Z.mod_pos_bound (100 * b) D HD) as Hmod.
    assert (Hq : 100 * b / D = 102399) by nia.
    rewrite Hq in *.
    destruct (Z.compare_spec (2 * ((100 * b) mod D)) D); [reflexivity | nia | reflexivity]. }
  rewrite Hr. reflexivity.
Qed.

Lemma format_bytes_rounds_up_to_1024_witness :
  format_bytes (VInt 1048575) = Ok (VStr "1024.00 KB").
Proof.
  apply (format_bytes_rounds_up_to_1024 1048575 1); [lia | | ]; vm_compute;
    (reflexivity || discriminate).
Defined.

(* ================================================================== *)
(** * utils.py: durations given as floats                              *)
(* ================================================================== *)

Lemma flt_zero_false (neg : bool) (m e : Z) :
  flt (FFin neg m e) (float_lit 0) = false -> 0 <= signed neg m.
Proof.
  change (float_lit 0) with (FFin false 0 0). cbn [flt].
  generalize (signed neg m). intros s. change (signed false 0) with 0.
  unfold dy_cmp. rewrite Z.mul_0_l.
  pose proof (pow2_pos (e - Z.min e 0) ltac:(lia)).
  destruct (Z.compare_spec (s * 2 ^ (e - Z.min e 0)) 0) as [H'|H'|H'];
    try discriminate; intros _; nia.
Qed.

(** X15.  [format_duration] truncates a float: for a float that is not
    below zero and has an integer part, it answers as for that integer
    (113.625 seconds read 00:01:53).  A float without one is not turned into
    the sentinel: not-a-number raises [ValueError] and the positive
    infinity [OverflowError]; the negative infinity is below zero and gives
    the sentinel. *)
Theorem format_duration_float :
  (∀ f z, flt f (float_lit 0) = false -> int_of_float f = Ok z ->
     0 <= z ∧ format_duration (VFloat f) = format_duration (VInt z))
  ∧ (∀ f n d, 0 < d -> fval f false n d ->
       format_duration (VFloat f) = format_duration (VInt (n / d)))
  ∧ format_duration (VFloat FNaN) = Raise ValueError
  ∧ format_duration (VFloat (FInf false)) = Raise OverflowError
  ∧ format_duration (VFloat (FInf true)) = Ok (VStr UNKNOWN).
Proof.
  assert (Hmain : ∀ f z, flt f (float_lit 0) = false -> int_of_float f = Ok z ->
            0 <= z ∧ format_duration (VFloat f) = format_duration (VInt z)).
  { intros f z Hf Hz.
    assert (Hz0 : 0 <= z).
    { destruct f as [|neg|neg m e]; try discriminate Hz.
      pose proof (flt_zero_false neg m e Hf) as Hs.
      cbn [int_of_float] in Hz. injection Hz as <-.
      destruct (Z.leb_spec 0 e).
      - pose proof (pow2_pos e ltac:(lia)). destruct neg; cbn [signed] in *; nia.
      - pose proof (pow2_pos (- e) ltac:(lia)) as HP.
        destruct neg; cbn [signed] in *.
        + pose proof (Z.div_le_upper_bound m (2 ^ (- e)) 0 HP). lia.
        + apply Z.div_pos; lia. }
    split; [exact Hz0|].
    unfold format_duration. cbn [isinstance_int_float lt_zero negb orb].
    rewrite Hf. destruct (Z.ltb_spec z 0) as [|_]; [lia|].
    cbn [to_int]. now rewrite Hz. }
  split; [exact Hmain|]. split; [|repeat split].
  intros f n d Hd Hv.
  apply Hmain; [|now apply int_of_float_val].
  pose proof Hv as (m & e & -> & Hm & His).
  pose proof (dy_is_nonneg m e n d Hd Hm His) as Hn.
  rewrite (flt_lit_val _ n d 0 Hd ltac:(lia) Hv).
  destruct (Z.ltb_spec n (0 * d)); [lia | reflexivity].
Qed.

Lemma format_duration_float_witness :
  format_duration (VFloat (FFin false 909 (-3)))
  = format_duration (VInt 113)
  ∧ format_duration (VInt 113) = Ok (VStr "00:01:53").
Proof.
  split; [|vm_compute; reflexivity].
  exact (proj2 (proj1 format_duration_float (FFin false 909 (-3)) 113
                  eq_refl eq_refl)).
Defined.

(* ================================================================== *)
(** * formatters.py: percentages                                       *)
(* ================================================================== *)

(** The format [.1f] prints the value. *)
Lemma fmt_1f_val (f : pyfloat) (neg : bool) (n d : Z) :
  0 < d -> fval f neg n d -> fmt_1f f = fmt1_rat neg n d.
Proof.
  intros Hd (m & e & -> & Hm & His). cbn [fmt_1f]. unfold fmt1_rat.
  destruct (Z.leb_spec 0 e) as [Hpos|Hneg].
  - pose proof (proj1 (dy_is_nonneg_exp m e n d Hpos) His) as His'.
    rewrite (round_half_even_rat (10 * (m * 2 ^ e)) 1 (10 * n) d); [reflexivity|lia|lia|].
    rewrite <- His'. ring.
  - pose proof (proj1 (dy_is_neg_exp m e n d ltac:(lia)) His) as His'.
    pose proof (pow2_pos (- e) ltac:(lia)).
    rewrite (round_half_even_rat (10 * m) (2 ^ (- e)) (10 * n) d); [reflexivity|lia|lia|].
    replace (10 * m * d) with (10 * (m * d)) by ring. rewrite His'. ring.
Qed.

Lemma fmt1_rat_on_grid (neg : bool) (n d q : Z) :
  0 < d -> 10 * n = q * d ->
  fmt1_rat neg n d
  = (if neg then "-" else "") ++ show_Z (q / 10) ++ "." ++ show_Z (q mod 10).
Proof.
  intros Hd Hq. unfold fmt1_rat. now rewrite Hq, round_half_even_exact.
Qed.

(** X16.  [_format_percent] renders a number with one digit after the
    point and a percent sign: an integer below 2^53 as itself with .0, a
    boolean as 1.0% or 0.0% (not as the words [_value] has for it), a
    float whose tenfold is a whole number [q] as the digits of [q] with the
    point before the last.  An integer from 2^1024 on makes it raise
    [OverflowError]; anything that is not a number goes through [_value]. *)
Theorem format_percent_contract (repr_float : pyfloat -> text) (repr_other : value -> result text) :
  (∀ n, 0 <= n < 2 ^ 53 ->
     _format_percent repr_float repr_other (VInt n) = Ok (show_Z n ++ ".0%"))
  ∧ (∀ b : bool,
       _format_percent repr_float repr_other (VBool b) = Ok (if b then "1.0%" else "0.0%"))
  ∧ (∀ f neg n d q, 0 < d -> fval f neg n d -> 10 * n = q * d ->
       _format_percent repr_float repr_other (VFloat f)
       = Ok ((if neg then "-" else "") ++ show_Z (q / 10) ++ "."
             ++ show_Z (q mod 10) ++ "%"))
  ∧ (∀ n, 2 ^ 1024 <= n -> _format_percent repr_float repr_other (VInt n) = Raise OverflowError)
  ∧ (∀ v, isinstance_int_float v = false ->
       _format_percent repr_float repr_other v = _value repr_float repr_other v).
Proof.
  split; [|split; [|split; [|split]]].
  - intros n Hn. unfold _format_percent. cbn [isinstance_int_float to_float].
    destruct (float_of_Z_exact n Hn) as (f & -> & Hv).
    cbn [mbind result_bind].
    rewrite (fmt_1f_val f false n 1 ltac:(lia) Hv).
    rewrite (fmt1_rat_on_grid false n 1 (10 * n)) by lia.
    rewrite Z.mul_comm, Z.div_mul, Z.mod_mul by lia.
    change (show_Z 0) with (txt "0").
    rewrite str_app_nil_l, !str_app_assoc. reflexivity.
  - intros []; vm_compute; reflexivity.
  - intros f neg n d q Hd Hv Hq. unfold _format_percent.
    cbn [isinstance_int_float to_float mbind result_bind].
    rewrite (fmt_1f_val f neg n d Hd Hv), (fmt1_rat_on_grid neg n d q Hd Hq).
    now rewrite !str_app_assoc.
  - intros n Hn. unfold _format_percent. cbn [isinstance_int_float to_float].
    now rewrite (float_of_Z_overflow n Hn).
  - intros v Hv. unfold _format_percent. now rewrite Hv.
Qed.

Lemma format_percent_contract_witness :
  _format_percent (fun _ => "?") (fun _ => Ok "?") (VInt 37) = Ok "37.0%"
  ∧ _format_percent (fun _ => "?") (fun _ => Ok "?") (VFloat (FFin false 25 (-1))) = Ok "12.5%"
  ∧ _format_percent (fun _ => "?") (fun _ => Ok "?") (VStr "N/A") = Ok "N/A".
Proof.
  split; [|split].
  - exact (proj1 (format_percent_contract (fun _ => "?") (fun _ => Ok "?")) 37 ltac:(lia)).
  - refine (proj1 (proj2 (proj2 (format_percent_contract (fun _ => "?") (fun _ => Ok "?"))))
              (FFin false 25 (-1)) false 25 2 125 ltac:(lia) _ eq_refl).
    exists 25, (-1). repeat split. lia.
  - exact (proj2 (proj2 (proj2 (proj2 (format_percent_contract (fun _ => "?") (fun _ => Ok "?")))))
             (VStr "N/A") eq_refl).
Defined.

(* ================================================================== *)
(** * formatters.py: lists                                             *)
(* ================================================================== *)

Lemma str_items_strings (ts : list text) : str_items (VStr <$> ts) = Ok ts.
Proof.
  induction ts as [|t ts IH]; [reflexivity|].
  rewrite fmap_cons. cbn [str_items]. now rewrite IH.
Qed.

Lemma join_cons (sep t : text) (ts : list text) :
  join sep (t :: ts) = match ts with [] => t | _ => t ++ sep ++ join sep ts end.
Proof. now destruct ts. Qed.

Lemma join_nonempty (sep t : text) (ts : list text) :
  is_empty t = false -> is_empty (join sep (t :: ts)) = false.
Proof.
  intros Ht. rewrite join_cons. destruct ts; [exact Ht | now apply is_empty_app].
Qed.

Lemma split_comma_cons (c : char) (s' : text) :
  split_comma ((c :: s'))
  = match s' with
    | [] => [[c]]
    | (c' :: s'') =>
        if bool_decide (c = chr ",") && bool_decide (c' = chr " ")
        then [] :: split_comma s''
        else
          match split_comma s' with
          | t :: ts => (c :: t) :: ts
          | [] => [[c]]
          end
    end.
Proof. reflexivity. Qed.

Lemma split_comma_token (t : text) : no_space t = true -> split_comma t = [t].
Proof.
  induction t as [|c t IH]; [reflexivity|].
  cbn [no_space]. intros [Hc Ht]%andb_prop. rewrite split_comma_cons.
  destruct t as [|c' t']; [reflexivity|].
  assert (Hc' : bool_decide (c' = chr " ") = false).
  { apply bool_decide_eq_false. intros ->. cbn [no_space] in Ht.
    now apply andb_prop in Ht as [Ht _]. }
  rewrite Hc', andb_false_r. now rewrite (IH Ht).
Qed.

Lemma split_comma_app (t rest : text) :
  no_space t = true ->
  split_comma (t ++ ", " ++ rest) = t :: split_comma rest.
Proof.
  induction t as [|c t IH].
  - intros _. rewrite str_app_nil_l. reflexivity.
  - cbn [no_space]. intros [Hc Ht]%andb_prop.
    rewrite str_app_cons, split_comma_cons.
    destruct t as [|c' t'].
    + rewrite str_app_nil_l. change (", " ++ rest) with ((chr "," :: ((chr " " :: rest)))).
      cbv beta iota. rewrite (bool_decide_false (chr "," = chr " ")) by discriminate.
      rewrite andb_false_r.
      change ((chr "," :: ((chr " " :: rest)))) with ([] ++ ", " ++ rest).
      now rewrite (IH eq_refl).
    + rewrite str_app_cons.
      assert (Hc' : bool_decide (c' = chr " ") = false).
      { apply bool_decide_eq_false. intros ->. cbn [no_space] in Ht.
        now apply andb_prop in Ht as [Ht _]. }
      rewrite Hc', andb_false_r. rewrite <- str_app_cons. now rewrite (IH Ht).
Qed.

(** Joining whitespace-free tokens and splitting again gives them back. *)
Lemma split_comma_join (ts : list text) :
  ts ≠ [] -> Forall (fun t => no_space t = true) ts ->
  split_comma (join ", " ts) = ts.
Proof.
  induction ts as [|t ts IH]; [now intros []|].
  intros _ Hall. inversion Hall as [|? ? Ht Hts]; subst.
  rewrite join_cons. destruct ts as [|t' ts'].
  - now apply split_comma_token.
  - rewrite (split_comma_app t _ Ht). f_equal. now apply IH.
Qed.

(** X17.  The verbose rendering of what [_cpu_features] returned never
    raises and is never empty: it is the sentinel for the sentinel, and
    the tokens joined by a comma and a blank for a list; splitting that
    text at each comma-and-blank gives the tokens back. *)
Theorem format_list_of_features (repr_float : pyfloat -> text) (repr_other : value -> result text) (os : env) (v : value) :
  _cpu_features os = Ok v ->
  ∃ s, _format_list repr_float repr_other v true = Ok s
       ∧ s ≠ ""
       ∧ (v = VStr UNKNOWN -> s = UNKNOWN)
       ∧ (∀ ts, v = VList (VStr <$> ts) -> s = join ", " ts ∧ split_comma s = ts).
Proof.
  intros Hv. destruct (cpu_features_inv os v Hv) as [-> | (ts & Hne & -> & Htok)].
  - exists UNKNOWN. split; [reflexivity|]. split; [discriminate|].
    split; [reflexivity|]. intros ts Hts. destruct ts; discriminate Hts.
  - exists (join ", " ts). split.
    + destruct ts as [|t ts']; [now destruct Hne|].
      unfold _format_list. rewrite str_items_strings. reflexivity.
    + split.
      * destruct ts as [|t ts']; [now destruct Hne|].
        inversion Htok as [|? ? [Ht _] _]; subst.
        intros Heq. pose proof (join_nonempty ", " t ts' Ht) as Hj.
        rewrite Heq in Hj. discriminate Hj.
      * split; [destruct ts; discriminate|].
        intros ts' Heq. injection Heq as Heq.
        assert (ts = ts') as <-.
        { clear -Heq. revert ts' Heq. induction ts as [|t ts IH]; intros [|t' ts'] Heq;
            try discriminate; [reflexivity|].
          rewrite !fmap_cons in Heq. injection Heq as -> Heq. f_equal. now apply IH. }
        split; [reflexivity|]. apply split_comma_join; [exact Hne|].
        eapply Forall_impl; [exact Htok|]. now intros t [_ Ht].
Qed.

Lemma format_list_of_features_witness :
  ∃ s, _format_list (fun _ => "?") (fun _ => Ok "?")
         (VList [VStr "fpu"; VStr "vme"; VStr "sse2"]) true = Ok s
       ∧ split_comma s = [txt "fpu"; txt "vme"; txt "sse2"].
Proof.
  destruct (format_list_of_features (fun _ => "?") (fun _ => Ok "?")
              (env_linux (Raise OSError) (Raise OSError) (Raise OSError))
              (VList [VStr "fpu"; VStr "vme"; VStr "sse2"])
              ltac:(vm_compute; reflexivity))
    as (s & Hs & _ & _ & Hts).
  exists s. split; [exact Hs|].
  exact (proj2 (Hts [txt "fpu"; txt "vme"; txt "sse2"] eq_refl)).
Defined.

(** X18.  The two modes of [_format_list] agree on a list of one to ten
    items (also in raising [TypeError] on an item that is not a text).  On
    a longer list the brief mode renders the first ten items as the
    verbose mode would and appends the count of the others, without
    looking at them.  On the empty list the verbose mode answers with the
    sentinel and the brief mode with the empty text. *)
Theorem format_list_brief_and_verbose (repr_float : pyfloat -> text) (repr_other : value -> result text) (items : list value) :
  ((1 <= List.length items <= 10)%nat ->
     _format_list repr_float repr_other (VList items) false = _format_list repr_float repr_other (VList items) true)
  ∧ ((10 < List.length items)%nat ->
       _format_list repr_float repr_other (VList items) false
       = (shown ← _format_list repr_float repr_other (VList (take 10 items)) true;
          Ok (shown ++ " ... (+" ++ show_Z (Z.of_nat (List.length items) - 10) ++ ")")))
  ∧ _format_list repr_float repr_other (VList []) true = Ok UNKNOWN
  ∧ _format_list repr_float repr_other (VList []) false = Ok "".
Proof.
  split; [|split; [|split; reflexivity]].
  - intros Hlen. unfold _format_list.
    destruct (Nat.leb_spec (List.length items) 10) as [_|]; [|lia].
    destruct items as [|x items]; [cbn [List.length] in Hlen; lia | reflexivity].
  - intros Hlen. unfold _format_list.
    destruct (Nat.leb_spec (List.length items) 10) as [|_]; [lia|].
    destruct items as [|x items]; [cbn [List.length] in Hlen; lia|].
    cbn [take truth]. change (Z.of_nat 10) with 10.
    destruct (str_items (x :: take 9 items)); reflexivity.
Qed.

Lemma format_list_brief_and_verbose_witness :
  _format_list (fun _ => "?") (fun _ => Ok "?")
    (VList (VStr <$> [txt "a"; txt "b"; txt "c"; txt "d"; txt "e"; txt "f"; txt "g"; txt "h"; txt "i"; txt "j"; txt "k"; txt "l"]))
    false
  = Ok "a, b, c, d, e, f, g, h, i, j ... (+2)".
Proof.
  rewrite (proj1 (proj2 (format_list_brief_and_verbose (fun _ => "?") (fun _ => Ok "?")
             (VStr <$> [txt "a"; txt "b"; txt "c"; txt "d"; txt "e"; txt "f"; txt "g"; txt "h"; txt "i"; txt "j"; txt "k"; txt "l"])))
             ltac:(apply Nat.ltb_lt; reflexivity)).
  vm_compute. reflexivity.
Defined.

(* ================================================================== *)
(** * formatters.py: the cache and frequency cells                     *)
(* ================================================================== *)

Lemma dict_get_dict (items : list (string * value)) (key : string) (default : value) :
  dict_get (VDict items) key default = Ok (from_option id default (assoc key items)).
Proof. reflexivity. Qed.

Lemma format_cache_record (repr_float : pyfloat -> text)
    (repr_other : value -> result text) (l1 l2 l3 : text) :
  _format_cache repr_float repr_other
    (VDict [("L1", VStr l1); ("L2", VStr l2); ("L3", VStr l3)])
  = Ok ("L1: " ++ l1 ++ ", L2: " ++ l2 ++ ", L3: " ++ l3).
Proof. reflexivity. Qed.

(** X19.  The cache cell of what [_cpu_cache_sizes] returned is always
    [L1: a, L2: b, L3: c], with for a, b, c the three labels of the record;
    a record without the three keys reads [L1: N/A, L2: N/A, L3: N/A], and
    on anything that is not a record the cell is what [_value] makes of it,
    an exception included. *)
Theorem format_cache_of_collected (repr_float : pyfloat -> text)
    (repr_other : value -> result text) :
  (∀ os v, _cpu_cache_sizes os = Ok v ->
     ∃ l1 l2 l3,
       v = VDict [("L1", VStr l1); ("L2", VStr l2); ("L3", VStr l3)]
       ∧ _format_cache repr_float repr_other v
         = Ok ("L1: " ++ l1 ++ ", L2: " ++ l2 ++ ", L3: " ++ l3))
  ∧ (∀ items,
       assoc "L1" items = None -> assoc "L2" items = None ->
       assoc "L3" items = None ->
       _format_cache repr_float repr_other (VDict items)
       = Ok "L1: N/A, L2: N/A, L3: N/A")
  ∧ (∀ v, isinstance_dict v = false ->
       _format_cache repr_float repr_other v = _value repr_float repr_other v).
Proof.
  split; [|split].
  - intros os v Hv.
    destruct (cpu_cache_sizes_shape os v Hv) as (l1 & l2 & l3 & -> & H1 & H2 & H3).
    apply observed_label_text in H1 as [s1 ->].
    apply observed_label_text in H2 as [s2 ->].
    apply observed_label_text in H3 as [s3 ->].
    exists s1, s2, s3. split; [reflexivity|]. apply format_cache_record.
  - intros items H1 H2 H3. unfold _format_cache.
    cbn [isinstance_dict negb mapM mbind result_bind mret result_ret].
    rewrite !dict_get_dict, H1, H2, H3. reflexivity.
  - intros v Hv. unfold _format_cache. now rewrite Hv.
Qed.

Lemma format_cache_of_collected_witness :
  ∃ l1 l2 l3,
    _cpu_cache_sizes (env_linux (Raise OSError) (Raise OSError) (Raise OSError))
    = Ok (VDict [("L1", VStr l1); ("L2", VStr l2); ("L3", VStr l3)])
    ∧ _format_cache (fun _ => "?") (fun _ => Ok "?")
        (VDict [("L1", VStr l1); ("L2", VStr l2); ("L3", VStr l3)])
      = Ok ("L1: " ++ l1 ++ ", L2: " ++ l2 ++ ", L3: " ++ l3).
Proof.
  assert (∃ v, _cpu_cache_sizes (env_linux (Raise OSError) (Raise OSError) (Raise OSError))
               = Ok v) as [v Hv] by (vm_compute; eexists; reflexivity).
  rewrite Hv.
  destruct (proj1 (format_cache_of_collected (fun _ => "?") (fun _ => Ok "?")) _ v Hv)
    as (l1 & l2 & l3 & -> & H).
  exists l1, l2, l3. split; [reflexivity | exact H].
Defined.

Lemma show_Z_not_unknown (z : Z) : show_Z z ≠ UNKNOWN.
Proof.
  unfold show_Z. destruct (Z.ltb_spec z 0) as [Hneg|Hpos]; [discriminate|].
  fold (show_Z z). intros Heq.
  pose proof (show_Z_all_digits z Hpos) as Hd.
  unfold show_Z in Hd. destruct (Z.ltb_spec z 0); [lia|].
  rewrite Heq in Hd. discriminate Hd.
Qed.

Lemma one_below_limit (b : bool) : Z.abs (if b then 1 else 0) < int_str_limit.
Proof.
  pose proof int_str_limit_pos. pose proof (pow2_pos 1024 ltac:(lia)).
  destruct b; lia.
Qed.

(** A number or the sentinel can be printed, unless it is an integer of
    more than 4300 digits. *)
Lemma value_number (repr_float : pyfloat -> text)
    (repr_other : value -> result text) (x : value) :
  number_or_unknown x = true ->
  (∀ z, x = VInt z -> Z.abs z < int_str_limit) ->
  ∃ s, _value repr_float repr_other x = Ok s.
Proof.
  destruct x as [|b|z|f|s|l|d|t a]; try discriminate; intros _ H;
    cbn [_value py_str]; [|eexists; reflexivity..].
  exists (show_Z z). apply str_int_small. now apply H.
Qed.

Lemma value_unknown_iff (repr_float : pyfloat -> text)
    (repr_other : value -> result text) (x : value) (s : text) :
  (∀ f, repr_float f ≠ UNKNOWN) -> number_or_unknown x = true ->
  _value repr_float repr_other x = Ok s ->
  s = UNKNOWN <-> x = VStr UNKNOWN.
Proof.
  intros Hrepr Hx. destruct x as [|b|z|f|t|l|d|t a]; try discriminate Hx;
    cbn [_value py_str].
  - unfold str_int. destruct (int_str_limit <=? Z.abs z); [discriminate|].
    intros [= <-]. split; [|discriminate].
    intros H. now apply show_Z_not_unknown in H.
  - intros [= <-]. split; [|discriminate]. intros H. now apply Hrepr in H.
  - intros [= <-]. split; [now intros -> | now intros [= ->]].
Qed.

Lemma format_freq_summary_record (repr_float : pyfloat -> text)
    (repr_other : value -> result text) (c mn mx : value) (sc smn smx : text) :
  _value repr_float repr_other c = Ok sc ->
  _value repr_float repr_other mn = Ok smn ->
  _value repr_float repr_other mx = Ok smx ->
  _format_freq_summary repr_float repr_other
    (VDict [("current", c); ("min", mn); ("max", mx)])
  = Ok (if str_eqb smn UNKNOWN && str_eqb smx UNKNOWN
        then sc
        else sc ++ " (мин: " ++ smn ++ ", макс: " ++ smx ++ ")").
Proof.
  intros Hc Hmn Hmx. unfold _format_freq_summary. cbn [isinstance_dict negb].
  rewrite !dict_get_dict.
  change (assoc "current" [("current", c); ("min", mn); ("max", mx)]) with (Some c).
  change (assoc "min" [("current", c); ("min", mn); ("max", mx)]) with (Some mn).
  change (assoc "max" [("current", c); ("min", mn); ("max", mx)]) with (Some mx).
  cbn [from_option id mbind result_bind]. rewrite Hc. cbn [mbind result_bind].
  rewrite Hmn. cbn [mbind result_bind]. rewrite Hmx. cbn [mbind result_bind].
  now destruct (str_eqb smn UNKNOWN && str_eqb smx UNKNOWN).
Qed.

Lemma freq_field_printable (repr_float : pyfloat -> text)
    (repr_other : value -> result text) (freq : value) (name : string) (x : value) :
  freq_field freq name = Ok x ->
  (∀ z, getattr freq name = Ok (VInt z) -> Z.abs z < int_str_limit) ->
  ∃ s, _value repr_float repr_other x = Ok s.
Proof.
  intros Hx Hsmall. destruct (freq_field_inv freq name x Hx) as [Hread Hnum].
  apply value_number; [exact Hnum|]. intros z ->.
  destruct (getattr freq name) as [[|b|z'|f|s|l|d|t a]|e];
    cbn [freq_reading] in Hread; try contradiction; try discriminate Hread.
  - injection Hread as ->. apply one_below_limit.
  - injection Hread as ->. now apply Hsmall.
Qed.

(** The three readings of a collected frequency record can be printed when
    the integers among the probe's attributes have at most 4300 digits. *)
Lemma cpu_frequency_printable (repr_float : pyfloat -> text)
    (repr_other : value -> result text) (os : env) (c mn mx : value) :
  _cpu_frequency os = Ok (VDict [("current", c); ("min", mn); ("max", mx)]) ->
  (∀ freq name z, psutil_cpu_freq os = Ok freq -> getattr freq name = Ok (VInt z) ->
     Z.abs z < int_str_limit) ->
  ∃ sc smn smx,
    _value repr_float repr_other c = Ok sc
    ∧ _value repr_float repr_other mn = Ok smn
    ∧ _value repr_float repr_other mx = Ok smx.
Proof.
  unfold _cpu_frequency. intros H Hsmall. split_bind H as freq Hfreq.
  destruct (truth freq) eqn:Htruth; cbn [negb] in H.
  - apply safe_call_inv in Hfreq as [Hfreq | [_ ->]]; [|discriminate Htruth].
    split_bind H as c' Hc. split_bind H as mn' Hmn. split_bind H as mx' Hmx.
    injection H as <- <- <-.
    destruct (freq_field_printable repr_float repr_other _ _ _ Hc
                (fun z => Hsmall freq "current" z Hfreq)) as [sc Hsc].
    destruct (freq_field_printable repr_float repr_other _ _ _ Hmn
                (fun z => Hsmall freq "min" z Hfreq)) as [smn Hsmn].
    destruct (freq_field_printable repr_float repr_other _ _ _ Hmx
                (fun z => Hsmall freq "max" z Hfreq)) as [smx Hsmx].
    now exists sc, smn, smx.
  - injection H as <- <- <-. exists UNKNOWN, UNKNOWN, UNKNOWN.
    split; [reflexivity|]. split; reflexivity.
Qed.

(** X20.  The frequency cell of what [_cpu_frequency] returned, given that
    no float reads as the sentinel text and that the integers among the
    probe's attributes have at most 4300 digits, so that each reading can
    be printed: the cell is the current reading alone exactly when both min
    and max are the sentinel, and otherwise the current reading followed by
    both in brackets.  When the probe failed, the cell is the sentinel. *)
Theorem format_freq_summary_of_collected (repr_float : pyfloat -> text)
    (repr_other : value -> result text) (os : env) :
  (∀ f, repr_float f ≠ UNKNOWN) ->
  (∀ freq name z, psutil_cpu_freq os = Ok freq -> getattr freq name = Ok (VInt z) ->
     Z.abs z < int_str_limit) ->
  (∀ v, _cpu_frequency os = Ok v ->
     ∃ c mn mx sc smn smx,
       v = VDict [("current", c); ("min", mn); ("max", mx)]
       ∧ _value repr_float repr_other c = Ok sc
       ∧ _value repr_float repr_other mn = Ok smn
       ∧ _value repr_float repr_other mx = Ok smx
       ∧ ((mn = VStr UNKNOWN ∧ mx = VStr UNKNOWN
           ∧ _format_freq_summary repr_float repr_other v = Ok sc)
          ∨ ((mn ≠ VStr UNKNOWN ∨ mx ≠ VStr UNKNOWN)
             ∧ _format_freq_summary repr_float repr_other v
               = Ok (sc ++ " (мин: " ++ smn ++ ", макс: " ++ smx ++ ")"))))
  ∧ (fails (psutil_cpu_freq os) = true ->
     ∃ v, _cpu_frequency os = Ok v
          ∧ _format_freq_summary repr_float repr_other v = Ok UNKNOWN).
Proof.
  intros Hrepr Hsmall. split.
  - intros v Hv.
    destruct (cpu_frequency_inv os v Hv) as (c & mn & mx & -> & _ & Hmn & Hmx & _).
    destruct (cpu_frequency_printable repr_float repr_other os c mn mx Hv Hsmall)
      as (sc & smn & smx & Hsc & Hsmn & Hsmx).
    exists c, mn, mx, sc, smn, smx.
    split; [reflexivity|]. split; [exact Hsc|]. split; [exact Hsmn|].
    split; [exact Hsmx|].
    rewrite (format_freq_summary_record _ _ _ _ _ _ _ _ Hsc Hsmn Hsmx).
    unfold str_eqb.
    pose proof (value_unknown_iff repr_float repr_other mn smn Hrepr Hmn Hsmn) as Imn.
    pose proof (value_unknown_iff repr_float repr_other mx smx Hrepr Hmx Hsmx) as Imx.
    destruct (bool_decide_reflect (smn = UNKNOWN)) as [E1|E1].
    + destruct (bool_decide_reflect (smx = UNKNOWN)) as [E2|E2].
      * left. split; [now apply Imn|]. split; [now apply Imx | reflexivity].
      * right. split; [|reflexivity]. right. intros H. now apply E2, Imx.
    + right. split; [|reflexivity]. left. intros H. now apply E1, Imn.
  - intros Hf. eexists. split.
    + unfold _cpu_frequency. rewrite (safe_call_fails _ VNone Hf). reflexivity.
    + reflexivity.
Qed.

Lemma format_freq_summary_of_collected_witness :
  ∃ v, _cpu_frequency env_all_failing = Ok v
       ∧ _format_freq_summary (fun _ => "?") (fun _ => Ok "?") v = Ok UNKNOWN.
Proof.
  refine (proj2 (format_freq_summary_of_collected (fun _ => "?") (fun _ => Ok "?")
                   env_all_failing _ _) eq_refl).
  - intros f. discriminate.
  - intros freq name z Hfreq. vm_compute in Hfreq. discriminate Hfreq.
Defined.

(* ================================================================== *)
(** * formatters.py: the rows of the two tables                        *)
(* ================================================================== *)

Lemma NoDup_labels (labels : list text) :
  bool_decide (NoDup labels) = true -> NoDup labels.
Proof. apply bool_decide_eq_true. Qed.

Lemma format_list_feature_list (repr_float : pyfloat -> text)
    (repr_other : value -> result text) (v : value) :
  feature_list v -> ∃ s, _format_list repr_float repr_other v true = Ok s.
Proof.
  intros [-> | (ts & Hne & -> & _)]; [eexists; reflexivity|].
  destruct ts as [|t ts']; [now destruct Hne|].
  unfold _format_list. rewrite str_items_strings. eexists. reflexivity.
Qed.

Lemma cpu_usage_source (os : env) (z : Z) :
  _cpu_usage os = Ok (VInt z) ->
  psutil_cpu_percent os = Ok (VInt z) ∨ z = 0 ∨ z = 1.
Proof.
  unfold _cpu_usage. intros H. split_bind H as x Hx.
  apply safe_call_inv in Hx as [Hx | [_ ->]]; [|discriminate H].
  destruct x as [|b|z'|f|s|l|d|t a]; cbn [isinstance_int_float py_round] in H;
    try discriminate H.
  - injection H as <-. destruct b; auto.
  - injection H as <-. now left.
Qed.

Lemma format_percent_collected (repr_float : pyfloat -> text)
    (repr_other : value -> result text) (os : env) (usage : value) :
  _cpu_usage os = Ok usage ->
  (∀ z, psutil_cpu_percent os = Ok (VInt z) -> 0 <= z < 2 ^ 53) ->
  ∃ s, _format_percent repr_float repr_other usage = Ok s.
Proof.
  intros Hu Hrange. pose proof (cpu_usage_inv os usage Hu) as Hn.
  destruct usage as [|b|z|f|s|l|d|t a]; try discriminate Hn.
  - assert (Hz : 0 <= z < 2 ^ 53).
    { destruct (cpu_usage_source os z Hu) as [H | [-> | ->]]; [now apply Hrange | |];
        split; (lia || reflexivity). }
    exists (show_Z z ++ ".0%").
    unfold _format_percent. cbn [isinstance_int_float to_float].
    destruct (float_of_Z_exact z Hz) as (f & -> & Hv).
    cbn [mbind result_bind].
    rewrite (fmt_1f_val f false z 1 ltac:(lia) Hv).
    rewrite (fmt1_rat_on_grid false z 1 (10 * z)) by lia.
    rewrite Z.mul_comm, Z.div_mul, Z.mod_mul by lia.
    change (show_Z 0) with (txt "0").
    rewrite str_app_nil_l, !str_app_assoc. reflexivity.
  - eexists. reflexivity.
  - eexists. reflexivity.
Qed.

Lemma cpu_count_printable (repr_float : pyfloat -> text)
    (repr_other : value -> result text) (os : env) (logical : bool) (v : value) :
  _cpu_count os logical = Ok v ->
  (∀ z, psutil_cpu_count os logical = Ok (VInt z) -> Z.abs z < int_str_limit) ->
  ∃ s, _value repr_float repr_other v = Ok s.
Proof.
  unfold _cpu_count. intros H Hsmall. split_bind H as x Hx.
  apply safe_call_inv in Hx as [Hx | [_ ->]].
  - destruct x as [|b|z|f|s|l|d|t a]; cbn [isinstance_int] in H;
      injection H as <-; try (eexists; reflexivity).
    exists (show_Z z). apply str_int_small. now apply Hsmall.
  - injection H as <-. eexists. reflexivity.
Qed.

(** X21.  The rows of the CPU table can be built from what [get_cpu_info]
    returned, provided the integers the probes handed back can be shown:
    a core count and a frequency attribute of at most 4300 digits, a usage
    reading below 2^53.  There are six rows in brief mode and ten in
    verbose mode, under pairwise different labels, the first two showing
    the collected brand and architecture as they are. *)
Theorem build_cpu_rows_of_collected (repr_float : pyfloat -> text)
    (repr_other : value -> result text) (os : env) (cpu : value) (verbose : bool) :
  get_cpu_info os = Ok cpu ->
  (∀ logical z, psutil_cpu_count os logical = Ok (VInt z) -> Z.abs z < int_str_limit) ->
  (∀ freq name z, psutil_cpu_freq os = Ok freq -> getattr freq name = Ok (VInt z) ->
     Z.abs z < int_str_limit) ->
  (∀ z, psutil_cpu_percent os = Ok (VInt z) -> 0 <= z < 2 ^ 53) ->
  ∃ rows brand arch,
    _build_cpu_rows repr_float repr_other cpu verbose = Ok rows
    ∧ List.length rows = (if verbose then 10 else 6)%nat
    ∧ NoDup rows.*1
    ∧ _cpu_brand os = Ok brand ∧ _cpu_architecture os = Ok arch
    ∧ rows !! 0%nat = Some (txt "Модел/Бранд", brand)
    ∧ rows !! 1%nat = Some (txt "Архитектура", arch).
Proof.
  intros Hcpu Hcount Hfreq Hrange.
  destruct (get_cpu_info_inv os cpu Hcpu)
    as (brand & arch & pc & lp & cur & mn & mx & usage & feats & l1 & l2 & l3
        & -> & Hbrand & Harch & Hpc & Hlp & Hfrq & Husage & Hfeats & _).
  destruct (cpu_count_printable repr_float repr_other os false pc Hpc (Hcount false))
    as [spc Hspc].
  destruct (cpu_count_printable repr_float repr_other os true lp Hlp (Hcount true))
    as [slp Hslp].
  destruct (cpu_frequency_printable repr_float repr_other os cur mn mx Hfrq Hfreq)
    as (sc & smn & smx & Hsc & Hsmn & Hsmx).
  pose proof (format_freq_summary_record repr_float repr_other cur mn mx sc smn smx
                Hsc Hsmn Hsmx) as Hfs.
  destruct (format_percent_collected repr_float repr_other os usage Husage Hrange)
    as [us Hus].
  destruct (format_list_feature_list repr_float repr_other feats
              (cpu_features_inv os feats Hfeats)) as [ls Hls].
  pose proof (format_cache_record repr_float repr_other l1 l2 l3) as Hcs.
  unfold _build_cpu_rows, cell. rewrite !dict_get_dict.
  repeat match goal with
         | |- context [assoc ?k ?l] =>
             let r := eval vm_compute in (assoc k l) in change (assoc k l) with r
         end.
  cbn [from_option id mbind result_bind].
  change (_value repr_float repr_other (VStr brand)) with (Ok brand).
  change (_value repr_float repr_other (VStr arch)) with (Ok arch).
  cbn [mbind result_bind].
  rewrite Hspc. cbn [mbind result_bind]. rewrite Hslp. cbn [mbind result_bind].
  rewrite Hfs. cbn [mbind result_bind]. rewrite Hus. cbn [mbind result_bind].
  destruct verbose.
  - rewrite !dict_get_dict.
    repeat match goal with
           | |- context [assoc ?k ?l] =>
               let r := eval vm_compute in (assoc k l) in change (assoc k l) with r
           end.
    cbn [from_option id mbind result_bind].
    rewrite Hsmn. cbn [mbind result_bind]. rewrite Hsmx. cbn [mbind result_bind].
    rewrite Hls. cbn [mbind result_bind]. rewrite Hcs. cbn [mbind result_bind].
    eexists _, brand, arch. split; [reflexivity|]. split; [reflexivity|].
    split; [apply NoDup_labels; vm_compute; reflexivity|].
    repeat split; assumption.
  - eexists _, brand, arch. split; [reflexivity|]. split; [reflexivity|].
    split; [apply NoDup_labels; vm_compute; reflexivity|].
    repeat split; assumption.
Qed.

Lemma build_cpu_rows_of_collected_witness :
  ∃ cpu rows,
    get_cpu_info (env_linux (Raise OSError) (Raise OSError) (Raise OSError)) = Ok cpu
    ∧ _build_cpu_rows (fun _ => "?") (fun _ => Ok "?") cpu true = Ok rows
    ∧ List.length rows = 10%nat.
Proof.
  assert (∃ v, get_cpu_info (env_linux (Raise OSError) (Raise OSError) (Raise OSError))
               = Ok v) as [cpu Hcpu] by (vm_compute; eexists; reflexivity).
  destruct (build_cpu_rows_of_collected (fun _ => "?") (fun _ => Ok "?") _ cpu true Hcpu)
    as (rows & brand & arch & H1 & H2 & _).
  - intros logical z Hz. destruct logical; vm_compute in Hz;
      injection Hz as <-; vm_compute; reflexivity.
  - intros freq name z Hfreq Hattr. vm_compute in Hfreq. injection Hfreq as <-.
    cbn [getattr assoc] in Hattr.
    repeat match type of Hattr with
           | context [bool_decide ?P] => destruct (bool_decide P); [discriminate Hattr|]
           end.
    discriminate Hattr.
  - intros z Hz. vm_compute in Hz. discriminate Hz.
  - exists cpu, rows. repeat split; assumption.
Defined.

Lemma format_bytes_text (v x : value) : format_bytes v = Ok x -> ∃ s, x = VStr s.
Proof.
  unfold format_bytes.
  destruct (negb (isinstance_int_float v) || lt_zero v); [intros [= <-]; eauto|].
  intros H. split_bind H as f Hf. injection H as <-. eauto.
Qed.

Lemma memory_group_inv (mem tb ab th ah : value) :
  memory_group mem = Ok (tb, ab, th, ah) ->
  (∃ s1 s2, th = VStr s1 ∧ ah = VStr s2)
  ∧ ((tb = VStr UNKNOWN ∧ ab = VStr UNKNOWN)
     ∨ (truth mem = true ∧ getattr mem "total" = Ok tb
        ∧ getattr mem "available" = Ok ab)).
Proof.
  unfold memory_group. destruct (truth mem); cbn [andb].
  - destruct (hasattr mem "total").
    + intros H. split_bind H as t Ht. split_bind H as a Ha.
      split_bind H as t' Ht'. split_bind H as a' Ha'. injection H as <- <- <- <-.
      apply format_bytes_text in Ht' as [s1 ->].
      apply format_bytes_text in Ha' as [s2 ->].
      split; [now exists s1, s2|]. right. now repeat split.
    + intros [= <- <- <- <-]. split; [now exists UNKNOWN, UNKNOWN|]. now left.
  - intros [= <- <- <- <-]. split; [now exists UNKNOWN, UNKNOWN|]. now left.
Qed.

Lemma uptime_pair_printable (repr_float : pyfloat -> text)
    (repr_other : value -> result text) (os : env) (boot a b : value) :
  uptime_pair os boot = Ok (a, b) ->
  (∃ s, _value repr_float repr_other a = Ok s) ∧ ∃ h, b = VStr h.
Proof.
  unfold uptime_pair. destruct (isinstance_int_float boot).
  - intros H. split_bind H as now Hnow. split_bind H as f Hf.
    split_bind H as elapsed Hel. split_bind H as human Hhuman.
    injection H as <- <-.
    pose proof (uptime_seconds_small _ _ _ Hel) as Hnn.
    pose proof (format_duration_int _ Hnn) as Hfd. cbv zeta in Hfd.
    rewrite Hfd in Hhuman. injection Hhuman as <-.
    split; [|eauto]. exists (show_Z (Z.max 0 elapsed)).
    cbn [_value py_str]. apply str_int_small.
    pose proof (fsub_int_below _ _ _ Hel). pose proof int_str_limit_pos. lia.
  - intros [= <- <-]. split; eexists; reflexivity.
Qed.

(** X22.  The rows of the system table can be built from what
    [get_system_info] returned, provided the host name probe hands back a
    text and, for the verbose rows, the memory counters are integers of at
    most 4300 digits: six rows in brief mode and nine in verbose mode,
    under pairwise different labels, the first showing the name and the
    release of the operating system with a blank between. *)
Theorem build_system_rows_of_collected (repr_float : pyfloat -> text)
    (repr_other : value -> result text) (os : env) (system : value)
    (verbose : bool) :
  get_system_info os = Ok system ->
  (∀ h, socket_gethostname os = Ok h -> ∃ s, h = VStr s) ->
  (verbose = true ->
   ∀ mem name x, psutil_virtual_memory os = Ok mem -> getattr mem name = Ok x ->
     ∃ z, x = VInt z ∧ Z.abs z < int_str_limit) ->
  ∃ rows u name release,
    _build_system_rows repr_float repr_other system verbose = Ok rows
    ∧ List.length rows = (if verbose then 9 else 6)%nat
    ∧ NoDup rows.*1
    ∧ platform_uname os = Ok u
    ∧ resolved (u_system u) (platform_system os) name
    ∧ resolved (u_release u) (platform_release os) release
    ∧ rows !! 0%nat = Some (txt "ОС", name ++ " " ++ release).
Proof.
  intros Hsys Hhost Hmem.
  destruct (get_system_info_inv os system Hsys)
    as (u & name & release & version & hostname & boot & a & b & mem
        & tb & ab & th & ah & Hu & [Hn _] & [Hr _] & _ & Hh & _ & Hup & Hm & Hg & ->).
  assert (∃ sh, hostname = VStr sh) as [sh ->].
  { apply safe_call_inv in Hh as [Hh | [_ ->]]; [now apply Hhost | eauto]. }
  destruct (uptime_pair_printable repr_float repr_other os boot a b Hup)
    as [[sa Hsa] [sb ->]].
  destruct (memory_group_inv mem tb ab th ah Hg) as [(s1 & s2 & -> & ->) Hraw].
  unfold _build_system_rows, cell. rewrite ?dict_get_dict.
  repeat match goal with
         | |- context [assoc ?k ?l] =>
             let r := eval vm_compute in (assoc k l) in change (assoc k l) with r
         end.
  cbn [from_option id mbind result_bind].
  rewrite ?dict_get_dict.
  repeat match goal with
         | |- context [assoc ?k ?l] =>
             let r := eval vm_compute in (assoc k l) in change (assoc k l) with r
         end.
  cbn [from_option id mbind result_bind py_str _value].
  destruct verbose.
  - assert (∃ stb sab, _value repr_float repr_other tb = Ok stb
                       ∧ _value repr_float repr_other ab = Ok sab)
      as (stb & sab & Hstb & Hsab).
    { destruct Hraw as [[-> ->] | (Htruth & Ht & Ha)];
        [exists UNKNOWN, UNKNOWN; split; reflexivity|].
      apply safe_call_inv in Hm as [Hm | [_ ->]]; [|discriminate Htruth].
      destruct (Hmem eq_refl mem "total" tb Hm Ht) as (zt & -> & Hzt).
      destruct (Hmem eq_refl mem "available" ab Hm Ha) as (za & -> & Hza).
      exists (show_Z zt), (show_Z za).
      split; cbn [_value py_str]; now apply str_int_small. }
    rewrite ?dict_get_dict.
    repeat match goal with
           | |- context [assoc ?k ?l] =>
               let r := eval vm_compute in (assoc k l) in change (assoc k l) with r
           end.
    cbn [from_option id mbind result_bind].
    rewrite Hsa. cbn [mbind result_bind]. rewrite Hstb. cbn [mbind result_bind].
    rewrite Hsab. cbn [mbind result_bind].
    eexists _, u, name, release. split; [reflexivity|]. split; [reflexivity|].
    split; [apply NoDup_labels; vm_compute; reflexivity|].
    repeat split; assumption.
  - eexists _, u, name, release. split; [reflexivity|]. split; [reflexivity|].
    split; [apply NoDup_labels; vm_compute; reflexivity|].
    repeat split; assumption.
Qed.

Lemma build_system_rows_of_collected_witness :
  ∃ rows,
    (∃ system,
       get_system_info (env_linux (Raise OSError) (Raise OSError) (Raise OSError))
       = Ok system
       ∧ _build_system_rows (fun _ => "?") (fun _ => Ok "?") system false = Ok rows)
    ∧ rows !! 0%nat = Some (txt "ОС", txt "Linux 6.1.0").
Proof.
  assert (∃ v, get_system_info (env_linux (Raise OSError) (Raise OSError) (Raise OSError))
               = Ok v) as [system Hsys] by (vm_compute; eexists; reflexivity).
  destruct (build_system_rows_of_collected (fun _ => "?") (fun _ => Ok "?") _ system
              false Hsys)
    as (rows & u & name & release & H1 & _ & _ & Hu & Hn & Hr & H0).
  - intros h Hh. vm_compute in Hh. injection Hh as <-. eauto.
  - discriminate.
  - exists rows. split; [exists system; split; assumption|].
    injection Hu as <-.
    destruct Hn as [[_ ->] | [Hn _]]; [|discriminate Hn].
    destruct Hr as [[_ ->] | [Hr _]]; [|discriminate Hr].
    exact H0.
Defined.

(** X23.  Verbose mode only adds rows: whenever the verbose rows of either
    table can be built, the brief rows can be built too and are the first
    six of the verbose ones. *)
Theorem verbose_rows_extend_brief_rows (repr_float : pyfloat -> text)
    (repr_other : value -> result text) :
  (∀ cpu rows, _build_cpu_rows repr_float repr_other cpu true = Ok rows ->
     _build_cpu_rows repr_float repr_other cpu false = Ok (take 6 rows))
  ∧ (∀ system rows, _build_system_rows repr_float repr_other system true = Ok rows ->
       _build_system_rows repr_float repr_other system false = Ok (take 6 rows)).
Proof.
  split.
  - intros cpu rows H. unfold _build_cpu_rows in *.
    do 8 (let x := fresh "x" in let Hx := fresh "Hx" in
          split_bind H as x Hx; rewrite Hx; cbn [mbind result_bind]).
    split_bind H as y1 H1. split_bind H as y2 H2.
    split_bind H as y3 H3. split_bind H as y4 H4.
    split_bind H as y5 H5. split_bind H as y6 H6.
    injection H as <-. reflexivity.
  - intros system rows H. unfold _build_system_rows in *.
    do 13 (let x := fresh "x" in let Hx := fresh "Hx" in
           split_bind H as x Hx; rewrite Hx; cbn [mbind result_bind]).
    split_bind H as y1 H1. split_bind H as y2 H2. split_bind H as y3 H3.
    injection H as <-. reflexivity.
Qed.

Lemma verbose_rows_extend_brief_rows_witness :
  ∃ rows, _build_cpu_rows (fun _ => "?") (fun _ => Ok "?") (VDict []) false
          = Ok (take 6 rows)
          ∧ List.length rows = 10%nat.
Proof.
  assert (∃ rows, _build_cpu_rows (fun _ => "?") (fun _ => Ok "?") (VDict []) true
                  = Ok rows
                  ∧ List.length rows = 10%nat)
    as (rows & H & Hlen) by (vm_compute; eexists; split; reflexivity).
  exists rows. split; [|exact Hlen].
  exact (proj1 (verbose_rows_extend_brief_rows (fun _ => "?") (fun _ => Ok "?"))
           (VDict []) rows H).
Defined.

(** X24.  A record that lacks the collectors' keys (the empty record that
    [format_table] puts in place of a missing part) still gives all rows:
    every cell of the CPU table is the sentinel, and so is every cell of
    the system table but the first, which joins two sentinels with a
    blank.  Anything that is not a record makes both builders raise
    [AttributeError]. *)
Theorem rows_of_missing_keys (repr_float : pyfloat -> text)
    (repr_other : value -> result text) (verbose : bool) :
  (∀ items, (∀ k, k ∈ cpu_keys -> assoc k items = None) ->
     ∃ rows, _build_cpu_rows repr_float repr_other (VDict items) verbose = Ok rows
             ∧ Forall (fun row => row.2 = UNKNOWN) rows)
  ∧ (∀ items, (∀ k, k ∈ system_keys -> assoc k items = None) ->
       ∃ rows, _build_system_rows repr_float repr_other (VDict items) verbose = Ok rows
               ∧ rows !! 0%nat = Some (txt "ОС", txt "N/A N/A")
               ∧ Forall (fun row => row.2 = UNKNOWN) (drop 1 rows))
  ∧ (∀ v, match v with VDict _ | VObj _ _ => False | _ => True end ->
       _build_cpu_rows repr_float repr_other v verbose = Raise AttributeError
       ∧ _build_system_rows repr_float repr_other v verbose = Raise AttributeError).
Proof.
  split; [|split].
  - intros items H. unfold _build_cpu_rows, cell. rewrite !dict_get_dict.
    rewrite !H by (unfold cpu_keys; repeat constructor).
    destruct verbose; (eexists; split; [reflexivity|]); repeat constructor.
  - intros items H. unfold _build_system_rows, cell. rewrite !dict_get_dict.
    rewrite !H by (unfold system_keys; repeat constructor).
    destruct verbose; (eexists; split; [reflexivity|]);
      (split; [reflexivity|]); repeat constructor.
  - intros v Hv. destruct v; try contradiction; split; reflexivity.
Qed.

Lemma rows_of_missing_keys_witness :
  ∃ rows, _build_system_rows (fun _ => "?") (fun _ => Ok "?")
            (VDict [("extra", VInt 1)]) true = Ok rows
          ∧ rows !! 0%nat = Some (txt "ОС", txt "N/A N/A").
Proof.
  destruct (proj1 (proj2 (rows_of_missing_keys (fun _ => "?") (fun _ => Ok "?") true))
              [("extra", VInt 1)]) as (rows & H1 & H2 & _).
  - intros k Hk. unfold system_keys in Hk.
    repeat (apply elem_of_cons in Hk as [-> | Hk]; [reflexivity|]).
    now apply elem_of_nil in Hk.
  - exists rows. split; assumption.
Defined.

(* ================================================================== *)
(** * main.py: waiting before exit                                     *)
(* ================================================================== *)

(** X25.  [--no-wait-exit] settles the answer at false and [--wait-exit]
    at true without anything else being looked at, so a failing
    [isatty()] cannot matter then.  With neither flag, the answer is true
    only on win32, in a frozen program started without arguments, when
    [isatty()] says so; only there is [isatty()] called at all, and only
    there can its error leave the function. *)
Theorem should_wait_before_exit_contract (a : args) (sys : sys_state) :
  (no_wait_exit a = true -> _should_wait_before_exit a sys = Ok (VBool false))
  ∧ (no_wait_exit a = false -> wait_exit a = true ->
     _should_wait_before_exit a sys = Ok (VBool true))
  ∧ (no_wait_exit a = false -> wait_exit a = false ->
     (∀ v, _should_wait_before_exit a sys = Ok v -> truth v = true ->
        sys_platform sys = "win32" ∧ truth (sys_frozen sys) = true
        ∧ List.length (sys_argv sys) = 1%nat ∧ stdout_isatty sys = Ok v)
     ∧ (∀ e, _should_wait_before_exit a sys = Raise e ->
          sys_platform sys = "win32" ∧ truth (sys_frozen sys) = true
          ∧ List.length (sys_argv sys) = 1%nat ∧ stdout_isatty sys = Raise e)
     ∧ (sys_platform sys = "win32" -> truth (sys_frozen sys) = true ->
        List.length (sys_argv sys) = 1%nat ->
        _should_wait_before_exit a sys = stdout_isatty sys)).
Proof.
  unfold _should_wait_before_exit, py_and, str_eqb.
  split; [now intros ->|]. split; [now intros -> ->|].
  intros -> ->. cbn [truth].
  destruct (bool_decide_reflect (sys_platform sys = "win32")) as [Hp|Hp].
  - destruct (truth (sys_frozen sys)) eqn:Hf.
    + destruct (Nat.eqb_spec (List.length (sys_argv sys)) 1) as [Hl|Hl].
      * repeat split; try assumption; reflexivity.
      * split; [|split]; [intros v [= <-]; discriminate | discriminate | contradiction].
    + split; [|split]; [intros v [= <-] Hv; congruence | discriminate | discriminate].
  - split; [|split]; [intros v [= <-]; discriminate | discriminate | contradiction].
Qed.

Lemma should_wait_before_exit_contract_witness :
  _should_wait_before_exit
    {| json := false; full := false; no_color := false;
       wait_exit := true; no_wait_exit := false |}
    {| sys_platform := "linux"; sys_frozen := VBool false;
       sys_argv := [txt "main.py"; txt "--wait-exit"]; stdout_isatty := Raise OSError |}
  = Ok (VBool true).
Proof.
  exact (proj1 (proj2 (should_wait_before_exit_contract
           {| json := false; full := false; no_color := false;
              wait_exit := true; no_wait_exit := false |}
           {| sys_platform := "linux"; sys_frozen := VBool false;
              sys_argv := [txt "main.py"; txt "--wait-exit"];
              stdout_isatty := Raise OSError |})) eq_refl eq_refl).
Defined.

(* ================================================================== *)
(** * providers.py: what no handler covers                             *)
(* ================================================================== *)

Lemma binary64_round_overflow (z : Z) :
  2 ^ 1024 <= z -> binary64_round false z 1 = FInf false.
Proof.
  intros Hz. pose proof (float_of_Z_overflow z Hz) as H.
  assert (Hz0 : 0 < z) by (pose proof (pow2_pos 1024 ltac:(lia)); lia).
  unfold float_of_Z in H.
  destruct (Z.ltb_spec z 0) as [|_]; [lia|]. rewrite Z.abs_eq in H by lia.
  destruct (binary64_round_sign false z 1 ltac:(lia) ltac:(lia))
    as [Hi | (m & e & Hf & _)]; [exact Hi|].
  rewrite Hf in H. discriminate H.
Qed.

Lemma parse_cache_size_overflow (ds : text) (u : char) (k : Z) :
  all_digits ds = true -> unit_char u k -> 2 ^ 1024 <= digits_value 0 ds ->
  _parse_cache_size (ds ++ [u]) = Raise OverflowError.
Proof.
  intros Hds Hu Hbig.
  assert (Hne : is_empty ds = false).
  { destruct ds; [|reflexivity]. cbn [digits_value] in Hbig.
    pose proof (pow2_pos 1024 ltac:(lia)). lia. }
  pose proof Hu as (Hu1 & Hus & Hu2 & Hu3 & Hmul & Hk).
  unfold _parse_cache_size. rewrite strip_token.
  - rewrite (re_match_size_whole ds u k Hds Hne Hu).
    cbn [float_of_decimal]. rewrite Hmul, (binary64_round_overflow _ Hbig).
    assert (Hpow : 0 < 2 ^ k < 2 ^ 53).
    { split; [apply pow2_pos; lia | apply Z.pow_lt_mono_r; lia]. }
    destruct (float_of_Z_exact (2 ^ k) ltac:(lia)) as (m & -> & (mm & ee & -> & Hmm & His)).
    cbn [mbind result_bind fmul].
    assert (mm ≠ 0).
    { intros ->. apply (dy_is_zero 0 ee (2 ^ k) 1 ltac:(lia)) in His. lia. }
    destruct (Z.eqb_spec mm 0); [contradiction | reflexivity].
  - now apply is_empty_app.
  - apply no_space_app; [now apply all_digits_no_space|].
    cbn [no_space]. now rewrite Hus.
Qed.

Lemma cache_loop_raises (entries : list cache_index) (st : cache_state)
    (idx : cache_index) :
  idx ∈ entries -> is_ok (scan_index idx) = false ->
  is_ok (cache_loop entries st) = false.
Proof.
  intros Hin Hbad. rewrite cache_loop_scan_all.
  destruct (scan_all entries) as [cs|e] eqn:Hs; [|reflexivity].
  exfalso. revert cs Hs. induction entries as [|i rest IH]; intros cs Hs.
  - now apply elem_of_nil in Hin.
  - cbn [scan_all] in Hs. split_bind Hs as c Hc. split_bind Hs as cs' Hcs'.
    apply elem_of_cons in Hin as [-> | Hin].
    + rewrite Hc in Hbad. discriminate Hbad.
    + exact (IH Hin cs' Hcs').
Qed.

(** X26.  The cache scan is not covered by a handler everywhere.  An
    error of the [exists()] test of the cache directory or of its
    enumeration leaves [_cpu_cache_sizes] as it is; so does that of an
    [exists()] test of an entry; and one entry whose scan raises makes the
    whole scan raise, whatever the other entries hold.  A size text of
    digits from 2^1024 on (with a unit) is such an entry: the float is an
    infinity and its conversion raises [OverflowError]. *)
Theorem cache_scan_errors_escape :
  (∀ os e, cache_dir_exists os = Raise e -> _cpu_cache_sizes os = Raise e)
  ∧ (∀ os e, cache_dir_exists os = Ok true -> cache_dir_glob os = Raise e ->
       _cpu_cache_sizes os = Raise e)
  ∧ (∀ idx e, level_exists idx = Raise e -> scan_index idx = Raise e)
  ∧ (∀ idx level ds u k,
       level_exists idx = Ok true -> size_exists idx = Ok true ->
       level_read_text idx = Ok level ->
       size_read_text idx = Ok (ds ++ [u]) ->
       all_digits ds = true -> unit_char u k -> 2 ^ 1024 <= digits_value 0 ds ->
       scan_index idx = Raise OverflowError)
  ∧ (∀ os entries idx,
       cache_dir_exists os = Ok true -> cache_dir_glob os = Ok entries ->
       idx ∈ entries -> is_ok (scan_index idx) = false ->
       is_ok (_cpu_cache_sizes os) = false ∧ is_ok (get_cpu_info os) = false).
Proof.
  split; [|split; [|split; [|split]]].
  - intros os e H. unfold _cpu_cache_sizes. now rewrite H.
  - intros os e H1 H2. unfold _cpu_cache_sizes. now rewrite H1, H2.
  - intros idx e H. unfold scan_index. now rewrite H.
  - intros idx level ds u k H1 H2 H3 H4 Hds Hu Hbig.
    pose proof Hu as (_ & Hus & _).
    unfold scan_index. rewrite H1, H2, H3, H4. cbn [mbind result_bind negb].
    rewrite (strip_token (ds ++ [u])).
    + now rewrite (parse_cache_size_overflow ds u k Hds Hu Hbig).
    + destruct ds; [reflexivity | reflexivity].
    + apply no_space_app; [now apply all_digits_no_space|].
      cbn [no_space]. now rewrite Hus.
  - intros os entries idx Hex Hg Hin Hbad.
    assert (Hc : is_ok (_cpu_cache_sizes os) = false).
    { unfold _cpu_cache_sizes. rewrite Hex, Hg. cbn [mbind result_bind negb].
      pose proof (cache_loop_raises entries (∅, ∅) idx Hin Hbad) as Hl.
      now destruct (cache_loop entries (∅, ∅)). }
    split; [exact Hc|]. unfold get_cpu_info.
    destruct (_cpu_brand os); [|reflexivity].
    destruct (_cpu_architecture os); [|reflexivity].
    destruct (_cpu_count os false); [|reflexivity].
    destruct (_cpu_count os true); [|reflexivity].
    destruct (_cpu_frequency os); [|reflexivity].
    destruct (_cpu_usage os); [|reflexivity].
    destruct (_cpu_features os); [|reflexivity].
    cbn [mbind result_bind].
    destruct (_cpu_cache_sizes os); [discriminate Hc | reflexivity].
Qed.

Lemma cache_scan_errors_escape_witness :
  is_ok (_cpu_cache_sizes
           (env_cache [sample_index "2" "256K";
                       {| level_exists := Raise OSError; size_exists := Ok true;
                          level_read_text := Ok "1"; size_read_text := Ok "32K" |}]))
  = false.
Proof.
  refine (proj1 (proj2 (proj2 (proj2 (proj2 cache_scan_errors_escape)))
            (env_cache [sample_index "2" "256K";
                        {| level_exists := Raise OSError; size_exists := Ok true;
                           level_read_text := Ok "1"; size_read_text := Ok "32K" |}])
            _ {| level_exists := Raise OSError; size_exists := Ok true;
                 level_read_text := Ok "1"; size_read_text := Ok "32K" |}
            eq_refl eq_refl _ eq_refl)).
  apply list_elem_of_further, list_elem_of_here.
Defined.

(** X27.  The [exists()] test of the info pseudo-file stands outside the
    handlers too: its error leaves [_cpu_features] and [get_cpu_info], and
    leaves [_cpu_brand] whenever the platform gave no name of its own (the
    call failed, or the name is empty or generic); a platform name of its
    own keeps [_cpu_brand] away from the file. *)
Theorem cpuinfo_exists_errors_escape (os : env) (e : exn) :
  cpuinfo_exists os = Raise e ->
  _cpu_features os = Raise e
  ∧ is_ok (get_cpu_info os) = false
  ∧ (fails (platform_processor os) = true -> _cpu_brand os = Raise e)
  ∧ (∀ name, processor_name os = Ok name ->
       name = "" ∨ lower (strip name) ∈ GENERIC_CPU_NAMES ->
       _cpu_brand os = Raise e)
  ∧ (∀ name, processor_name os = Ok name -> name ≠ "" ->
       lower (strip name) ∉ GENERIC_CPU_NAMES -> _cpu_brand os = Ok name).
Proof.
  intros Hex.
  assert (Hf : _cpu_features os = Raise e).
  { unfold _cpu_features. now rewrite Hex. }
  split; [exact Hf|]. split; [|split; [|split]].
  - unfold get_cpu_info.
    destruct (_cpu_brand os); [|reflexivity].
    destruct (_cpu_architecture os); [|reflexivity].
    destruct (_cpu_count os false); [|reflexivity].
    destruct (_cpu_count os true); [|reflexivity].
    destruct (_cpu_frequency os); [|reflexivity].
    destruct (_cpu_usage os); [|reflexivity].
    cbn [mbind result_bind]. now rewrite Hf.
  - intros (e' & Hp & He')%fails_inv. unfold _cpu_brand, processor_name.
    rewrite Hp. cbn [mbind result_bind try_except]. rewrite He'.
    cbn [mbind result_bind is_empty negb andb]. now rewrite Hex.
  - intros name Hname Hgen. rewrite (cpu_brand_falls_back os name Hname Hgen).
    now rewrite Hex.
  - intros name. apply cpu_brand_platform_name.
Qed.

Lemma cpuinfo_exists_errors_escape_witness :
  _cpu_brand (env_processor (Ok "x86_64")) = Raise OSError
  ∧ _cpu_features (env_processor (Ok "x86_64")) = Raise OSError.
Proof.
  destruct (cpuinfo_exists_errors_escape (env_processor (Ok "x86_64")) OSError eq_refl)
    as (H1 & _ & _ & H2 & _).
  split; [|exact H1].
  apply (H2 "x86_64"); [reflexivity|]. right. vm_compute. repeat constructor.
Defined.

(** X28.  An exception that does not derive from [Exception] (a keyboard
    interrupt, a system exit) is never turned into the sentinel:
    [safe_call] passes it on, and so do the four collectors built on it. *)
Theorem base_exceptions_pass_through (e : exn) :
  is_Exception e = false ->
  (∀ (A : Type) (func : unit -> result A) (default : A),
     func () = Raise e -> safe_call func default = Raise e)
  ∧ (∀ os, platform_machine os = Raise e -> _cpu_architecture os = Raise e)
  ∧ (∀ os logical, psutil_cpu_count os logical = Raise e ->
       _cpu_count os logical = Raise e)
  ∧ (∀ os, psutil_cpu_freq os = Raise e -> _cpu_frequency os = Raise e)
  ∧ (∀ os, psutil_cpu_percent os = Raise e -> _cpu_usage os = Raise e)
  ∧ (∀ os u, platform_uname os = Ok u -> u_system u ≠ "" -> u_release u ≠ "" ->
       u_version u ≠ "" -> socket_gethostname os = Raise e ->
       get_system_info os = Raise e).
Proof.
  intros He.
  assert (Hsafe : ∀ (A : Type) (func : unit -> result A) (default : A),
            func () = Raise e -> safe_call func default = Raise e).
  { intros A func default Hf. now apply safe_call_base_exception. }
  split; [exact Hsafe|]. split; [|split; [|split; [|split]]].
  - intros os H. unfold _cpu_architecture. apply Hsafe. now rewrite H.
  - intros os logical H. unfold _cpu_count. now rewrite (Hsafe _ _ _ H).
  - intros os H. unfold _cpu_frequency. now rewrite (Hsafe _ _ _ H).
  - intros os H. unfold _cpu_usage. now rewrite (Hsafe _ _ _ H).
  - intros os u Hu H1 H2 H3 Hh. unfold get_system_info. rewrite Hu.
    cbn [mbind result_bind]. unfold str_or.
    destruct (u_system u); [now destruct H1|].
    destruct (u_release u); [now destruct H2|].
    destruct (u_version u); [now destruct H3|].
    cbn [is_empty mbind result_bind]. now rewrite (Hsafe _ _ _ Hh).
Qed.

Lemma base_exceptions_pass_through_witness :
  safe_call (fun _ => Raise KeyboardInterrupt) (VStr UNKNOWN) = Raise KeyboardInterrupt.
Proof.
  exact (proj1 (base_exceptions_pass_through KeyboardInterrupt eq_refl)
           value (fun _ => Raise KeyboardInterrupt) (VStr UNKNOWN) eq_refl).
Defined.
